(** * The Wax test server: session store, repository, chunked decoder and
      request dispatcher of [wax_server.py], embedded in Rocq.

    The embedding follows the Python source function by function.  Python
    values that come from [json.loads] are modelled by the type [json];
    dictionaries are finite maps ([gmap string json]), so that two
    dictionaries with the same entries are equal whatever the order in which
    they were built, as in Python.  Numbers are restricted to integers:
    floating-point payloads are outside the model.

    Part I holds the definitions, Part II the lemmas and theorems. *)

From stdpp Require Import gmap strings list fin_maps pretty.
From Equations Require Import Equations.
From Stdlib Require Import ZArith NArith Ascii String.
From Stdlib Require HexadecimalString HexadecimalN.

Local Open Scope Z_scope.
Local Open Scope string_scope.
Local Open Scope list_scope.

(** * Part I: the model *)

(** ** JSON values as Python sees them *)

#[local] Unset Elimination Schemes.

Inductive json :=
  | JNull
  | JBool (b : bool)
  | JNum (n : Z)
  | JStr (s : string)
  | JArr (l : list json)
  | JObj (m : gmap string json).

#[local] Set Elimination Schemes.

(** A stored item is a Python [dict] with string keys. *)
Abbreviation Item := (gmap string json).

(** Python's [==] on decoded JSON values.  Booleans compare equal to the
    integers 0 and 1; lists compare element-wise; dictionaries compare equal
    when they have the same keys and equal values under each key. *)
Fixpoint py_eq (a b : json) {struct a} : bool :=
  match a, b with
  | JNull, JNull => true
  | JBool x, JBool y => bool_decide (x = y)
  | JBool x, JNum n => bool_decide (n = if x then 1 else 0)
  | JNum n, JBool x => bool_decide (n = if x then 1 else 0)
  | JNum n, JNum k => bool_decide (n = k)
  | JStr s, JStr t => bool_decide (s = t)
  | JArr l1, JArr l2 =>
      (fix go (l1 l2 : list json) : bool :=
         match l1, l2 with
         | [], [] => true
         | x :: xs, y :: ys => py_eq x y && go xs ys
         | _, _ => false
         end) l1 l2
  | JObj m1, JObj m2 =>
      bool_decide (map_Forall (fun _ (r : bool) => r = true)
        (merge (fun o1 o2 =>
                  match o1, o2 with
                  | Some x, Some y => Some (py_eq x y)
                  | None, None => None
                  | _, _ => Some false
                  end) m1 m2))
  | _, _ => false
  end.

(** Python truthiness ([if x:] / [not x]) of a decoded JSON value. *)
Definition truthy (j : json) : bool :=
  match j with
  | JNull => false
  | JBool b => b
  | JNum n => negb (bool_decide (n = 0))
  | JStr s => negb (bool_decide (s = ""))
  | JArr l => negb (bool_decide (l = []))
  | JObj m => negb (bool_decide (m = ∅))
  end.

(** Truthiness of a value that may be [None]. *)
Definition truthy_opt (o : option json) : bool :=
  match o with
  | Some j => truthy j
  | None => false
  end.

(** Size of a value, used for induction through nested containers. *)
Fixpoint json_size (j : json) : nat :=
  match j with
  | JArr l => S (foldr (fun x acc => (json_size x + acc)%nat) 0%nat l)
  | JObj m => S (map_fold (fun _ v acc => (json_size v + acc)%nat) 0%nat m)
  | _ => 1%nat
  end.

(** Pointwise agreement of two optional values under a comparison. *)
Definition opt_agree (eq : json → json → bool) (o1 o2 : option json) : Prop :=
  match o1, o2 with
  | Some x, Some y => eq x y = true
  | None, None => True
  | _, _ => False
  end.

(** ** Outcomes of Python calls *)

(** The exceptions the server code can raise and does not catch. *)
Inductive exn :=
  | KeyError
  | TypeError
  | ValueError
  | AttributeError
  | ThreadError.

(** A call returns, raises, or blocks for ever on a lock that is held. *)
Inductive result (A : Type) :=
  | Ok (a : A)
  | Raise (e : exn)
  | Hang.
Arguments Ok {A} a.
Arguments Raise {A} e.
Arguments Hang {A}.

(** Methods are state-passing computations over the object [S] they act on.
    The state is kept on every outcome, since an exception leaves behind
    whatever the method had already done. *)
Definition M (S A : Type) : Type := S → result A * S.

#[global] Instance M_ret {S} : MRet (M S) := fun A a s => (Ok a, s).
#[global] Instance M_bind {S} : MBind (M S) := fun A B f m s =>
  match m s with
  | (Ok a, s') => f a s'
  | (Raise e, s') => (Raise e, s')
  | (Hang, s') => (Hang, s')
  end.

#[global] Instance M_fmap {S} : FMap (M S) := fun A B f m s =>
  match m s with
  | (Ok a, s') => (Ok (f a), s')
  | (Raise e, s') => (Raise e, s')
  | (Hang, s') => (Hang, s')
  end.

Definition raise {S A} (e : exn) : M S A := fun s => (Raise e, s).
Definition gets {S A} (f : S → A) : M S A := fun s => (Ok (f s), s).
Definition modify {S} (f : S → S) : M S unit := fun s => (Ok (), f s).

(** Objects guarded by a [threading.Lock]. *)
Class Locked (S : Type) := {
  locked : S → bool;
  set_locked : bool → S → S
}.

(** [self._mutex.acquire()]: blocks for ever if the lock is already held. *)
Definition acquire {S} `{Locked S} : M S unit := fun s =>
  if locked s then (Hang, s) else (Ok (), set_locked true s).

(** [self._mutex.release()]: releasing an unlocked lock is an error. *)
Definition release {S} `{Locked S} : M S unit := fun s =>
  if locked s then (Ok (), set_locked false s) else (Raise ThreadError, s).

(** [copy.deepcopy]: values are immutable in this part of the model, so a
    copy is the value itself.  Object identity and aliasing are treated
    separately in [Module Heap]. *)
Definition deepcopy {A} (x : A) : A := x.

(** [list.remove(x)]: drops the first element equal to [x]; [None] stands for
    the [ValueError] raised when there is none. *)
Fixpoint list_remove (x : Item) (l : list Item) : option (list Item) :=
  match l with
  | [] => None
  | y :: l' =>
      if py_eq (JObj y) (JObj x) then Some l'
      else cons y <$> list_remove x l'
  end.

(** [d.items()], an [AttributeError] on anything that is not a dictionary. *)
Definition py_items {S} (d : json) : M S (list (string * json)) :=
  match d with
  | JObj m => mret (map_to_list m)
  | _ => raise AttributeError
  end.

(** [dict(pairs)]: a later pair overrides an earlier one with the same key. *)
Definition py_dict (pairs : list (string * json)) : Item :=
  foldl (fun m kv => <[kv.1 := kv.2]> m) ∅ pairs.

(** ** class SessionData *)

Module SessionData.

(** [_items] is the ordered list of stored items; [_mutex] is [true] while
    the session lock is held.  The creation time [_created] is never read and
    is left out. *)
Record t := mk {
  _items : list Item;
  _mutex : bool
}.

#[global] Instance t_locked : Locked t := {
  locked := _mutex;
  set_locked b s := mk (_items s) b
}.

(** The loop of [_FindItem]: [session_item['id']] raises [KeyError] on an
    item without an [id]. *)
Fixpoint FindItem_in (key : json) (items : list Item) : result (option Item) :=
  match items with
  | [] => Ok None
  | session_item :: rest =>
      match session_item !! "id" with
      | None => Raise KeyError
      | Some v =>
          if py_eq v key then Ok (Some session_item) else FindItem_in key rest
      end
  end.

Definition _FindItem (key : json) : M t (option Item) := fun s =>
  (FindItem_in key (_items s), s).

(** [if session_item:] where [session_item] is a dictionary or [None]. *)
Definition found (session_item : option Item) : bool :=
  truthy_opt (JObj <$> session_item).

(** [self._items.remove(session_item)] *)
Definition items_remove (session_item : Item) : M t unit := fun s =>
  match list_remove session_item (_items s) with
  | Some l => (Ok (), mk l (_mutex s))
  | None => (Raise ValueError, s)
  end.

(** [self._items.append(x)] *)
Definition items_append (x : Item) : M t unit :=
  modify (fun s => mk (_items s ++ [x]) (_mutex s)).

Definition wax_kind : json := JStr "wax#waxDataItem".

(** [AddWaxKind]: [item['kind'] = 'wax#waxDataItem'], a [TypeError] on
    anything that is not a dictionary. *)
Definition AddWaxKind (item : json) : M t Item :=
  match item with
  | JObj m => mret (<["kind" := wax_kind]> m)
  | _ => raise TypeError
  end.

Definition item_A : Item :=
  <["kind" := wax_kind]> (<["id" := JStr "A"]> (<["name" := JStr "Item A"]> ∅)).
Definition item_B : Item :=
  <["kind" := wax_kind]> (<["id" := JStr "B"]> (<["name" := JStr "Item B"]> ∅)).

(** [SessionData.__init__]: items A and B, stamped, in that order. *)
Definition __init__ : t := mk [item_A; item_B] false.

Definition AddNewItem (key item : json) : M t (option Item) :=
  acquire ;;
  session_item ← _FindItem key;
  wax ← (if negb (found session_item) then
           wax ← AddWaxKind item;
           items_append (deepcopy wax) ;;
           mret (Some wax)
         else mret None);
  release ;;
  mret wax.

Definition ReplaceItem (key item : json) : M t Item :=
  wax ← AddWaxKind item;
  acquire ;;
  session_item ← _FindItem key;
  match session_item with
  | Some it => if found session_item then items_remove it else mret ()
  | None => mret ()
  end ;;
  items_append (deepcopy wax) ;;
  release ;;
  mret wax.

Definition PatchItem (key item : json) : M t (option Item) :=
  acquire ;;
  session_item ← _FindItem key;
  wax ← match session_item with
        | Some it =>
            if found session_item then
              items_remove it ;;
              patch ← py_items item;
              let wax := py_dict (map_to_list it ++ patch) in
              items_append (deepcopy wax) ;;
              mret (Some wax)
            else mret None
        | None => mret None
        end;
  release ;;
  mret wax.

Definition DeleteItem (key : json) : M t (option Item) :=
  acquire ;;
  session_item ← _FindItem key;
  match session_item with
  | Some it => if found session_item then items_remove it else mret ()
  | None => mret ()
  end ;;
  release ;;
  mret session_item.

Definition GetItemCopy (key : json) : M t (option Item) :=
  acquire ;;
  session_item ← _FindItem key;
  let result := if found session_item then deepcopy session_item else None in
  release ;;
  mret result.

Definition GetAllItemsCopy : M t (list Item) :=
  acquire ;;
  result ← gets (fun s => deepcopy (_items s));
  release ;;
  mret result.

End SessionData.

(** ** class Repository *)

Module Repository.

(** [_nodeid] is [str(time.clock())] at construction: some fixed string.
    [_sequence_num] is an unbounded Python integer. *)
Record t := mk {
  _sessions : gmap string SessionData.t;
  _nodeid : string;
  _sequence_num : N;
  _mutex : bool
}.

#[global] Instance t_locked : Locked t := {
  locked := _mutex;
  set_locked b r := mk (_sessions r) (_nodeid r) (_sequence_num r) b
}.

Definition __init__ (nodeid : string) : t := mk ∅ nodeid 0%N false.

Definition GetSessionData (key : string) : M t (option SessionData.t) :=
  acquire ;;
  session_data ← gets (fun r => _sessions r !! key);
  release ;;
  mret session_data.

(** [self._sessions.pop(key, None)]: on an empty dictionary [pop] hands
    back the default without looking at the key; otherwise a list or a
    dictionary is not hashable and makes [pop] raise [TypeError]; any other
    value that is not a string is simply not a key of the dictionary. *)
Definition sessions_pop (key : json) : M t (option SessionData.t) :=
  match key with
  | JStr k => fun r =>
      (Ok (_sessions r !! k),
       mk (delete k (_sessions r)) (_nodeid r) (_sequence_num r) (_mutex r))
  | JArr _ | JObj _ => fun r =>
      if bool_decide (_sessions r = ∅) then (Ok None, r)
      else (Raise TypeError, r)
  | _ => mret None
  end.

Definition RemoveIdentifier (key : json) : M t (option SessionData.t) :=
  acquire ;;
  session_data ← sessions_pop key;
  release ;;
  mret session_data.

(** ['%s-%s-%s' % (basename, self._nodeid, self._sequence_num)] for a
    [basename] that is already a string. *)
Definition format_key (basename nodeid : string) (sequence_num : N) : string :=
  basename +:+ "-" +:+ nodeid +:+ "-" +:+ pretty sequence_num.

Definition NewIdentifier (basename : string) : M t string :=
  acquire ;;
  modify (fun r =>
    mk (_sessions r) (_nodeid r) (_sequence_num r + 1)%N (_mutex r)) ;;
  key ← gets (fun r => format_key basename (_nodeid r) (_sequence_num r));
  modify (fun r =>
    mk (<[key := SessionData.__init__]> (_sessions r))
       (_nodeid r) (_sequence_num r) (_mutex r)) ;;
  release ;;
  mret key.

End Repository.

(** ** Reading a chunked request body *)

(** [string.hexdigits] *)
Definition hexdigits : string := "0123456789abcdefABCDEF".

(** [c in s] for a one-character string [c]. *)
Fixpoint char_in (c : ascii) (s : string) : bool :=
  match s with
  | EmptyString => false
  | String d s' => bool_decide (c = d) || char_in c s'
  end.

(** [int(c, 16)] for a character of [hexdigits]. *)
Definition hex_value (c : ascii) : N :=
  let n := N_of_ascii c in
  if (n <=? 57)%N then (n - 48)%N          (* '0'..'9' *)
  else if (n <=? 70)%N then (n - 55)%N     (* 'A'..'F' *)
  else (n - 87)%N.                         (* 'a'..'f' *)

Definition CR : ascii := "013"%char.
Definition LF : ascii := "010"%char.
Definition CRLF : string := String CR (String LF EmptyString).

(** The inner loop of [_ReadChunkedPayload]: reads the size line one byte at
    a time from [rfile] and returns the chunk length with the unread rest.
    At the end of the input [read(1)] returns the empty string, which is [in]
    every string, and [int('', 16)] raises [ValueError]. *)
Fixpoint read_chunk_len (rfile : string) (chunk_len : N) : result N * string :=
  match rfile with
  | EmptyString => (Raise ValueError, EmptyString)
  | String hex_digit rest =>
      if char_in hex_digit hexdigits then
        read_chunk_len rest (16 * chunk_len + hex_value hex_digit)%N
      else if negb (bool_decide (hex_digit = CR)) then (Raise ValueError, rest)
      else
        match rest with
        | EmptyString => (Raise ValueError, EmptyString)
        | String c rest' =>
            if negb (bool_decide (c = LF)) then (Raise ValueError, rest')
            else (Ok chunk_len, rest')
        end
  end.

(** [rfile.read(n)] on the bytes that are still to come: the first [n]
    bytes, or all of them if there are fewer. *)
Fixpoint string_take (n : nat) (s : string) : string :=
  match n, s with
  | S n', String c s' => String c (string_take n' s')
  | _, _ => EmptyString
  end.

Fixpoint string_drop (n : nat) (s : string) : string :=
  match n, s with
  | S n', String _ s' => string_drop n' s'
  | _, _ => s
  end.

Lemma read_chunk_len_shorter rfile n r rest :
  read_chunk_len rfile n = (r, rest) → rfile ≠ EmptyString →
  (String.length rest < String.length rfile)%nat.
Proof.
  revert n. induction rfile as [|c s IH]; intros n; [done|].
  cbn [read_chunk_len]. intros H _. destruct (char_in c hexdigits).
  - destruct s as [|d s'].
    + simpl in H. injection H as _ <-. simpl. lia.
    + apply IH in H; [|done]. cbn [String.length] in *. lia.
  - destruct (negb (bool_decide (c = CR))).
    + injection H as _ <-. cbn [String.length]. lia.
    + destruct s as [|d s'].
      * injection H as _ <-. simpl. lia.
      * destruct (negb (bool_decide (d = LF))); injection H as _ <-;
          cbn [String.length]; lia.
Defined.

Lemma string_drop_length n s :
  (String.length (string_drop n s) ≤ String.length s)%nat.
Proof.
  revert s. induction n as [|n IH]; intros [|c s]; simpl; try lia.
  specialize (IH s). lia.
Defined.

(** A value together with the equation that names it. *)
Definition inspect {A} (a : A) : {b | a = b} := exist _ a eq_refl.

(** The outer loop of [_ReadChunkedPayload], with the chunks read so far in
    [payload]: returns [''.join(payload)] and the unread rest of [rfile].
    Every round consumes the two bytes of a line end at least, so the loop
    ends. *)
Equations read_chunks (rfile : string) (payload : list string)
  : result string * string by wf (String.length rfile) lt :=
read_chunks rfile payload with inspect (read_chunk_len rfile 0%N) := {
  | exist _ (Ok chunk_len, rest) Heq =>
      if (chunk_len =? 0)%N then (Ok (String.concat "" payload), rest)
      else read_chunks (string_drop (N.to_nat chunk_len) rest)
             (payload ++ [string_take (N.to_nat chunk_len) rest])
  | exist _ (Raise e, rest) _ => (Raise e, rest)
  | exist _ (Hang, rest) _ => (Hang, rest) }.
Next Obligation.
  destruct rfile as [|c s]; [discriminate Heq|].
  pose proof (read_chunk_len_shorter _ _ _ _ Heq ltac:(done)).
  pose proof (string_drop_length (N.to_nat chunk_len) rest). lia.
Defined.

(** ** The Python library functions the handler calls *)

(** [json.loads], [json.dumps], [int] on a header value, and the text that
    [%s] formatting gives for a decoded JSON value.  [json_loads] raises
    [ValueError] on text that is not JSON. *)
Class PyLib := {
  json_loads : string → result json;
  json_dumps : json → string;
  py_int : string → result Z;
  py_str : json → string
}.

(** [d[k]]: [KeyError] when the key is missing, [TypeError] when [d] is not a
    dictionary (a list, a string, a number, a boolean or [None] indexed by a
    string). *)
Definition py_getitem {S} (d : json) (k : string) : M S json :=
  match d with
  | JObj m =>
      match m !! k with
      | Some v => mret v
      | None => raise KeyError
      end
  | _ => raise TypeError
  end.

(** [d.get(k, None)]: [AttributeError] when [d] is not a dictionary. *)
Definition py_get {S} (d : json) (k : string) : M S json :=
  match d with
  | JObj m => mret (default JNull (m !! k))
  | _ => raise AttributeError
  end.

(** [d.setdefault(k, v)], returning the dictionary as it is afterwards. *)
Definition py_setdefault {S} (d : json) (k : string) (v : json) : M S Item :=
  match d with
  | JObj m =>
      match m !! k with
      | Some _ => mret m
      | None => mret (<[k := v]> m)
      end
  | _ => raise AttributeError
  end.

(** ** Path patterns *)

(** [s] without the prefix [p], if it starts with [p]. *)
Fixpoint strip_prefix (p s : string) : option string :=
  match p, s with
  | EmptyString, _ => Some s
  | String a p', String b s' => if bool_decide (a = b) then strip_prefix p' s' else None
  | String _ _, EmptyString => None
  end.

(** The longest prefix of [s] without a [/], and what follows it. *)
Fixpoint span_non_slash (s : string) : string * string :=
  match s with
  | EmptyString => (EmptyString, EmptyString)
  | String c s' =>
      if bool_decide (c = "/"%char) then (EmptyString, s)
      else let (g, rest) := span_non_slash s' in (String c g, rest)
  end.

(** [([^/]+)]: a non-empty run of characters other than [/].  The run is as
    long as it can be; a shorter one could only be followed by a character
    of the run, never by the [/] that both patterns want next. *)
Definition group_non_slash (s : string) : option (string * string) :=
  let (g, rest) := span_non_slash s in
  if bool_decide (g = "") then None else Some (g, rest).

(** [_RE_SESSION_COMMAND.match(path)] with [group(1)]: the pattern
    [^/sessions/([^/]+)/items], matched at the start of the path. *)
Definition _RE_SESSION_COMMAND (path : string) : option string :=
  rest ← strip_prefix "/sessions/" path;
  '(session_id, rest) ← group_non_slash rest;
  _ ← strip_prefix "/items" rest;
  Some session_id.

(** [_RE_ITEM_COMMAND.match(path)] with [group(1)] and [group(2)]: the
    pattern [^/sessions/([^/]+)/items/([^/]+)]. *)
Definition _RE_ITEM_COMMAND (path : string) : option (string * string) :=
  rest ← strip_prefix "/sessions/" path;
  '(session_id, rest) ← group_non_slash rest;
  rest ← strip_prefix "/items/" rest;
  '(item_id, _) ← group_non_slash rest;
  Some (session_id, item_id).

Definition _JSON_CONTENT_TYPE : string := "application/json".

(** ** class WaxHandler *)

Module WaxHandler.

Record Response := mkResponse {
  http_code : Z;
  content_type : string;
  payload : string
}.

(** The handler of one request, with the module globals it reads and
    writes: [REPOSITORY_] and [run], which is [_SERVER_SETTINGS['run']].
    [headers] maps a header name to its value, [rfile] holds the bytes of
    the request body that are still unread, and [wfile] collects the
    responses sent. *)
Record t := mk {
  REPOSITORY_ : Repository.t;
  run : bool;
  path : string;
  headers : gmap string string;
  rfile : string;
  wfile : list Response
}.

Definition set_REPOSITORY_ (r : Repository.t) (h : t) : t :=
  mk r (run h) (path h) (headers h) (rfile h) (wfile h).
Definition set_run (b : bool) (h : t) : t :=
  mk (REPOSITORY_ h) b (path h) (headers h) (rfile h) (wfile h).
Definition set_rfile (s : string) (h : t) : t :=
  mk (REPOSITORY_ h) (run h) (path h) (headers h) s (wfile h).
Definition set_wfile (w : list Response) (h : t) : t :=
  mk (REPOSITORY_ h) (run h) (path h) (headers h) (rfile h) w.

(** A method call on the global [REPOSITORY_]. *)
Definition on_REPOSITORY_ {A} (m : M Repository.t A) : M t A := fun h =>
  let (r, repo) := m (REPOSITORY_ h) in (r, set_REPOSITORY_ repo h).

(** A method call on [session_data], the object that [GetSessionData] found
    under [session_id]: the repository holds that same object, so what the
    method does to it shows there. *)
Definition on_session {A} (session_id : string) (session_data : SessionData.t)
    (m : M SessionData.t A) : M t A := fun h =>
  let (r, s') := m session_data in
  let repo := REPOSITORY_ h in
  (r, set_REPOSITORY_
        (Repository.mk (<[session_id := s']> (Repository._sessions repo))
           (Repository._nodeid repo) (Repository._sequence_num repo)
           (Repository._mutex repo)) h).

(** A library call that may raise. *)
Definition lift {S A} (r : result A) : M S A := fun s => (r, s).

(** [self.headers.getheader(name)] *)
Definition getheader (name : string) : M t (option string) :=
  gets (fun h => headers h !! name).

(** [self.rfile.read(n)]; a negative [n] reads everything that is left. *)
Definition rfile_read (n : Z) : M t string := fun h =>
  if (n <? 0)%Z then (Ok (rfile h), set_rfile "" h)
  else (Ok (string_take (Z.to_nat n) (rfile h)),
        set_rfile (string_drop (Z.to_nat n) (rfile h)) h).

Section Methods.
Context `{PyLib}.

Definition _SendResponse (payload : string) (http_code : Z)
    (content_type : string) : M t Z :=
  modify (fun h =>
    set_wfile (wfile h ++ [mkResponse http_code content_type payload]) h) ;;
  mret http_code.

Definition _SendJsonObjectResponse (obj : json) (http_code : Z) : M t Z :=
  _SendResponse (json_dumps obj) http_code _JSON_CONTENT_TYPE.

(** The error object [{'message': msg, 'code': http_code}]. *)
Definition error_object (msg : string) (http_code : Z) : json :=
  JObj (<["message" := JStr msg]> (<["code" := JNum http_code]> ∅)).

Definition _SendJsonErrorResponse (msg : string) (http_code : Z) : M t Z :=
  _SendResponse (json_dumps (error_object msg http_code)) http_code
    _JSON_CONTENT_TYPE.

Definition _ReadChunkedPayload : M t string := fun h =>
  let (r, rest) := read_chunks (rfile h) [] in (r, set_rfile rest h).

(** [_GetJson]: the decoded body, or [JNull] (Python's [None]) when there is
    no usable body or the decoded value is falsy. *)
Definition _GetJson : M t json :=
  encoding ← getheader "Transfer-Encoding";
  payload ←
    (if bool_decide (encoding = Some "chunked") then
       Some <$> _ReadChunkedPayload
     else
       content_length ← getheader "Content-Length";
       length ← match content_length with
                | Some v => lift (py_int v)
                | None => raise TypeError
                end;
       payload ← rfile_read length;
       content_type ← getheader "Content-Type";
       if bool_decide (payload = "")
          || negb (bool_decide (content_type = Some _JSON_CONTENT_TYPE))
       then mret None
       else mret (Some payload));
  match payload with
  | None => mret JNull
  | Some payload =>
      json_item ← lift (json_loads payload);
      if negb (truthy json_item) then mret JNull else mret json_item
  end.

Definition _ProcessNewSessionCommand : M t Z :=
  request_json ← _GetJson;
  if negb (truthy request_json) then
    _SendJsonErrorResponse "Invalid JSON" 400
  else
    session_name ← py_getitem request_json "sessionName";
    key ← on_REPOSITORY_ (Repository.NewIdentifier (py_str session_name));
    _SendJsonObjectResponse
      (JObj (<["kind" := JStr "wax#waxNewSession"]>
               (<["newSessionId" := JStr key]> ∅))) 200.

Definition _ProcessRemoveSessionCommand : M t Z :=
  request_json ← _GetJson;
  if negb (truthy request_json) then
    _SendJsonErrorResponse "Invalid JSON" 400
  else
    key ← py_getitem request_json "sessionId";
    old_item ← on_REPOSITORY_ (Repository.RemoveIdentifier key);
    if negb (bool_decide (is_Some old_item)) then
      _SendJsonErrorResponse "Unknown sessionId" 404
    else
      _SendJsonObjectResponse
        (JObj (<["kind" := JStr "wax#waxRemoveSession"]>
                 (<["removeSessionId" := key]> ∅))) 200.

Definition _ProcessGetSessionItemsCommand (session_id : string)
    (session_data : SessionData.t) : M t Z :=
  items_copy ← on_session session_id session_data SessionData.GetAllItemsCopy;
  _SendJsonObjectResponse
    (JObj (<["kind" := JStr "wax#waxList"]>
             (<["items" := JArr (JObj <$> items_copy)]> ∅))) 200.

(** The 3 ms [time.sleep] before the success response is not modelled. *)
Definition _ProcessInsertNewItemCommand (session_id : string)
    (session_data : SessionData.t) : M t Z :=
  request_json ← _GetJson;
  if negb (truthy request_json) then
    _SendJsonErrorResponse "Invalid JSON" 400
  else
    item_id ← py_get request_json "id";
    if negb (truthy item_id) then
      _SendJsonErrorResponse "JSON missing id" 400
    else
      added ← on_session session_id session_data
                (SessionData.AddNewItem item_id request_json);
      match added with
      | Some wax =>
          if SessionData.found added then
            _SendJsonObjectResponse (JObj wax) 200
          else _SendJsonErrorResponse "Item already exists" 403
      | None => _SendJsonErrorResponse "Item already exists" 403
      end.

Definition _ProcessGetItemCommand (session_id : string)
    (session_data : SessionData.t) (item_id : string) : M t Z :=
  item_copy ← on_session session_id session_data
                (SessionData.GetItemCopy (JStr item_id));
  match item_copy with
  | Some it =>
      if SessionData.found item_copy then _SendJsonObjectResponse (JObj it) 200
      else _SendJsonErrorResponse "Unknown item" 404
  | None => _SendJsonErrorResponse "Unknown item" 404
  end.

Definition _ProcessDeleteItemCommand (session_id : string)
    (session_data : SessionData.t) (item_id : string) : M t Z :=
  deleted ← on_session session_id session_data
              (SessionData.DeleteItem (JStr item_id));
  if SessionData.found deleted then _SendResponse "" 204 "text/plain"
  else _SendJsonErrorResponse "Unknown item in session" 404.

Definition _ProcessPatchItemCommand (session_id : string)
    (session_data : SessionData.t) (item_id : string) (request_json : json)
    : M t Z :=
  patched_item ← on_session session_id session_data
                   (SessionData.PatchItem (JStr item_id) request_json);
  match patched_item with
  | Some it =>
      if SessionData.found patched_item then
        _SendJsonObjectResponse (JObj it) 200
      else _SendJsonErrorResponse "Unknown item in session" 404
  | None => _SendJsonErrorResponse "Unknown item in session" 404
  end.

Definition _ProcessUpdateItemCommand (session_id : string)
    (session_data : SessionData.t) (item_id : string) (request_json : json)
    : M t Z :=
  request_json ← py_setdefault request_json "id" (JStr item_id);
  id ← py_getitem (JObj request_json) "id";
  if negb (py_eq id (JStr item_id)) then
    _SendJsonErrorResponse "Mismatched item ids" 400
  else
    wax ← on_session session_id session_data
            (SessionData.ReplaceItem (JStr item_id) (JObj request_json));
    _SendJsonObjectResponse (JObj wax) 200.

(** [_HandleSessionMethod]; the value returned is the status code, or [None]
    where the Python method returns nothing. *)
Definition _HandleSessionMethod (method session_id : string)
    : M t (option Z) :=
  session_data ← on_REPOSITORY_ (Repository.GetSessionData session_id);
  match session_data with
  | None => _SendJsonErrorResponse "Unknown sessionId" 404 ;; mret None
  | Some session_data =>
      if bool_decide (method = "GET") then
        Some <$> _ProcessGetSessionItemsCommand session_id session_data
      else if bool_decide (method = "POST") then
        Some <$> _ProcessInsertNewItemCommand session_id session_data
      else Some <$> _SendJsonErrorResponse "Unhandled method" 405
  end.

Definition _HandleItemMethod (method session_id item_id : string)
    : M t (option Z) :=
  session_data ← on_REPOSITORY_ (Repository.GetSessionData session_id);
  match session_data with
  | None => Some <$> _SendJsonErrorResponse "Unknown sessionId" 404
  | Some session_data =>
      if bool_decide (method = "GET") then
        Some <$> _ProcessGetItemCommand session_id session_data item_id
      else if bool_decide (method = "DELETE") then
        Some <$> _ProcessDeleteItemCommand session_id session_data item_id
      else
        request_json ← _GetJson;
        if negb (truthy request_json) then
          Some <$> _SendJsonErrorResponse "Invalid JSON" 400
        else if bool_decide (method = "PATCH") then
          Some <$> _ProcessPatchItemCommand session_id session_data item_id
                     request_json
        else if bool_decide (method = "PUT") then
          Some <$> _ProcessUpdateItemCommand session_id session_data item_id
                     request_json
        else Some <$> _SendJsonErrorResponse "Unhandled method" 405
  end.

Definition _DispatchMethod (method : string) : M t (option Z) :=
  path ← gets path;
  if bool_decide (path = "/quit") then
    modify (set_run false) ;;
    Some <$> _SendResponse "BYE" 200 "text/plain"
  else if bool_decide (path = "/newsession") && bool_decide (method = "POST")
  then Some <$> _ProcessNewSessionCommand
  else if bool_decide (path = "/removesession")
          && bool_decide (method = "POST")
  then Some <$> _ProcessRemoveSessionCommand
  else
    match _RE_ITEM_COMMAND path with
    | Some (session_id, item_id) =>
        _HandleItemMethod method session_id item_id ;; mret None
    | None =>
        match _RE_SESSION_COMMAND path with
        | Some session_id =>
            _HandleSessionMethod method session_id ;; mret None
        | None =>
            _SendJsonErrorResponse "URL Not Available" 404 ;; mret None
        end
    end.

(** The five entry points call [_DispatchMethod] and return nothing: the
    status code that the dispatch may return is dropped. *)
Definition do_GET : M t (option Z) := _DispatchMethod "GET" ;; mret None.
Definition do_DELETE : M t (option Z) := _DispatchMethod "DELETE" ;; mret None.
Definition do_PATCH : M t (option Z) := _DispatchMethod "PATCH" ;; mret None.
Definition do_POST : M t (option Z) := _DispatchMethod "POST" ;; mret None.
Definition do_PUT : M t (option Z) := _DispatchMethod "PUT" ;; mret None.

End Methods.

End WaxHandler.

(** ** Predicates used in the statements *)

(** The item's [id] equals [key] under Python's [==]. *)
Definition id_is (key : json) (it : Item) : bool :=
  match it !! "id" with
  | Some v => py_eq v key
  | None => false
  end.

(** The item has an [id], and it differs from [key]. *)
Definition id_differs (key : json) (it : Item) : Prop :=
  ∃ v, it !! "id" = Some v ∧ py_eq v key = false.

(** [AddWaxKind] applied to a dictionary. *)
Definition stamped (it : Item) : Item := <["kind" := SessionData.wax_kind]> it.

(** No two stored items carry equal [id] values. *)
Definition ids_unique (items : list Item) : Prop :=
  ∀ i j a b x y,
    items !! i = Some a → items !! j = Some b → i ≠ j →
    a !! "id" = Some x → b !! "id" = Some y → py_eq x y = false.

(** Calls a client can make on a repository, in any order: the three methods
    of [Repository], and any change made to a session through the reference
    that [GetSessionData] handed out. *)
Inductive repo_call :=
  | CallNew (basename : string)
  | CallRemove (key : string)
  | CallGet (key : string)
  | CallUse (key : string) (change : SessionData.t → SessionData.t).

(** The state a call leaves behind. *)
Definition after_call (c : repo_call) (r : Repository.t) : Repository.t :=
  match c with
  | CallNew b => (Repository.NewIdentifier b r).2
  | CallRemove k => (Repository.RemoveIdentifier (JStr k) r).2
  | CallGet k => (Repository.GetSessionData k r).2
  | CallUse k change =>
      Repository.mk (alter change k (Repository._sessions r))
        (Repository._nodeid r) (Repository._sequence_num r)
        (Repository._mutex r)
  end.




(** The character [-] occurs in the string. *)
Fixpoint has_dash (s : string) : bool :=
  match s with
  | EmptyString => false
  | String c s' => bool_decide (c = "-"%char) || has_dash s'
  end.

(** ** A small library instance for concrete requests *)

(** Decimal digits of a header value, as [int] reads them. *)
Fixpoint digits_value (s : string) (acc : Z) : option Z :=
  match s with
  | EmptyString => Some acc
  | String c s' =>
      let n := Z.of_N (N_of_ascii c) in
      if (48 <=? n)%Z && (n <=? 57)%Z then digits_value s' (10 * acc + (n - 48))
      else None
  end.

Definition quote : string := String "034"%char EmptyString.

(** A plain rendering of a value as JSON text, without escapes in strings. *)
Fixpoint render (j : json) : string :=
  match j with
  | JNull => "null"
  | JBool true => "true"
  | JBool false => "false"
  | JNum n => pretty n
  | JStr s => quote +:+ s +:+ quote
  | JArr l => "[" +:+ foldr (fun x acc => render x +:+ "," +:+ acc) "" l +:+ "]"
  | JObj m =>
      "{" +:+ map_fold (fun k v acc =>
                 quote +:+ k +:+ quote +:+ ":" +:+ render v +:+ "," +:+ acc)
               "" m +:+ "}"
  end.

(** The request bodies of the examples and what [json.loads] makes of them;
    every other text is taken as malformed. *)
Definition example_bodies : list (string * json) :=
  [ ("{}", JObj ∅);
    ("[]", JArr []);
    ("0", JNum 0);
    ("false", JBool false);
    ("null", JNull);
    ("[1]", JArr [JNum 1]);
    ("{'foo': 1}", JObj {[ "foo" := JNum 1 ]});
    ("{'id': 'B'}", JObj {[ "id" := JStr "B" ]});
    ("{'kind': 'other'}", JObj {[ "kind" := JStr "other" ]});
    ("{'sessionName': 's'}", JObj {[ "sessionName" := JStr "s" ]});
    ("{'id': 'C', 'name': 'n'}",
       JObj (<["id" := JStr "C"]> {[ "name" := JStr "n" ]}));
    ("{'name': 'm'}", JObj {[ "name" := JStr "m" ]}) ].

Fixpoint assoc (k : string) (l : list (string * json)) : option json :=
  match l with
  | [] => None
  | (k', v) :: l' => if bool_decide (k = k') then Some v else assoc k l'
  end.

(** In the texts above a single quote stands for the double quote of JSON. *)
#[global] Instance ExampleLib : PyLib := {
  json_loads s :=
    match assoc s example_bodies with
    | Some v => Ok v
    | None => Raise ValueError
    end;
  json_dumps := render;
  py_int s :=
    match s with
    | EmptyString => Raise ValueError
    | _ => match digits_value s 0 with
           | Some n => Ok n
           | None => Raise ValueError
           end
    end;
  py_str j :=
    match j with
    | JStr s => s
    | _ => render j
    end
}.

(** A request as the handler finds it: nothing sent yet. *)
Definition request (repo : Repository.t) (path : string)
    (headers : gmap string string) (body : string) : WaxHandler.t :=
  WaxHandler.mk repo true path headers body [].

(** Headers of a request that carries [body] as JSON with its length. *)
Definition json_headers (body : string) : gmap string string :=
  <["Content-Type" := _JSON_CONTENT_TYPE]>
    {[ "Content-Length" := pretty (String.length body) ]}.

(** The status codes of the responses sent. *)
Definition statuses (h : WaxHandler.t) : list Z :=
  WaxHandler.http_code <$> WaxHandler.wfile h.

(** The request in [h] carries the text [payload] as its body, and reading
    it leaves the handler as [h1]: either the body is chunked and the chunked
    reader returns [payload], or it is sent with a [Content-Length] that
    [int] accepts, is not empty and is declared as JSON. *)
Definition body_text `{PyLib} (h : WaxHandler.t) (payload : string)
    (h1 : WaxHandler.t) : Prop :=
  (WaxHandler.headers h !! "Transfer-Encoding" = Some "chunked"
   ∧ WaxHandler._ReadChunkedPayload h = (Ok payload, h1))
  ∨ (WaxHandler.headers h !! "Transfer-Encoding" ≠ Some "chunked"
     ∧ ∃ v n, WaxHandler.headers h !! "Content-Length" = Some v
       ∧ py_int v = Ok n
       ∧ WaxHandler.rfile_read n h = (Ok payload, h1)
       ∧ payload ≠ ""
       ∧ WaxHandler.headers h !! "Content-Type" = Some _JSON_CONTENT_TYPE).

(** The body of the request in [h] is a text that [json.loads] decodes to
    [j]. *)
Definition body_decodes `{PyLib} (h : WaxHandler.t) (j : json)
    (h1 : WaxHandler.t) : Prop :=
  ∃ payload, body_text h payload h1 ∧ json_loads payload = Ok j.

(** A repository with one session, as [NewIdentifier "s"] leaves it. *)
Definition one_session : Repository.t :=
  (Repository.NewIdentifier "s" (Repository.__init__ "0.01")).2.

(** The texts of the chunked bodies in the examples. *)
Definition wiki_chunked : string :=
  "4" +:+ CRLF +:+ "Wiki" +:+ CRLF +:+ "0" +:+ CRLF +:+ CRLF.
Definition wikipedia_chunked : string :=
  "4" +:+ CRLF +:+ "Wiki" +:+ CRLF +:+ "5" +:+ CRLF +:+ "pedia" +:+ CRLF
  +:+ "0" +:+ CRLF +:+ CRLF.

(** ** Objects and references: the store seen as Python sees it *)

(** In Python a dictionary or a list is an object, and a variable, a list
    element or a dictionary value holds a reference to it.  This module
    models the heap of such objects, to state what [copy.deepcopy] and the
    two reading methods of [SessionData] do about sharing. *)
Module Heap.

(** A value is an immutable atom or a reference to an object. *)
Inductive val :=
  | VNone
  | VBool (b : bool)
  | VInt (n : Z)
  | VStr (s : string)
  | VRef (l : nat).

(** An object is a dictionary or a list of values. *)
Inductive obj :=
  | ODict (d : gmap string val)
  | OList (vs : list val).

(** The heap: the object at address [l] is [h !! l]; a new object goes at
    the end.  Objects are never freed. *)
Abbreviation heap := (list obj).

Definition alloc (o : obj) (h : heap) : heap * val :=
  (h ++ [o], VRef (List.length h)).

(** The JSON value that [v] stands for in [h], followed through at most
    [depth] references. *)
Fixpoint reify (depth : nat) (h : heap) (v : val) : option json :=
  match v with
  | VNone => Some JNull
  | VBool b => Some (JBool b)
  | VInt n => Some (JNum n)
  | VStr s => Some (JStr s)
  | VRef l =>
      match depth with
      | O => None
      | S depth' =>
          match h !! l with
          | Some (OList vs) => JArr <$> mapM (reify depth' h) vs
          | Some (ODict d) =>
              (fun js => JObj (list_to_map (zip (map_to_list d).*1 js)))
                <$> mapM (reify depth' h) (map_to_list d).*2
          | None => None
          end
      end
  end.

(** Copies the values of a list from left to right. *)
Fixpoint copy_all (copy : heap → val → option (heap * val))
    (h : heap) (vs : list val) : option (heap * list val) :=
  match vs with
  | [] => Some (h, [])
  | v :: vs' =>
      '(h1, v') ← copy h v;
      '(h2, vs'') ← copy_all copy h1 vs';
      Some (h2, v' :: vs'')
  end.

(** [copy.deepcopy(v)]: atoms are returned as they are, a list or a
    dictionary is rebuilt as a new object from copies of its contents.
    [None] means that [depth] was too small for the nesting of [v].  The
    memo table with which Python keeps shared sub-objects shared is left out:
    values decoded from JSON are trees. *)
Fixpoint deepcopy (depth : nat) (h : heap) (v : val) : option (heap * val) :=
  match v with
  | VRef l =>
      match depth with
      | O => None
      | S depth' =>
          match h !! l with
          | Some (OList vs) =>
              '(h1, vs') ← copy_all (deepcopy depth') h vs;
              Some (alloc (OList vs') h1)
          | Some (ODict d) =>
              '(h1, vs') ← copy_all (deepcopy depth') h (map_to_list d).*2;
              Some (alloc (ODict (list_to_map (zip (map_to_list d).*1 vs'))) h1)
          | None => None
          end
      end
  | _ => Some (h, v)
  end.

(** A session: the address of the list object [_items] and the lock. *)
Record session := mk_session {
  _items : nat;
  _mutex : bool
}.

(** The loop of [_FindItem] over the elements of the list object: returns
    the reference to the item found, or [VNone].  Indexing something that is
    not a dictionary is a [TypeError]. *)
Fixpoint FindItem_in (depth : nat) (h : heap) (key : json) (items : list val)
  : option (result val) :=
  match items with
  | [] => Some (Ok VNone)
  | session_item :: rest =>
      match session_item with
      | VRef l =>
          match h !! l with
          | Some (ODict d) =>
              match d !! "id" with
              | None => Some (Raise KeyError)
              | Some v =>
                  id ← reify depth h v;
                  if py_eq id key then Some (Ok session_item)
                  else FindItem_in depth h key rest
              end
          | _ => Some (Raise TypeError)
          end
      | _ => Some (Raise TypeError)
      end
  end.

(** [if session_item:] for the reference that the search returned. *)
Definition found (h : heap) (session_item : val) : bool :=
  match session_item with
  | VRef l =>
      match h !! l with
      | Some (ODict d) => negb (bool_decide (d = ∅))
      | Some (OList vs) => negb (bool_decide (vs = []))
      | None => false
      end
  | _ => false
  end.

(** [GetItemCopy]: the outcome, the session and the heap afterwards. *)
Definition GetItemCopy (depth : nat) (key : json) (s : session) (h : heap)
  : option (result val * session * heap) :=
  if _mutex s then Some (Hang, s, h)
  else
    match h !! _items s with
    | Some (OList items) =>
        r ← FindItem_in depth h key items;
        match r with
        | Ok session_item =>
            if found h session_item then
              '(h', result) ← deepcopy depth h session_item;
              Some (Ok result, mk_session (_items s) false, h')
            else Some (Ok VNone, mk_session (_items s) false, h)
        | Raise e => Some (Raise e, mk_session (_items s) true, h)
        | Hang => Some (Hang, s, h)
        end
    | _ => Some (Raise TypeError, mk_session (_items s) true, h)
    end.

(** [GetAllItemsCopy]: a deep copy of the list object itself. *)
Definition GetAllItemsCopy (depth : nat) (s : session) (h : heap)
  : option (result val * session * heap) :=
  if _mutex s then Some (Hang, s, h)
  else
    '(h', result) ← deepcopy (S depth) h (VRef (_items s));
    Some (Ok result, mk_session (_items s) false, h').

(** The stored items as JSON values: what the session holds, seen through
    the references. *)
Definition contents (depth : nat) (h : heap) (s : session)
  : option (list json) :=
  match h !! _items s with
  | Some (OList items) => mapM (reify depth h) items
  | _ => None
  end.

(** The heap of a fresh session: items A and B, then the list of both. *)
Definition init_heap : heap :=
  [ ODict (<["kind" := VStr "wax#waxDataItem"]>
             (<["id" := VStr "A"]> {[ "name" := VStr "Item A" ]}));
    ODict (<["kind" := VStr "wax#waxDataItem"]>
             (<["id" := VStr "B"]> {[ "name" := VStr "Item B" ]}));
    OList [VRef 0; VRef 1] ].

Definition init_session : session := mk_session 2 false.

End Heap.

(** What a caller sees of the result of a read: the item, or [None]. *)
Definition as_json (o : option Item) : json :=
  match o with
  | Some it => JObj it
  | None => JNull
  end.


(** ** Calls on a session, for statements about sequences of calls *)

(** The four calls that change a session, with a dictionary as item. *)
Inductive session_call :=
  | DoAdd (key : json) (item : Item)
  | DoReplace (key : json) (item : Item)
  | DoPatch (key : json) (patch : Item)
  | DoDelete (key : json).

(** The call names an item by the id that the item carries: the item of an
    add or a replace has the id [key], and a patch has the id [key] or none. *)
Definition keyed (c : session_call) : Prop :=
  match c with
  | DoAdd key item | DoReplace key item => id_is key item = true
  | DoPatch key patch => patch !! "id" = None ∨ id_is key patch = true
  | DoDelete _ => True
  end.

(** The session after the call. *)
Definition do_call (s : SessionData.t) (c : session_call) : SessionData.t :=
  match c with
  | DoAdd key item => (SessionData.AddNewItem key (JObj item) s).2
  | DoReplace key item => (SessionData.ReplaceItem key (JObj item) s).2
  | DoPatch key patch => (SessionData.PatchItem key (JObj patch) s).2
  | DoDelete key => (SessionData.DeleteItem key s).2
  end.

(** Every item has an id. *)
Definition all_have_id (items : list Item) : Prop :=
  Forall (fun it : Item => is_Some (it !! "id")) items.

(** The ids of two items differ. *)
Definition ids_differ (x y : Item) : Prop :=
  ∀ a b, x !! "id" = Some a → y !! "id" = Some b → py_eq a b = false.

(** Uniqueness of ids, by recursion on the list. *)
Fixpoint distinct_ids (items : list Item) : Prop :=
  match items with
  | [] => True
  | x :: l => Forall (ids_differ x) l ∧ distinct_ids l
  end.

(** ** Texts of chunked bodies, for statements about the reader *)

(** The size of a chunk as the chunked coding writes it: in base 16 without
    leading zeros, followed by a line end. *)
Definition size_line (n : N) : string :=
  HexadecimalString.NilZero.string_of_uint (N.to_hex_uint n) +:+ CRLF.

(** The text with the letters [a] to [f] in upper case. *)
Fixpoint hex_upper (s : string) : string :=
  match s with
  | EmptyString => EmptyString
  | String c s' =>
      let n := N_of_ascii c in
      String (if (97 <=? n)%N && (n <=? 102)%N then ascii_of_N (n - 32) else c)
        (hex_upper s')
  end.

(** Chunks written one after the other, each as its size line and its
    bytes, closed by a size line of 0 and followed by [rest]. *)
Definition chunks_unterminated (chunks : list string) (rest : string)
  : string :=
  foldr (fun c acc => size_line (N.of_nat (String.length c)) +:+ c +:+ acc)
    (size_line 0 +:+ rest) chunks.

(** The chunked transfer coding of HTTP/1.1: a line end follows the bytes
    of every chunk too, and an empty line follows the last size line. *)
Definition chunks_standard (chunks : list string) : string :=
  foldr (fun c acc =>
           size_line (N.of_nat (String.length c)) +:+ c +:+ CRLF +:+ acc)
    (size_line 0 +:+ CRLF) chunks.

(** ** Handler states and responses, for statements about requests *)

(** The handler with the session [s] stored under [session_id]. *)
Definition with_session (session_id : string) (s : SessionData.t)
    (h : WaxHandler.t) : WaxHandler.t :=
  let repo := WaxHandler.REPOSITORY_ h in
  WaxHandler.set_REPOSITORY_
    (Repository.mk (<[session_id := s]> (Repository._sessions repo))
       (Repository._nodeid repo) (Repository._sequence_num repo)
       (Repository._mutex repo)) h.

(** The response that [_SendJsonObjectResponse obj code] writes. *)
Definition json_response `{PyLib} (obj : json) (code : Z)
  : WaxHandler.Response :=
  WaxHandler.mkResponse code _JSON_CONTENT_TYPE (json_dumps obj).


(** The body of a PUT as [setdefault('id', item_id)] leaves it. *)
Definition with_default_id (item_id : string) (m : Item) : Item :=
  match m !! "id" with
  | Some _ => m
  | None => <["id" := JStr item_id]> m
  end.

(** Request bodies for [/removesession], and a library instance that decodes
    them besides the bodies above. *)
Definition removal_bodies : list (string * json) :=
  [ ("{'sessionId': 's-0.01-1'}", JObj {[ "sessionId" := JStr "s-0.01-1" ]});
    ("{'sessionId': 7}", JObj {[ "sessionId" := JNum 7 ]});
    ("{'sessionId': ['s-0.01-1']}",
       JObj {[ "sessionId" := JArr [JStr "s-0.01-1"] ]}) ].

Definition RemovalLib : PyLib := {|
  json_loads s :=
    match assoc s (removal_bodies ++ example_bodies) with
    | Some v => Ok v
    | None => Raise ValueError
    end;
  json_dumps := render;
  py_int := @py_int ExampleLib;
  py_str := @py_str ExampleLib
|}.

(** ** What a step of the handler leaves behind *)

(** A step that sends nothing: path, headers, the run flag and the
    responses stay as they are. *)
Definition quiet {A} (m : M WaxHandler.t A) : Prop :=
  ∀ h r h', m h = (r, h') →
    WaxHandler.path h' = WaxHandler.path h
    ∧ WaxHandler.headers h' = WaxHandler.headers h
    ∧ WaxHandler.run h' = WaxHandler.run h
    ∧ WaxHandler.wfile h' = WaxHandler.wfile h.

(** A step that sends one response if it returns, and none otherwise. *)
Definition answers {A} (m : M WaxHandler.t A) : Prop :=
  ∀ h r h', m h = (r, h') →
    WaxHandler.path h' = WaxHandler.path h
    ∧ WaxHandler.headers h' = WaxHandler.headers h
    ∧ WaxHandler.run h' = WaxHandler.run h
    ∧ match r with
      | Ok _ => ∃ resp, WaxHandler.wfile h' = WaxHandler.wfile h ++ [resp]
      | _ => WaxHandler.wfile h' = WaxHandler.wfile h
      end.

(** * Part II: verification *)

Import SessionData.

Lemma json_size_lookup (m : gmap string json) k v :
  m !! k = Some v → (json_size v < json_size (JObj m))%nat.
Proof.
  intros Hk. simpl.
  rewrite (map_fold_delete_L _ _ k v m); [lia | | done].
  intros; lia.
Qed.

Lemma json_size_elem (l : list json) v :
  v ∈ l → (json_size v < json_size (JArr l))%nat.
Proof.
  simpl. induction 1 as [x l|x y l _ IH]; simpl; lia.
Qed.

(** Induction principle that reaches inside lists and dictionaries. *)
Lemma json_ind (P : json → Prop) :
  P JNull →
  (∀ b, P (JBool b)) →
  (∀ n, P (JNum n)) →
  (∀ s, P (JStr s)) →
  (∀ l, Forall P l → P (JArr l)) →
  (∀ m : gmap string json, map_Forall (fun _ => P) m → P (JObj m)) →
  ∀ j, P j.
Proof.
  intros Hnull Hbool Hnum Hstr Harr Hobj j.
  remember (json_size j) as n eqn:Hn.
  revert j Hn. induction n as [n IH] using lt_wf_ind. intros j ->.
  destruct j as [| | | |l|m]; auto.
  - apply Harr, Forall_forall. intros v Hv.
    eapply IH; [|reflexivity]. by apply json_size_elem.
  - apply Hobj. intros k v Hk.
    eapply IH; [|reflexivity]. by eapply json_size_lookup.
Qed.

(** ** Python equality is an equivalence on decoded JSON *)

Lemma py_eq_obj (m1 m2 : gmap string json) :
  py_eq (JObj m1) (JObj m2) = true ↔ ∀ k, opt_agree py_eq (m1 !! k) (m2 !! k).
Proof.
  cbn [py_eq]. rewrite bool_decide_eq_true, map_Forall_lookup. split.
  - intros H k. specialize (H k). rewrite lookup_merge in H.
    unfold opt_agree. destruct (m1 !! k), (m2 !! k); simpl in H; auto;
      by specialize (H _ eq_refl).
  - intros H k r. specialize (H k). rewrite lookup_merge.
    unfold opt_agree in H. destruct (m1 !! k), (m2 !! k); simpl; try done;
      congruence.
Qed.

Lemma py_eq_arr (l1 l2 : list json) :
  py_eq (JArr l1) (JArr l2) = true ↔ Forall2 (fun x y => py_eq x y = true) l1 l2.
Proof.
  cbn [py_eq]. revert l2. induction l1 as [|x xs IH]; intros [|y ys]; split;
    try done; try by inversion 1.
  - intros [? ?]%andb_true_iff. constructor; [done|by apply IH].
  - inversion 1; subst. apply andb_true_iff. split; [done|by apply IH].
Qed.

Lemma py_eq_refl j : py_eq j j = true.
Proof.
  induction j as [|b|n|s|l IH|m IH] using json_ind;
    try done; try by apply bool_decide_eq_true.
  - apply py_eq_arr. induction IH; by constructor.
  - apply py_eq_obj. intros k. unfold opt_agree.
    destruct (m !! k) eqn:Hk; [|done]. by eapply IH.
Qed.

Lemma py_eq_sym a b : py_eq a b = true → py_eq b a = true.
Proof.
  revert b. induction a as [|x|n|s|l IH|m IH] using json_ind;
    intros [|y|k|t|l'|m']; try done;
    try (simpl; rewrite ?bool_decide_eq_true; congruence).
  - rewrite !py_eq_arr. intros H. revert IH.
    induction H as [|x y xs ys Hxy _ IHf]; intros IH; [constructor|].
    inversion IH; subst. constructor; auto.
  - rewrite !py_eq_obj. intros H k. specialize (H k). unfold opt_agree in *.
    destruct (m !! k) eqn:Hk, (m' !! k); try done. by eapply IH.
Qed.

Lemma py_eq_trans a b c :
  py_eq a b = true → py_eq b c = true → py_eq a c = true.
Proof.
  revert b c. induction a as [|x|n|s|l IH|m IH] using json_ind;
    intros [|y|k|t|l'|m'] [|z|k'|t'|l''|m'']; try done;
    try (simpl; rewrite ?bool_decide_eq_true; intros; subst;
         repeat match goal with b : bool |- _ => destruct b end;
         congruence).
  - rewrite !py_eq_arr. intros H. revert l'' IH.
    induction H as [|x y xs ys Hxy _ IHf]; intros l'' IH H'.
    + by inversion H'.
    + inversion H'; subst. inversion IH; subst. constructor; eauto.
  - rewrite !py_eq_obj. intros H H' k. specialize (H k). specialize (H' k).
    unfold opt_agree in *.
    destruct (m !! k) eqn:Hk, (m' !! k), (m'' !! k); try done. by eapply IH.
Qed.

Example patch_changes_id :
  PatchItem (JStr "A") (JObj {[ "id" := JStr "B" ]}) SessionData.__init__
  = (Ok (Some (<["id" := JStr "B"]> item_A)),
     SessionData.mk [item_B; <["id" := JStr "B"]> item_A] false).
Proof. vm_compute. reflexivity. Qed.

(** ** Facts about the item list *)

Lemma id_differs_not_is key it : id_differs key it → id_is key it = false.
Proof. intros (v & Hv & Hne). unfold id_is. by rewrite Hv. Qed.

Lemma FindItem_in_first key pre old post :
  Forall (id_differs key) pre → id_is key old = true →
  FindItem_in key (pre ++ old :: post) = Ok (Some old).
Proof.
  intros Hpre Hold. induction Hpre as [|x pre (v & Hv & Hne) _ IH]; simpl.
  - unfold id_is in Hold. destruct (old !! "id"); [by rewrite Hold|done].
  - by rewrite Hv, Hne.
Qed.

Lemma FindItem_in_none key items :
  Forall (id_differs key) items → FindItem_in key items = Ok None.
Proof.
  induction 1 as [|x l (v & Hv & Hne) _ IH]; simpl; [done|].
  by rewrite Hv, Hne.
Qed.

Lemma FindItem_in_Some_inv key items it :
  FindItem_in key items = Ok (Some it) →
  ∃ pre post, items = pre ++ it :: post
    ∧ Forall (id_differs key) pre ∧ id_is key it = true.
Proof.
  induction items as [|x l IH]; simpl; [done|].
  destruct (x !! "id") as [v|] eqn:Hv; [|done].
  destruct (py_eq v key) eqn:Heq.
  - intros [= <-]. exists [], l. split_and!; [done|constructor|].
    unfold id_is. by rewrite Hv.
  - intros (pre & post & -> & Hpre & Hit)%IH.
    exists (x :: pre), post. split_and!; [done| |done].
    constructor; [by exists v|done].
Qed.

Lemma FindItem_in_None_inv key items :
  FindItem_in key items = Ok None → Forall (id_differs key) items.
Proof.
  induction items as [|x l IH]; simpl; [constructor|].
  destruct (x !! "id") as [v|] eqn:Hv; [|done].
  destruct (py_eq v key) eqn:Heq; [done|].
  intros ?%IH. constructor; [by exists v|done].
Qed.

(** An item returned by the search carries an [id], so it is a non-empty
    dictionary and passes the test [if session_item:]. *)
Lemma found_id_is key it : id_is key it = true → found (Some it) = true.
Proof.
  unfold id_is, found. simpl. destruct (it !! "id") eqn:Hid; [|done].
  intros _. rewrite bool_decide_eq_false_2; [done|].
  intros ->. by rewrite lookup_empty in Hid.
Qed.

(** Items with different ids are different dictionaries. *)
Lemma id_differs_py_eq key x it :
  id_differs key x → id_is key it = true → py_eq (JObj x) (JObj it) = false.
Proof.
  intros (v & Hv & Hne) Hit. apply not_true_is_false. intros Heq.
  rewrite py_eq_obj in Heq. specialize (Heq "id"). unfold opt_agree in Heq.
  unfold id_is in Hit. rewrite Hv in Heq.
  destruct (it !! "id") as [w|]; [|done].
  by rewrite (py_eq_trans _ _ _ Heq Hit) in Hne.
Qed.

Lemma list_remove_first key pre old post :
  Forall (id_differs key) pre → id_is key old = true →
  list_remove old (pre ++ old :: post) = Some (pre ++ post).
Proof.
  intros Hpre Hold.
  induction Hpre as [|x pre Hx _ IH]; cbn [list_remove app].
  - by rewrite py_eq_refl.
  - by rewrite (id_differs_py_eq key x old), IH.
Qed.

(** [dict(a.items() + b.items())] is the union in which [b] wins. *)
Lemma py_dict_foldl (l : list (string * json)) (acc : Item) :
  NoDup l.*1 →
  foldl (fun m kv => <[kv.1 := kv.2]> m) acc l = list_to_map l ∪ acc.
Proof.
  revert acc. induction l as [|[k v] l IH]; intros acc Hnd; simpl.
  - by rewrite (left_id_L ∅ (∪)).
  - apply NoDup_cons in Hnd as [Hk Hnd]. rewrite IH by done.
    rewrite <-insert_union_r, insert_union_l; [done|].
    by apply not_elem_of_list_to_map_1.
Qed.

Lemma py_dict_items (a b : Item) :
  py_dict (map_to_list a ++ map_to_list b) = b ∪ a.
Proof.
  unfold py_dict. rewrite foldl_app.
  rewrite !py_dict_foldl by apply NoDup_fst_map_to_list.
  by rewrite !list_to_map_to_list, (right_id_L ∅ (∪)).
Qed.

(** Unfolds the monadic plumbing of a session method. *)
Ltac run_M :=
  unfold AddNewItem, ReplaceItem, PatchItem, DeleteItem, GetItemCopy,
    GetAllItemsCopy, _FindItem, AddWaxKind, py_items, items_remove,
    items_append, acquire, release, raise, gets, modify, deepcopy,
    mbind, M_bind, mret, M_ret; simpl.

(** ** SessionData.PatchItem *)

Lemma PatchItem_present key p pre old post :
  Forall (id_differs key) pre → id_is key old = true →
  PatchItem key (JObj p) (SessionData.mk (pre ++ old :: post) false)
  = (Ok (Some (p ∪ old)), SessionData.mk (pre ++ post ++ [p ∪ old]) false).
Proof.
  intros Hpre Hold. run_M.
  rewrite (FindItem_in_first key pre old post Hpre Hold).
  rewrite (found_id_is key old Hold). simpl.
  rewrite (list_remove_first key pre old post Hpre Hold). simpl.
  by rewrite py_dict_items, <-app_assoc.
Qed.

Lemma PatchItem_absent key item s :
  _mutex s = false → Forall (id_differs key) (_items s) →
  PatchItem key item s = (Ok None, s).
Proof.
  destruct s as [items m]. simpl. intros -> Hall. run_M.
  by rewrite (FindItem_in_none key _ Hall).
Qed.

(** C2. On a session whose first item with id [key] is [old], [PatchItem]
    with the patch dictionary [p] returns the shallow merge of [old] and [p]:
    every field of [p] has [p]'s value, every other field keeps [old]'s
    value; [old] is taken out of the list and the merged item is appended at
    the end.  When every item has an id different from [key], [PatchItem]
    returns [None] and the session is unchanged. *)
Theorem PatchItem_merge (key : json) (p : Item) (s : SessionData.t) :
  _mutex s = false →
  (∀ pre old post,
      _items s = pre ++ old :: post →
      Forall (id_differs key) pre → id_is key old = true →
      ∃ merged,
        PatchItem key (JObj p) s
        = (Ok (Some merged), SessionData.mk (pre ++ post ++ [merged]) false)
        ∧ (∀ f v, p !! f = Some v → merged !! f = Some v)
        ∧ (∀ f, p !! f = None → merged !! f = old !! f))
  ∧ (Forall (id_differs key) (_items s) →
     PatchItem key (JObj p) s = (Ok None, s)).
Proof.
  intros Hm. split.
  - intros pre old post Hitems Hpre Hold. exists (p ∪ old). split_and!.
    + destruct s as [items m]; simpl in *; subst.
      by apply PatchItem_present.
    + intros f v Hf. by apply lookup_union_Some_l.
    + intros f Hf. by apply lookup_union_r.
  - by apply PatchItem_absent.
Qed.

(** The example of the specification: patching [{id:k, name:"old", extra:1}]
    with [{"name":"X"}]. *)
Lemma PatchItem_merge_witness :
  let old : Item :=
    <["id" := JStr "k"]> (<["name" := JStr "old"]> (<["extra" := JNum 1]>
      (<["kind" := wax_kind]> ∅))) in
  let s := SessionData.mk [item_A; old; item_B] false in
  _mutex s = false
  ∧ ∃ merged,
      PatchItem (JStr "k") (JObj {[ "name" := JStr "X" ]}) s
      = (Ok (Some merged), SessionData.mk [item_A; item_B; merged] false)
      ∧ merged !! "id" = Some (JStr "k")
      ∧ merged !! "name" = Some (JStr "X")
      ∧ merged !! "extra" = Some (JNum 1)
      ∧ merged !! "kind" = Some wax_kind.
Proof.
  intros old s. split; [reflexivity|].
  destruct (PatchItem_merge (JStr "k") {[ "name" := JStr "X" ]} s eq_refl)
    as [H _].
  destruct (H [item_A] old [item_B] eq_refl) as (merged & Heq & Hp & Hold).
  - constructor; [|constructor]. exists (JStr "A"). split; reflexivity.
  - reflexivity.
  - exists merged. split_and!; [exact Heq|..].
    + rewrite Hold; reflexivity.
    + apply Hp; reflexivity.
    + rewrite Hold; reflexivity.
    + rewrite Hold; reflexivity.
Defined.

(** ** SessionData.AddNewItem *)

Lemma id_is_stamped key it : id_is key (stamped it) = id_is key it.
Proof. unfold id_is, stamped. by rewrite lookup_insert_ne. Qed.

(** A search that returns without a usable item found nothing at all. *)
Lemma FindItem_in_not_found key items o :
  FindItem_in key items = Ok o → found o = false →
  o = None ∧ Forall (id_differs key) items.
Proof.
  intros Hfind Hnot. destruct o as [it|].
  - apply FindItem_in_Some_inv in Hfind as (? & ? & _ & _ & Hit).
    by rewrite (found_id_is _ _ Hit) in Hnot.
  - split; [done|]. by apply FindItem_in_None_inv.
Qed.

Lemma AddNewItem_Some_inv key item s w s1 :
  AddNewItem key item s = (Ok (Some w), s1) →
  ∃ m, item = JObj m ∧ w = stamped m
    ∧ _mutex s = false ∧ Forall (id_differs key) (_items s)
    ∧ s1 = SessionData.mk (_items s ++ [stamped m]) false.
Proof.
  destruct s as [items mx]. run_M. destruct mx; [done|]. simpl.
  destruct (FindItem_in key items) as [o| |] eqn:Hfind; [|done..].
  destruct (found o) eqn:Hfound; simpl; [done|].
  destruct (FindItem_in_not_found _ _ _ Hfind Hfound) as [-> Hall].
  destruct item as [| | | | |m]; simpl; try done.
  intros [= <- <-]. by exists m.
Qed.

Lemma AddNewItem_conflict key item pre old post :
  Forall (id_differs key) pre → id_is key old = true →
  AddNewItem key item (SessionData.mk (pre ++ old :: post) false)
  = (Ok None, SessionData.mk (pre ++ old :: post) false).
Proof.
  intros Hpre Hold. run_M.
  rewrite (FindItem_in_first key pre old post Hpre Hold).
  by rewrite (found_id_is key old Hold).
Qed.

Lemma GetItemCopy_present key pre old post :
  Forall (id_differs key) pre → id_is key old = true →
  GetItemCopy key (SessionData.mk (pre ++ old :: post) false)
  = (Ok (Some old), SessionData.mk (pre ++ old :: post) false).
Proof.
  intros Hpre Hold. run_M.
  rewrite (FindItem_in_first key pre old post Hpre Hold).
  by rewrite (found_id_is key old Hold).
Qed.

(** C5. If [AddNewItem key v1] succeeded for an item [v1] whose id is [key],
    then the item stored and returned is [v1] stamped with [kind], appended
    at the end of the list; a second [AddNewItem key v2], whatever [v2] is,
    returns [None] and leaves the session as it was, and reading [key] still
    gives [v1] stamped with [kind]. *)
Theorem AddNewItem_twice (key : json) (v1 : Item) (v2 : json)
    (s s1 : SessionData.t) (w : Item) :
  id_is key v1 = true →
  AddNewItem key (JObj v1) s = (Ok (Some w), s1) →
  w = stamped v1
  ∧ _items s1 = _items s ++ [stamped v1]
  ∧ AddNewItem key v2 s1 = (Ok None, s1)
  ∧ GetItemCopy key s1 = (Ok (Some (stamped v1)), s1).
Proof.
  intros Hid (m & [= <-] & -> & Hm & Hall & ->)%AddNewItem_Some_inv.
  assert (id_is key (stamped v1) = true) as Hid' by by rewrite id_is_stamped.
  split_and!; [done|done|..]; simpl.
  - by apply AddNewItem_conflict.
  - by apply GetItemCopy_present.
Qed.

Lemma AddNewItem_twice_witness :
  let v1 : Item := <["id" := JStr "C"]> (<["name" := JStr "n"]> ∅) in
  let v2 := JObj (<["id" := JStr "C"]> (<["name" := JStr "other"]> ∅)) in
  let s1 := SessionData.mk [item_A; item_B; stamped v1] false in
  id_is (JStr "C") v1 = true
  ∧ AddNewItem (JStr "C") (JObj v1) SessionData.__init__ = (Ok (Some (stamped v1)), s1)
  ∧ AddNewItem (JStr "C") v2 s1 = (Ok None, s1)
  ∧ GetItemCopy (JStr "C") s1 = (Ok (Some (stamped v1)), s1).
Proof.
  intros v1 v2 s1.
  assert (AddNewItem (JStr "C") (JObj v1) SessionData.__init__
          = (Ok (Some (stamped v1)), s1)) as Hadd by (vm_compute; reflexivity).
  destruct (AddNewItem_twice (JStr "C") v1 v2 SessionData.__init__ s1 (stamped v1)
              eq_refl Hadd) as (_ & _ & Hsecond & Hget).
  split_and!; [reflexivity|exact Hadd|exact Hsecond|exact Hget].
Defined.

(** Under a key that is not the id of the item the second call is not
    refused: [AddNewItem] looks for an item whose id is the key, finds none
    both times, and appends both items. *)
Lemma AddNewItem_twice_under_another_key :
  let v1 : Item := <["id" := JStr "D"]> {[ "name" := JStr "n" ]} in
  let v2 : Item := <["id" := JStr "D"]> {[ "name" := JStr "other" ]} in
  let s1 := SessionData.mk [item_A; item_B; stamped v1] false in
  let s2 := SessionData.mk [item_A; item_B; stamped v1; stamped v2] false in
  id_is (JStr "C") v1 = false
  ∧ AddNewItem (JStr "C") (JObj v1) SessionData.__init__
    = (Ok (Some (stamped v1)), s1)
  ∧ AddNewItem (JStr "C") (JObj v2) s1 = (Ok (Some (stamped v2)), s2)
  ∧ AddNewItem (JStr "C") (JObj v2) s1 ≠ (Ok None, s1).
Proof.
  intros v1 v2 s1 s2.
  assert (AddNewItem (JStr "C") (JObj v2) s1 = (Ok (Some (stamped v2)), s2))
    as Hsecond by (vm_compute; reflexivity).
  split_and!; [reflexivity|vm_compute; reflexivity|exact Hsecond|].
  rewrite Hsecond. discriminate.
Qed.

(** ** Repository *)

Lemma NewIdentifier_run b r :
  Repository._mutex r = false →
  let key := Repository.format_key b (Repository._nodeid r)
               (Repository._sequence_num r + 1)%N in
  Repository.NewIdentifier b r
  = (Ok key,
     Repository.mk (<[key := SessionData.__init__]> (Repository._sessions r))
       (Repository._nodeid r) (Repository._sequence_num r + 1)%N false).
Proof.
  destruct r as [ss nid n mx]. simpl. intros ->.
  unfold Repository.NewIdentifier, acquire, release, gets, modify,
    mbind, M_bind, mret, M_ret. reflexivity.
Qed.

Lemma GetSessionData_run k r :
  Repository._mutex r = false →
  Repository.GetSessionData k r = (Ok (Repository._sessions r !! k), r).
Proof.
  destruct r as [ss nid n mx]. simpl. intros ->.
  unfold Repository.GetSessionData, acquire, release, gets,
    mbind, M_bind, mret, M_ret. reflexivity.
Qed.

Lemma RemoveIdentifier_run k r :
  Repository._mutex r = false →
  Repository.RemoveIdentifier (JStr k) r
  = (Ok (Repository._sessions r !! k),
     Repository.mk (delete k (Repository._sessions r))
       (Repository._nodeid r) (Repository._sequence_num r) false).
Proof.
  destruct r as [ss nid n mx]. simpl. intros ->.
  unfold Repository.RemoveIdentifier, Repository.sessions_pop, acquire,
    release, mbind, M_bind, mret, M_ret. reflexivity.
Qed.

(** What a call does to the lock, the node id and the counter. *)
Lemma after_call_frame c r :
  Repository._mutex r = false →
  Repository._mutex (after_call c r) = false
  ∧ Repository._nodeid (after_call c r) = Repository._nodeid r
  ∧ Repository._sequence_num (after_call c r)
    = match c with
      | CallNew _ => (Repository._sequence_num r + 1)%N
      | _ => Repository._sequence_num r
      end.
Proof.
  intros Hm. destruct c as [b|k|k|k f]; simpl.
  - by rewrite NewIdentifier_run.
  - by rewrite RemoveIdentifier_run.
  - by rewrite GetSessionData_run.
  - done.
Qed.

(** *** Identifiers are told apart by their sequence number *)

Lemma string_app_assoc (a b c : string) : (a +:+ b) +:+ c = a +:+ b +:+ c.
Proof.
  induction a as [|x a IH]; [done|].
  change (String x ((a +:+ b) +:+ c) = String x (a +:+ b +:+ c)).
  by rewrite IH.
Qed.

Lemma has_dash_app_dash (p q : string) : has_dash (p +:+ String "-" q) = true.
Proof.
  induction p as [|c p IH].
  - change (has_dash (String "-" q) = true). done.
  - change (has_dash (String c (p +:+ String "-" q)) = true). simpl.
    rewrite IH. apply orb_true_r.
Qed.

(** The text after the last [-] determines how the string splits there. *)
Lemma split_at_last_dash (p1 p2 d1 d2 : string) :
  has_dash d1 = false → has_dash d2 = false →
  p1 +:+ String "-" d1 = p2 +:+ String "-" d2 → p1 = p2 ∧ d1 = d2.
Proof.
  intros H1 H2. revert p2.
  induction p1 as [|c p1 IH]; intros [|c' p2] Heq.
  - by injection Heq as ->.
  - change (String "-" d1 = String c' (p2 +:+ String "-" d2)) in Heq.
    injection Heq as _ ->. by rewrite has_dash_app_dash in H1.
  - change (String c (p1 +:+ String "-" d1) = String "-" d2) in Heq.
    injection Heq as _ <-. by rewrite has_dash_app_dash in H2.
  - change (String c (p1 +:+ String "-" d1)
            = String c' (p2 +:+ String "-" d2)) in Heq.
    injection Heq as -> Heq. by destruct (IH _ Heq) as [-> ->].
Qed.

Lemma pretty_N_char_no_dash x : pretty_N_char x ≠ "-"%char.
Proof. unfold pretty_N_char. by repeat case_match. Qed.

Lemma pretty_N_go_no_dash x acc :
  has_dash acc = false → has_dash (pretty_N_go x acc) = false.
Proof.
  revert acc. induction (N.lt_wf_0 x) as [x _ IH]; intros acc Hacc.
  destruct (decide (x = 0)%N) as [->|Hx]; [by rewrite pretty_N_go_0|].
  rewrite pretty_N_go_step by lia. apply IH.
  - apply N.div_lt; lia.
  - simpl. rewrite Hacc, orb_false_r.
    apply bool_decide_eq_false_2, pretty_N_char_no_dash.
Qed.

Lemma pretty_N_no_dash (n : N) : has_dash (pretty n) = false.
Proof.
  unfold pretty, pretty_N. case_decide; [done|].
  by apply pretty_N_go_no_dash.
Qed.

Lemma format_key_inj b1 b2 nid n1 n2 :
  Repository.format_key b1 nid n1 = Repository.format_key b2 nid n2 → n1 = n2.
Proof.
  unfold Repository.format_key. intros Heq.
  assert (∀ (b : string) (n : N),
             b +:+ "-" +:+ nid +:+ "-" +:+ pretty n
             = (b +:+ "-" +:+ nid) +:+ String "-" (pretty n)) as Hsplit.
  { intros b n. by rewrite !string_app_assoc. }
  rewrite !Hsplit in Heq.
  apply split_at_last_dash in Heq as [_ Heq]; auto using pretty_N_no_dash.
  by apply (inj pretty) in Heq.
Qed.







(** ** WaxHandler: running the handler *)

Import WaxHandler.

Lemma mbind_Ok {S A B} (m : M S A) (f : A → M S B) s a s' :
  m s = (Ok a, s') → (m ≫= f) s = f a s'.
Proof. intros Hm. unfold mbind, M_bind. by rewrite Hm. Qed.

Lemma mbind_Raise {S A B} (m : M S A) (f : A → M S B) s e s' :
  m s = (Raise e, s') → (m ≫= f) s = (Raise e, s').
Proof. intros Hm. unfold mbind, M_bind. by rewrite Hm. Qed.

Lemma mbind_Hang {S A B} (m : M S A) (f : A → M S B) s s' :
  m s = (Hang, s') → (m ≫= f) s = (Hang, s').
Proof. intros Hm. unfold mbind, M_bind. by rewrite Hm. Qed.

Lemma fmap_Ok {S A B} (m : M S A) (f : A → B) s a s' :
  m s = (Ok a, s') → (f <$> m) s = (Ok (f a), s').
Proof. intros Hm. unfold fmap, M_fmap. by rewrite Hm. Qed.

Lemma fmap_Raise {S A B} (m : M S A) (f : A → B) s e s' :
  m s = (Raise e, s') → (f <$> m) s = (Raise e, s').
Proof. intros Hm. unfold fmap, M_fmap. by rewrite Hm. Qed.

(** A call whose result is dropped, as in the [do_] methods. *)
Lemma discard_Ok {S A B} (m : M S A) (b : B) s a s' :
  m s = (Ok a, s') → (m ;; mret b) s = (Ok b, s').
Proof. intros Hm. by rewrite (mbind_Ok _ _ _ _ _ Hm). Qed.

Lemma discard_Raise {S A B} (m : M S A) (b : B) s e s' :
  m s = (Raise e, s') → (m ;; mret b) s = (Raise e, s').
Proof. intros Hm. by apply mbind_Raise. Qed.

Lemma discard_Hang {S A B} (m : M S A) (b : B) s s' :
  m s = (Hang, s') → (m ;; mret b) s = (Hang, s').
Proof. intros Hm. by apply mbind_Hang. Qed.

Section Handler.
Context `{PyLib}.

(** The response that [_SendJsonErrorResponse msg code] writes. *)
Definition error_response (msg : string) (code : Z) : Response :=
  mkResponse code _JSON_CONTENT_TYPE (json_dumps (error_object msg code)).

Definition sent (r : Response) (h : WaxHandler.t) : WaxHandler.t :=
  set_wfile (wfile h ++ [r]) h.

Lemma SendJsonErrorResponse_run msg code h :
  _SendJsonErrorResponse msg code h = (Ok code, sent (error_response msg code) h).
Proof. reflexivity. Qed.

Lemma set_REPOSITORY_id h : set_REPOSITORY_ (REPOSITORY_ h) h = h.
Proof. by destruct h. Qed.

Lemma handler_GetSessionData sid h :
  Repository._mutex (REPOSITORY_ h) = false →
  on_REPOSITORY_ (Repository.GetSessionData sid) h
  = (Ok (Repository._sessions (REPOSITORY_ h) !! sid), h).
Proof.
  intros Hm. unfold on_REPOSITORY_.
  by rewrite GetSessionData_run, set_REPOSITORY_id.
Qed.

Lemma Dispatch_quit method h :
  path h = "/quit" →
  _DispatchMethod method h
  = (Ok (Some 200), sent (mkResponse 200 "text/plain" "BYE") (set_run false h)).
Proof.
  intros Hp. unfold _DispatchMethod.
  rewrite (mbind_Ok (gets path) _ h (path h) h eq_refl), Hp.
  by rewrite bool_decide_eq_true_2.
Qed.

(** The dispatch once the three fixed paths are out of the way. *)
Lemma Dispatch_patterns method h :
  path h ≠ "/quit" →
  ¬ (path h = "/newsession" ∧ method = "POST") →
  ¬ (path h = "/removesession" ∧ method = "POST") →
  _DispatchMethod method h
  = match _RE_ITEM_COMMAND (path h) with
    | Some (session_id, item_id) =>
        (_HandleItemMethod method session_id item_id ;; mret None) h
    | None =>
        match _RE_SESSION_COMMAND (path h) with
        | Some session_id =>
            (_HandleSessionMethod method session_id ;; mret None) h
        | None =>
            (_SendJsonErrorResponse "URL Not Available" 404 ;; mret None) h
        end
    end.
Proof.
  intros Hq Hn Hr. unfold _DispatchMethod.
  rewrite (mbind_Ok (gets path) _ h (path h) h eq_refl).
  rewrite (bool_decide_eq_false_2 (path h = "/quit")) by done.
  assert (bool_decide (path h = "/newsession") && bool_decide (method = "POST")
          = false) as ->.
  { apply not_true_is_false. rewrite andb_true_iff, !bool_decide_eq_true.
    done. }
  assert (bool_decide (path h = "/removesession")
          && bool_decide (method = "POST") = false) as ->.
  { apply not_true_is_false. rewrite andb_true_iff, !bool_decide_eq_true.
    done. }
  destruct (_RE_ITEM_COMMAND (path h)) as [[sid iid]|]; [done|].
  by destruct (_RE_SESSION_COMMAND (path h)).
Qed.

(** A path under [/sessions/] is none of the three fixed paths. *)
Lemma sessions_path_not_fixed p rest :
  strip_prefix "/sessions/" p = Some rest →
  p ≠ "/quit" ∧ p ≠ "/newsession" ∧ p ≠ "/removesession".
Proof. intros Hp. split_and!; intros ->; discriminate Hp. Qed.

Lemma RE_SESSION_prefix p sid :
  _RE_SESSION_COMMAND p = Some sid →
  ∃ rest, strip_prefix "/sessions/" p = Some rest.
Proof.
  unfold _RE_SESSION_COMMAND. destruct (strip_prefix "/sessions/" p); [|done].
  by eexists.
Qed.

Lemma RE_ITEM_prefix p sid iid :
  _RE_ITEM_COMMAND p = Some (sid, iid) →
  ∃ rest, strip_prefix "/sessions/" p = Some rest.
Proof.
  unfold _RE_ITEM_COMMAND. destruct (strip_prefix "/sessions/" p); [|done].
  by eexists.
Qed.

Lemma Dispatch_item method h sid iid :
  _RE_ITEM_COMMAND (path h) = Some (sid, iid) →
  _DispatchMethod method h = (_HandleItemMethod method sid iid ;; mret None) h.
Proof.
  intros Hre. destruct (RE_ITEM_prefix _ _ _ Hre) as [rest Hrest].
  destruct (sessions_path_not_fixed _ _ Hrest) as (Hq & Hn & Hr).
  rewrite Dispatch_patterns; [by rewrite Hre|done|by intros [? _]..].
Qed.

Lemma Dispatch_session method h sid :
  _RE_ITEM_COMMAND (path h) = None →
  _RE_SESSION_COMMAND (path h) = Some sid →
  _DispatchMethod method h = (_HandleSessionMethod method sid ;; mret None) h.
Proof.
  intros Hitem Hre. destruct (RE_SESSION_prefix _ _ Hre) as [rest Hrest].
  destruct (sessions_path_not_fixed _ _ Hrest) as (Hq & Hn & Hr).
  rewrite Dispatch_patterns; [by rewrite Hitem, Hre|done|by intros [? _]..].
Qed.

(** [_HandleSessionMethod] and [_HandleItemMethod] on a session that the
    repository does not know. *)
Lemma HandleSessionMethod_unknown method sid h :
  Repository._mutex (REPOSITORY_ h) = false →
  Repository._sessions (REPOSITORY_ h) !! sid = None →
  _HandleSessionMethod method sid h
  = (Ok None, sent (error_response "Unknown sessionId" 404) h).
Proof.
  intros Hm Hs. unfold _HandleSessionMethod.
  rewrite (mbind_Ok _ _ _ _ _ (handler_GetSessionData sid h Hm)), Hs.
  reflexivity.
Qed.

Lemma HandleItemMethod_unknown method sid iid h :
  Repository._mutex (REPOSITORY_ h) = false →
  Repository._sessions (REPOSITORY_ h) !! sid = None →
  _HandleItemMethod method sid iid h
  = (Ok (Some 404), sent (error_response "Unknown sessionId" 404) h).
Proof.
  intros Hm Hs. unfold _HandleItemMethod.
  rewrite (mbind_Ok _ _ _ _ _ (handler_GetSessionData sid h Hm)), Hs.
  reflexivity.
Qed.

(** The part of [_HandleItemMethod] that needs a body. *)
Lemma HandleItemMethod_body method sid iid sd h :
  Repository._mutex (REPOSITORY_ h) = false →
  Repository._sessions (REPOSITORY_ h) !! sid = Some sd →
  method ≠ "GET" → method ≠ "DELETE" →
  _HandleItemMethod method sid iid h
  = (request_json ← _GetJson;
     if negb (truthy request_json) then
       Some <$> _SendJsonErrorResponse "Invalid JSON" 400
     else if bool_decide (method = "PATCH") then
       Some <$> _ProcessPatchItemCommand sid sd iid request_json
     else if bool_decide (method = "PUT") then
       Some <$> _ProcessUpdateItemCommand sid sd iid request_json
     else Some <$> _SendJsonErrorResponse "Unhandled method" 405) h.
Proof.
  intros Hm Hs Hget Hdel. unfold _HandleItemMethod.
  rewrite (mbind_Ok _ _ _ _ _ (handler_GetSessionData sid h Hm)), Hs.
  by rewrite !bool_decide_eq_false_2 by done.
Qed.

(** *** Methods a route does not support *)

(** C9, as the code has it.  With the repository lock free: on the items
    collection of a known session a method other than GET and POST is
    answered 405; on an item of a known session a method other than GET,
    DELETE, PATCH and PUT is answered 405 once a non-empty JSON body has been
    read; on [/newsession] and [/removesession] a method other than POST is
    answered 404; [/quit] answers 200 to every method. *)
Theorem unsupported_method_status (method : string) (h : WaxHandler.t) :
  Repository._mutex (REPOSITORY_ h) = false →
  (∀ sid sd,
      _RE_ITEM_COMMAND (path h) = None →
      _RE_SESSION_COMMAND (path h) = Some sid →
      Repository._sessions (REPOSITORY_ h) !! sid = Some sd →
      method ≠ "GET" → method ≠ "POST" →
      _DispatchMethod method h
      = (Ok None, sent (error_response "Unhandled method" 405) h))
  ∧ (∀ sid iid sd j h',
      _RE_ITEM_COMMAND (path h) = Some (sid, iid) →
      Repository._sessions (REPOSITORY_ h) !! sid = Some sd →
      method ≠ "GET" → method ≠ "DELETE" →
      method ≠ "PATCH" → method ≠ "PUT" →
      _GetJson h = (Ok j, h') → truthy j = true →
      _DispatchMethod method h
      = (Ok None, sent (error_response "Unhandled method" 405) h'))
  ∧ (path h = "/newsession" ∨ path h = "/removesession" →
     method ≠ "POST" →
     _DispatchMethod method h
     = (Ok None, sent (error_response "URL Not Available" 404) h))
  ∧ (path h = "/quit" →
     _DispatchMethod method h
     = (Ok (Some 200),
        sent (mkResponse 200 "text/plain" "BYE") (set_run false h))).
Proof.
  intros Hm. split_and!.
  - intros sid sd Hitem Hre Hs Hget Hpost.
    rewrite (Dispatch_session method h sid Hitem Hre).
    unfold _HandleSessionMethod.
    rewrite (mbind_Ok _ _ h (Some 405)
               (sent (error_response "Unhandled method" 405) h)); [done|].
    rewrite (mbind_Ok _ _ _ _ _ (handler_GetSessionData sid h Hm)), Hs.
    by rewrite !bool_decide_eq_false_2 by done.
  - intros sid iid sd j h' Hre Hs Hget Hdel Hpatch Hput Hjson Htruthy.
    rewrite (Dispatch_item method h sid iid Hre).
    rewrite (mbind_Ok _ _ h (Some 405)
               (sent (error_response "Unhandled method" 405) h')); [done|].
    rewrite (HandleItemMethod_body method sid iid sd h) by done.
    rewrite (mbind_Ok _ _ _ _ _ Hjson), Htruthy. simpl.
    by rewrite !bool_decide_eq_false_2 by done.
  - intros Hp Hpost. rewrite Dispatch_patterns.
    + by destruct Hp as [-> | ->].
    + by destruct Hp as [-> | ->].
    + by intros [_ ?].
    + by intros [_ ?].
  - apply Dispatch_quit.
Qed.

(** *** Bodies that decode to a falsy value *)

(** Once the body is read, [_GetJson] goes on to decode it. *)
Lemma GetJson_text h payload h1 :
  body_text h payload h1 →
  _GetJson h
  = (json_item ← lift (json_loads payload);
     if negb (truthy json_item) then mret JNull else mret json_item) h1.
Proof.
  intros Hread. unfold _GetJson.
  rewrite (mbind_Ok (getheader "Transfer-Encoding") _ h
             (headers h !! "Transfer-Encoding") h eq_refl).
  destruct Hread as [[Hte Hchunks]
                    |(Hte & v & n & Hcl & Hint & Hrd & Hne & Hct)].
  - rewrite bool_decide_eq_true_2 by done.
    rewrite (mbind_Ok _ _ h (Some payload) h1); [done|].
    by apply fmap_Ok.
  - rewrite bool_decide_eq_false_2 by done.
    rewrite (mbind_Ok _ _ h (Some payload) h1); [done|].
    rewrite (mbind_Ok (getheader "Content-Length") _ h
               (headers h !! "Content-Length") h eq_refl), Hcl.
    rewrite (mbind_Ok _ _ h n h) by (unfold lift; by rewrite Hint).
    rewrite (mbind_Ok _ _ _ _ _ Hrd).
    assert (headers h1 = headers h) as Hh.
    { unfold rfile_read in Hrd. by destruct (n <? 0)%Z; injection Hrd as _ <-. }
    rewrite (mbind_Ok (getheader "Content-Type") _ h1
               (headers h1 !! "Content-Type") h1 eq_refl), Hh, Hct.
    rewrite (bool_decide_eq_false_2 (payload = "")) by done.
    by rewrite bool_decide_eq_true_2.
Qed.

Lemma GetJson_decodes h j h1 :
  body_decodes h j h1 →
  _GetJson h = (Ok (if truthy j then j else JNull), h1).
Proof.
  intros (payload & Hread & Hloads). rewrite (GetJson_text h payload h1 Hread).
  rewrite (mbind_Ok _ _ h1 j h1) by (unfold lift; by rewrite Hloads).
  by destruct (truthy j).
Qed.


(** *** Requests that end in an exception *)


(** [/newsession] with a JSON object that has no [sessionName]: the
    [KeyError] of the lookup escapes and nothing is sent. *)
Lemma newsession_missing_name h m h1 :
  path h = "/newsession" →
  body_decodes h (JObj m) h1 → m ≠ ∅ → m !! "sessionName" = None →
  _DispatchMethod "POST" h = (Raise KeyError, h1).
Proof.
  intros Hp Hbody Hne Hname. unfold _DispatchMethod.
  rewrite (mbind_Ok (gets path) _ h (path h) h eq_refl), Hp. simpl.
  apply fmap_Raise. unfold _ProcessNewSessionCommand.
  assert (truthy (JObj m) = true) as Ht.
  { simpl. by rewrite bool_decide_eq_false_2. }
  rewrite (mbind_Ok _ _ _ _ _ (GetJson_decodes h (JObj m) h1 Hbody)).
  rewrite Ht. cbv beta iota. rewrite Ht. cbn [negb].
  rewrite (mbind_Raise _ _ h1 KeyError h1); [done|].
  unfold py_getitem. by rewrite Hname.
Qed.

(** [/removesession] with a JSON object that has no [sessionId]. *)
Lemma removesession_missing_id h m h1 :
  path h = "/removesession" →
  body_decodes h (JObj m) h1 → m ≠ ∅ → m !! "sessionId" = None →
  _DispatchMethod "POST" h = (Raise KeyError, h1).
Proof.
  intros Hp Hbody Hne Hname. unfold _DispatchMethod.
  rewrite (mbind_Ok (gets path) _ h (path h) h eq_refl), Hp. simpl.
  apply fmap_Raise. unfold _ProcessRemoveSessionCommand.
  assert (truthy (JObj m) = true) as Ht.
  { simpl. by rewrite bool_decide_eq_false_2. }
  rewrite (mbind_Ok _ _ _ _ _ (GetJson_decodes h (JObj m) h1 Hbody)).
  rewrite Ht. cbv beta iota. rewrite Ht. cbn [negb].
  rewrite (mbind_Raise _ _ h1 KeyError h1); [done|].
  unfold py_getitem. by rewrite Hname.
Qed.






End Handler.

(** *** Concrete requests *)

Lemma one_session_state :
  Repository._mutex one_session = false
  ∧ Repository._sessions one_session !! "s-0.01-1" = Some SessionData.__init__
  ∧ Repository._sessions one_session !! "nosuch" = None.
Proof. vm_compute. done. Qed.

Lemma unsupported_method_status_witness :
  let h := request one_session "/sessions/s-0.01-1/items" ∅ "" in
  let h' := request one_session "/newsession" ∅ "" in
  Repository._mutex (REPOSITORY_ h) = false
  ∧ statuses (do_PATCH h).2 = [405]
  ∧ statuses (do_GET h').2 = [404]
  ∧ statuses (do_DELETE h').2 = [404].
Proof.
  intros h h'. split; [reflexivity|].
  destruct (unsupported_method_status "PATCH" h eq_refl) as (Hcoll & _).
  destruct (unsupported_method_status "GET" h' eq_refl) as (_ & _ & Hget & _).
  destruct (unsupported_method_status "DELETE" h' eq_refl)
    as (_ & _ & Hdel & _).
  unfold do_PATCH, do_GET, do_DELETE.
  rewrite (discard_Ok _ None _ _ _
             (Hcoll "s-0.01-1" SessionData.__init__ eq_refl eq_refl
                (proj1 (proj2 one_session_state)) ltac:(discriminate)
                ltac:(discriminate))).
  rewrite (discard_Ok _ None _ _ _ (Hget (or_introl eq_refl) ltac:(discriminate))).
  rewrite (discard_Ok _ None _ _ _ (Hdel (or_introl eq_refl) ltac:(discriminate))).
  split_and!; reflexivity.
Defined.

(** GET on [/newsession] is answered 404, not 405. *)
Lemma GET_newsession_is_404 :
  let h := request one_session "/newsession" ∅ "" in
  statuses (do_GET h).2 = [404] ∧ statuses (do_GET h).2 ≠ [405].
Proof. vm_compute. split; [reflexivity|discriminate]. Qed.



(** C8 on two requests.  A POST to [/newsession] whose body is a JSON object
    without [sessionName] ends in an uncaught [KeyError], and one whose body
    is not JSON ends in the uncaught [ValueError] of [json.loads]; in both
    cases no response is sent, so there is no 400. *)
Theorem newsession_bad_body_sends_nothing :
  let h1 := request one_session "/newsession"
              (json_headers "{'foo': 1}") "{'foo': 1}" in
  let h2 := request one_session "/newsession" (json_headers "{") "{" in
  (do_POST h1).1 = Raise KeyError ∧ statuses (do_POST h1).2 = []
  ∧ (do_POST h2).1 = Raise ValueError ∧ statuses (do_POST h2).2 = [].
Proof. vm_compute. done. Qed.

(** ** Uniqueness of ids and the kind of stored items *)

Lemma ids_unique_init : ids_unique (_items SessionData.__init__).
Proof.
  assert (item_A !! "id" = Some (JStr "A")) as HA by reflexivity.
  assert (item_B !! "id" = Some (JStr "B")) as HB by reflexivity.
  intros i j a b x y Ha Hb Hij Hx Hy.
  change (_items SessionData.__init__) with [item_A; item_B] in Ha, Hb.
  destruct i as [|[|i]], j as [|[|j]]; try done;
    cbn [lookup list_lookup] in Ha, Hb;
    injection Ha as <-; injection Hb as <-;
    rewrite ?HA, ?HB in Hx, Hy; injection Hx as <-; injection Hy as <-;
    reflexivity.
Qed.

(** C1 on one request.  A fresh session has unique ids.  PATCH of item [A]
    with the body [{"id": "B"}] is answered 200 and leaves two items with id
    [B] in the session; [PatchItem] called directly does the same. *)
Theorem PATCH_with_other_id_duplicates_it :
  let body := "{'id': 'B'}" in
  let h := request one_session "/sessions/s-0.01-1/items/A"
             (json_headers body) body in
  let s' := SessionData.mk [item_B; <["id" := JStr "B"]> item_A] false in
  ids_unique (_items SessionData.__init__)
  ∧ PatchItem (JStr "A") (JObj {[ "id" := JStr "B" ]}) SessionData.__init__
    = (Ok (Some (<["id" := JStr "B"]> item_A)), s')
  ∧ statuses (do_PATCH h).2 = [200]
  ∧ Repository._sessions (REPOSITORY_ (do_PATCH h).2) !! "s-0.01-1" = Some s'
  ∧ ¬ ids_unique (_items s').
Proof.
  intros body h s'. split_and!.
  - apply ids_unique_init.
  - vm_compute. reflexivity.
  - vm_compute. reflexivity.
  - vm_compute. reflexivity.
  - intros Hu.
    assert (0%nat ≠ 1%nat) as Hne by done.
    specialize (Hu 0%nat 1%nat item_B (<["id" := JStr "B"]> item_A)
                  (JStr "B") (JStr "B") eq_refl eq_refl Hne eq_refl eq_refl).
    discriminate Hu.
Qed.

(** C3 on one request.  PATCH of item [A] with the body [{"kind": "other"}]
    is answered 200 and stores the item with kind [other]; a GET of the item
    afterwards returns it with that kind. *)
Theorem PATCH_with_kind_overrides_it :
  let body := "{'kind': 'other'}" in
  let h := request one_session "/sessions/s-0.01-1/items/A"
             (json_headers body) body in
  let patched : Item := <["kind" := JStr "other"]> item_A in
  let s' := SessionData.mk [item_B; patched] false in
  PatchItem (JStr "A") (JObj {[ "kind" := JStr "other" ]}) SessionData.__init__
  = (Ok (Some patched), s')
  ∧ statuses (do_PATCH h).2 = [200]
  ∧ Repository._sessions (REPOSITORY_ (do_PATCH h).2) !! "s-0.01-1" = Some s'
  ∧ GetItemCopy (JStr "A") s' = (Ok (Some patched), s')
  ∧ patched !! "kind" = Some (JStr "other")
  ∧ patched !! "kind" ≠ Some wax_kind.
Proof.
  intros body h patched s'.
  split_and!; try (vm_compute; reflexivity). vm_compute. discriminate.
Qed.

(** [AddNewItem] and [ReplaceItem] do stamp the kind, whatever the item
    carries. *)
Lemma AddNewItem_stamps key item s w s1 :
  AddNewItem key item s = (Ok (Some w), s1) →
  w !! "kind" = Some wax_kind ∧ last (_items s1) = Some w.
Proof.
  intros (m & -> & -> & _ & _ & ->)%AddNewItem_Some_inv. split.
  - apply lookup_insert_eq.
  - simpl. by rewrite last_snoc.
Qed.

Lemma ReplaceItem_stamps key item s w s1 :
  ReplaceItem key item s = (Ok w, s1) →
  w !! "kind" = Some wax_kind ∧ last (_items s1) = Some w.
Proof.
  destruct s as [items mx]. run_M.
  destruct item as [| | | | |m]; simpl; try done.
  destruct mx; [done|]. simpl.
  destruct (FindItem_in key items) as [[it|]| |] eqn:Hfind; simpl; try done.
  - destruct (found (Some it)); simpl.
    + destruct (list_remove it items); simpl; [|done].
      intros [= <- <-]. simpl. by rewrite lookup_insert_eq, last_snoc.
    + intros [= <- <-]. simpl. by rewrite lookup_insert_eq, last_snoc.
  - intros [= <- <-]. simpl. by rewrite lookup_insert_eq, last_snoc.
Qed.

(** ** The chunked reader *)

(** A byte in the size line that is neither a hexadecimal digit nor a
    carriage return makes the reader raise. *)
Lemma read_chunk_len_bad_byte digits c rest acc :
  Forall (fun d => char_in d hexdigits = true) digits →
  char_in c hexdigits = false → c ≠ CR →
  (read_chunk_len (string_of_list_ascii digits +:+ String c rest) acc).1
  = Raise ValueError.
Proof.
  intros Hd Hc Hcr. revert acc.
  induction Hd as [|d ds Hdig _ IH]; intros acc.
  - change (string_of_list_ascii [] +:+ String c rest) with (String c rest).
    cbn [read_chunk_len]. rewrite Hc.
    by rewrite (bool_decide_eq_false_2 (c = CR)).
  - change (string_of_list_ascii (d :: ds) +:+ String c rest)
      with (String d (string_of_list_ascii ds +:+ String c rest)).
    cbn [read_chunk_len]. rewrite Hdig. apply IH.
Qed.

(** A carriage return that is not followed by a line feed does so too. *)
Lemma read_chunk_len_bad_terminator c rest acc :
  c ≠ LF → (read_chunk_len (String CR (String c rest)) acc).1 = Raise ValueError.
Proof.
  intros Hc. cbn [read_chunk_len].
  change (char_in CR hexdigits) with false. cbv beta iota.
  rewrite (bool_decide_eq_true_2 (CR = CR)) by done. cbn [negb].
  by rewrite (bool_decide_eq_false_2 (c = LF)).
Qed.

(** The loop of [read_chunks], one round at a time. *)
Lemma read_chunks_loop rfile payload :
  read_chunks rfile payload
  = match read_chunk_len rfile 0%N with
    | (Ok chunk_len, rest) =>
        if (chunk_len =? 0)%N then (Ok (String.concat "" payload), rest)
        else read_chunks (string_drop (N.to_nat chunk_len) rest)
               (payload ++ [string_take (N.to_nat chunk_len) rest])
    | (Raise e, rest) => (Raise e, rest)
    | (Hang, rest) => (Hang, rest)
    end.
Proof.
  rewrite read_chunks_equation_1.
  destruct (inspect (read_chunk_len rfile 0%N)) as [[[n|e|] rest] Heq];
    unfold read_chunks_unfold_clause_1; cbv beta iota; rewrite Heq;
    reflexivity.
Qed.

(** When the first chunk is followed by the line end that the chunked
    encoding puts after every chunk, the reader takes that line end for an
    empty size line, that is for the final chunk of size 0, and returns the
    first chunk alone. *)
Lemma read_chunks_first_chunk_only rfile n rest rest' :
  read_chunk_len rfile 0%N = (Ok n, rest) → n ≠ 0%N →
  string_drop (N.to_nat n) rest = CRLF +:+ rest' →
  read_chunks rfile [] = (Ok (string_take (N.to_nat n) rest), rest').
Proof.
  intros Hlen Hn Hdrop. rewrite read_chunks_loop, Hlen.
  rewrite (proj2 (N.eqb_neq n 0) Hn), Hdrop.
  rewrite read_chunks_loop. reflexivity.
Qed.

(** C4 on two bodies.  The body [4 CRLF Wiki CRLF 0 CRLF CRLF] decodes to
    [Wiki], with the final chunk left unread; the body with the two chunks
    [Wiki] and [pedia] decodes to [Wiki] as well, not to [Wikipedia]; a size
    line that ends in another byte than CR LF makes the reader raise. *)
Theorem chunked_reader_returns_first_chunk :
  read_chunks wiki_chunked [] = (Ok "Wiki", "0" +:+ CRLF +:+ CRLF)
  ∧ read_chunks wikipedia_chunked []
    = (Ok "Wiki", "5" +:+ CRLF +:+ "pedia" +:+ CRLF +:+ "0" +:+ CRLF +:+ CRLF)
  ∧ (read_chunks wikipedia_chunked []).1 ≠ Ok "Wikipedia"
  ∧ (read_chunks ("4;" +:+ CRLF +:+ "Wiki") []).1 = Raise ValueError.
Proof. vm_compute. split_and!; [reflexivity..|discriminate|reflexivity]. Qed.

(** ** Objects and references: copies share nothing with the store *)

(** Reading through references only looks at objects that exist, so it
    gives the same value in a heap with more objects. *)
Lemma reify_app depth h ext v j :
  Heap.reify depth h v = Some j → Heap.reify depth (h ++ ext) v = Some j.
Proof.
  revert v j. induction depth as [|depth IH]; intros [| | | |l] j; try done.
  cbn [Heap.reify]. destruct (h !! l) as [o|] eqn:Hl; [|done].
  rewrite (lookup_app_l_Some h ext l o Hl).
  assert (∀ vs js, mapM (Heap.reify depth h) vs = Some js →
                   mapM (Heap.reify depth (h ++ ext)) vs = Some js) as Hall.
  { intros vs js Hm. apply mapM_Some. apply mapM_Some in Hm.
    eapply Forall2_impl; [exact Hm|]. intros; by apply IH. }
  destruct o as [d|vs].
  - destruct (mapM (Heap.reify depth h) _) as [js|] eqn:Hm; [|done].
    by rewrite (Hall _ _ Hm).
  - destruct (mapM (Heap.reify depth h) vs) as [js|] eqn:Hm; [|done].
    by rewrite (Hall _ _ Hm).
Qed.

Lemma mapM_reify_app depth h ext vs js :
  mapM (Heap.reify depth h) vs = Some js →
  mapM (Heap.reify depth (h ++ ext)) vs = Some js.
Proof.
  intros Hm. apply mapM_Some. apply mapM_Some in Hm.
  eapply Forall2_impl; [exact Hm|]. intros; by apply reify_app.
Qed.

(** A larger bound on the depth gives the same value. *)
Lemma reify_mono depth h v j :
  Heap.reify depth h v = Some j → Heap.reify (S depth) h v = Some j.
Proof.
  revert v j. induction depth as [|depth IH]; intros [| | | |l] j; try done.
  intros Hr. cbn [Heap.reify] in Hr. change (Heap.reify (S (S depth)) h (Heap.VRef l))
    with (match h !! l with
          | Some (Heap.OList vs) => JArr <$> mapM (Heap.reify (S depth) h) vs
          | Some (Heap.ODict d) =>
              (fun js => JObj (list_to_map (zip (map_to_list d).*1 js)))
                <$> mapM (Heap.reify (S depth) h) (map_to_list d).*2
          | None => None
          end).
  assert (∀ vs js, mapM (Heap.reify depth h) vs = Some js →
                   mapM (Heap.reify (S depth) h) vs = Some js) as Hall.
  { intros vs js Hm. apply mapM_Some. apply mapM_Some in Hm.
    eapply Forall2_impl; [exact Hm|]. intros; by apply IH. }
  destruct (h !! l) as [[d|vs]|]; [| |done].
  - destruct (mapM (Heap.reify depth h) _) as [js|] eqn:Hm; [|done].
    by rewrite (Hall _ _ Hm).
  - destruct (mapM (Heap.reify depth h) vs) as [js|] eqn:Hm; [|done].
    by rewrite (Hall _ _ Hm).
Qed.

(** The dictionary built from the keys of [kvs] and the values [ys] that
    [f] gives for the values of [kvs]. *)
Lemma list_to_map_zip_omap {A B} (f : A → option B)
    (kvs : list (string * A)) (ys : list B) :
  Forall2 (fun x y => f x = Some y) kvs.*2 ys →
  (list_to_map (zip kvs.*1 ys) : gmap string B) = omap f (list_to_map kvs).
Proof.
  revert ys. induction kvs as [|[k x] kvs IH]; intros ys Hall.
  - inversion Hall; subst. simpl. by rewrite omap_empty.
  - inversion Hall as [|? y ? ys' Hx Hys]; subst.
    change (zip ((k, x) :: kvs).*1 (y :: ys')) with ((k, y) :: zip kvs.*1 ys').
    rewrite !list_to_map_cons, (IH ys' Hys).
    by rewrite (omap_insert_Some f _ k x y Hx).
Qed.

(** What a dictionary object stands for: its fields, each seen through
    [R]. *)
Lemma dict_fields_omap (R : Heap.val → option json) (d : gmap string Heap.val) js :
  mapM R (map_to_list d).*2 = Some js →
  list_to_map (zip (map_to_list d).*1 js) = omap R d.
Proof.
  intros Hm. rewrite (list_to_map_zip_omap R) by by apply mapM_Some.
  by rewrite list_to_map_to_list.
Qed.

Lemma dict_fields_total (R : Heap.val → option json) (d : gmap string Heap.val) :
  (∀ k v, d !! k = Some v → is_Some (R v)) →
  is_Some (mapM R (map_to_list d).*2).
Proof.
  intros Hall. apply mapM_is_Some, Forall_forall.
  intros v ([k v'] & -> & Hkv%elem_of_map_to_list)%list_elem_of_fmap.
  by eapply Hall.
Qed.

(** Copying a list of values, given what copying one value does. *)
Lemma copy_all_spec depth :
  (∀ h v j, Heap.reify depth h v = Some j →
     ∃ new v', Heap.deepcopy depth h v = Some (h ++ new, v')
       ∧ ∀ h0, List.length h0 = List.length h →
           Heap.reify depth (h0 ++ new) v' = Some j) →
  ∀ vs h js, mapM (Heap.reify depth h) vs = Some js →
    ∃ new vs', Heap.copy_all (Heap.deepcopy depth) h vs = Some (h ++ new, vs')
      ∧ ∀ h0, List.length h0 = List.length h →
          mapM (Heap.reify depth (h0 ++ new)) vs' = Some js.
Proof.
  intros Hcopy vs. induction vs as [|v vs IH]; intros h js Hm.
  - injection Hm as <-. exists [], []. split.
    + by rewrite app_nil_r.
    + done.
  - apply mapM_Some in Hm. inversion Hm as [|? j ? js' Hv Hvs]; subst.
    destruct (Hcopy h v j Hv) as (new1 & v' & Hcp & Hv').
    apply mapM_Some in Hvs.
    destruct (IH (h ++ new1) js' (mapM_reify_app _ _ _ _ _ Hvs))
      as (new2 & vs' & Hcps & Hvs').
    exists (new1 ++ new2), (v' :: vs'). split.
    + cbn [Heap.copy_all]. rewrite Hcp. simpl. rewrite Hcps. simpl.
      by rewrite app_assoc.
    + intros h0 Hlen. apply mapM_Some. constructor.
      * rewrite app_assoc. by apply reify_app, Hv'.
      * apply mapM_Some. rewrite app_assoc. apply Hvs'.
        rewrite !length_app. lia.
Qed.

(** [deepcopy] of a value that stands for [j] returns: it adds objects at
    the end of the heap and touches none that was there, and its result
    stands for [j] whatever the objects that were there hold. *)
Lemma deepcopy_spec depth h v j :
  Heap.reify depth h v = Some j →
  ∃ new v', Heap.deepcopy depth h v = Some (h ++ new, v')
    ∧ ∀ h0, List.length h0 = List.length h →
        Heap.reify depth (h0 ++ new) v' = Some j.
Proof.
  revert h v j. induction depth as [|depth IH]; intros h v j Hr.
  - destruct v; try done;
      (eexists [], _; split; [by rewrite app_nil_r|by intros]).
  - destruct v as [| | | |l];
      try (eexists [], _; split; [by rewrite app_nil_r|by intros]).
    cbn [Heap.reify] in Hr. cbn [Heap.deepcopy].
    destruct (h !! l) as [[d|vs]|]; [| |done].
    + destruct (mapM (Heap.reify depth h) _) as [js|] eqn:Hm; [|done].
      injection Hr as <-.
      destruct (copy_all_spec depth IH _ h js Hm) as (new & vs' & Hcp & Hvs').
      rewrite Hcp. simpl. unfold Heap.alloc.
      eexists (new ++ [_]), _. split; [by rewrite app_assoc|].
      intros h0 Hlen. cbn [Heap.reify].
      assert (List.length (h ++ new) = List.length (h0 ++ new)) as ->.
      { rewrite !length_app. lia. }
      rewrite app_assoc, list_lookup_middle by done.
      specialize (Hvs' h0 Hlen).
      apply (mapM_reify_app _ _ [Heap.ODict
               (list_to_map (zip (map_to_list d).*1 vs'))]) in Hvs'.
      set (H := (h0 ++ new) ++ _) in *.
      set (d' := list_to_map (zip (map_to_list d).*1 vs') : gmap string Heap.val).
      assert (List.length vs' = List.length (map_to_list d).*1) as Hlen'.
      { apply mapM_Some, Forall2_length in Hvs'.
        apply mapM_Some, Forall2_length in Hm.
        rewrite !length_fmap in *. lia. }
      assert (omap (Heap.reify depth H) d'
              = list_to_map (zip (map_to_list d).*1 js)) as Hd'.
      { unfold d'. symmetry.
        rewrite <-(fst_zip (map_to_list d).*1 vs') at 1 by lia.
        apply list_to_map_zip_omap.
        rewrite snd_zip by lia. by apply mapM_Some. }
      destruct (dict_fields_total (Heap.reify depth H) d') as [js' Hjs'].
      { intros k v' Hk. unfold d' in Hk.
        apply elem_of_list_to_map_2, elem_of_zip_r in Hk.
        assert (Forall (is_Some ∘ Heap.reify depth H) vs') as Hall.
        { apply mapM_is_Some. by rewrite Hvs'. }
        by apply (proj1 (Forall_forall _ _) Hall). }
      rewrite Hjs'. simpl. by rewrite (dict_fields_omap _ _ _ Hjs'), Hd'.
    + destruct (mapM (Heap.reify depth h) vs) as [js|] eqn:Hm; [|done].
      injection Hr as <-.
      destruct (copy_all_spec depth IH _ h js Hm) as (new & vs' & Hcp & Hvs').
      rewrite Hcp. simpl. unfold Heap.alloc.
      eexists (new ++ [_]), _. split; [by rewrite app_assoc|].
      intros h0 Hlen. cbn [Heap.reify].
      assert (List.length (h ++ new) = List.length (h0 ++ new)) as ->.
      { rewrite !length_app. lia. }
      rewrite app_assoc, list_lookup_middle by done.
      by rewrite (mapM_reify_app _ _ _ _ _ (Hvs' h0 Hlen)).
Qed.

(** A value that stands for a dictionary is a reference to a dictionary
    object whose fields all stand for something. *)
Lemma reify_JObj_inv depth h v it :
  Heap.reify depth h v = Some (JObj it) →
  ∃ l depth' d, v = Heap.VRef l ∧ depth = S depth'
    ∧ h !! l = Some (Heap.ODict d)
    ∧ it = omap (Heap.reify depth' h) d
    ∧ ∀ k x, d !! k = Some x → is_Some (Heap.reify depth' h x).
Proof.
  intros Hr. destruct depth as [|depth'], v as [| | | |l]; try discriminate Hr.
  cbn [Heap.reify] in Hr. destruct (h !! l) as [[d|vs]|] eqn:Hl; [| |done].
  - destruct (mapM (Heap.reify depth' h) _) as [js|] eqn:Hm; [|done].
    injection Hr as <-. exists l, depth', d. split_and!; try done.
    + by apply dict_fields_omap.
    + intros k x Hk.
      assert (Forall (is_Some ∘ Heap.reify depth' h) (map_to_list d).*2) as Hall.
      { apply mapM_is_Some. by rewrite Hm. }
      apply (proj1 (Forall_forall _ _) Hall).
      apply list_elem_of_fmap. exists (k, x). split; [done|].
      by apply elem_of_map_to_list.
  - by destruct (mapM (Heap.reify depth' h) vs).
Qed.

(** The search through the references finds what the search through the
    values finds. *)
Lemma heap_FindItem_in depth h key vs items :
  mapM (Heap.reify depth h) vs = Some (JObj <$> items) →
  ∃ r, Heap.FindItem_in depth h key vs = Some r
    ∧ match SessionData.FindItem_in key items with
      | Ok None => r = Ok Heap.VNone
      | Ok (Some it) =>
          ∃ l, r = Ok (Heap.VRef l)
            ∧ Heap.reify depth h (Heap.VRef l) = Some (JObj it)
            ∧ Heap.found h (Heap.VRef l) = true
      | Raise e => r = Raise e
      | Hang => False
      end.
Proof.
  intros Hm. apply mapM_Some in Hm. revert items Hm.
  induction vs as [|v vs IH]; intros items Hm.
  - apply Forall2_nil_inv_l in Hm. destruct items; [|done].
    by exists (Ok Heap.VNone).
  - destruct items as [|it items]; [by inversion Hm|].
    rewrite fmap_cons in Hm. apply Forall2_cons in Hm as [Hv Hvs].
    destruct (reify_JObj_inv _ _ _ _ Hv)
      as (l & depth' & d & -> & -> & Hl & -> & Hfields).
    cbn [Heap.FindItem_in SessionData.FindItem_in]. rewrite Hl, lookup_omap.
    destruct (d !! "id") as [idv|] eqn:Hid; [|by exists (Raise KeyError)].
    destruct (Hfields _ _ Hid) as [idj Hidj].
    rewrite (reify_mono _ _ _ _ Hidj). cbn [mbind option_bind]. rewrite Hidj.
    destruct (py_eq idj key).
    + exists (Ok (Heap.VRef l)). split; [done|]. exists l. split_and!; try done.
      unfold Heap.found. rewrite Hl. apply negb_true_iff, bool_decide_eq_false_2.
      intros ->. by rewrite lookup_empty in Hid.
    + apply IH, Hvs.
Qed.

Lemma contents_app depth h ext s c :
  Heap.contents depth h s = Some c → Heap.contents depth (h ++ ext) s = Some c.
Proof.
  unfold Heap.contents.
  destruct (h !! Heap._items s) as [[d|vs]|] eqn:Hl; try done.
  rewrite (lookup_app_l_Some _ ext _ _ Hl). apply mapM_reify_app.
Qed.

(** With an id on every item the search through the values returns. *)
Lemma FindItem_in_returns key items :
  Forall (fun it : Item => is_Some (it !! "id")) items →
  ∃ o, SessionData.FindItem_in key items = Ok o
    ∧ (∀ it, o = Some it → SessionData.found o = true).
Proof.
  induction 1 as [|it items [v Hv] _ (o & IH & Hfound)]; simpl.
  - exists None. by split.
  - rewrite Hv. destruct (py_eq v key) eqn:Heq; [|by exists o].
    exists (Some it). split; [done|]. intros ? _.
    apply (found_id_is key). unfold id_is. by rewrite Hv.
Qed.

Lemma value_GetItemCopy key items :
  Forall (fun it : Item => is_Some (it !! "id")) items →
  ∃ o, SessionData.FindItem_in key items = Ok o
    ∧ SessionData.GetItemCopy key (SessionData.mk items false)
      = (Ok o, SessionData.mk items false).
Proof.
  intros Hids. destruct (FindItem_in_returns key items Hids) as (o & Hfind & Hf).
  exists o. split; [done|]. run_M. rewrite Hfind.
  destruct o as [it|]; [|done]. by rewrite (Hf it eq_refl).
Qed.

Lemma heap_GetItemCopy depth key s h items :
  Heap._mutex s = false →
  Heap.contents depth h s = Some (JObj <$> items) →
  Forall (fun it : Item => is_Some (it !! "id")) items →
  ∃ o new v,
    SessionData.GetItemCopy key (SessionData.mk items false)
    = (Ok o, SessionData.mk items false)
    ∧ Heap.GetItemCopy depth key s h = Some (Ok v, s, h ++ new)
    ∧ ∀ h0, List.length h0 = List.length h →
        Heap.reify depth (h0 ++ new) v = Some (as_json o).
Proof.
  destruct s as [il mx]. simpl. intros -> Hc Hids.
  destruct (value_GetItemCopy key items Hids) as (o & Hfind & Hget).
  exists o. unfold Heap.contents in Hc. unfold Heap.GetItemCopy. simpl in *.
  destruct (h !! il) as [[d|vs]|]; try done.
  destruct (heap_FindItem_in depth h key vs items Hc) as (r & Hr & Hrel).
  rewrite Hr, Hfind in *. simpl. destruct o as [it|].
  - destruct Hrel as (l & -> & Hreify & Hfound). rewrite Hfound.
    destruct (deepcopy_spec depth h _ _ Hreify) as (new & v' & Hcp & Hv').
    exists new, v'. rewrite Hcp. done.
  - subst r. simpl. exists [], Heap.VNone. rewrite app_nil_r.
    split_and!; try done. by intros; destruct depth.
Qed.

Lemma heap_GetAllItemsCopy depth s h items :
  Heap._mutex s = false →
  Heap.contents depth h s = Some (JObj <$> items) →
  ∃ new v,
    Heap.GetAllItemsCopy depth s h = Some (Ok v, s, h ++ new)
    ∧ ∀ h0, List.length h0 = List.length h →
        Heap.reify (S depth) (h0 ++ new) v = Some (JArr (JObj <$> items)).
Proof.
  destruct s as [il mx]. simpl. intros -> Hc.
  assert (Heap.reify (S depth) h (Heap.VRef il)
          = Some (JArr (JObj <$> items))) as Hreify.
  { unfold Heap.contents in Hc. cbn [Heap.reify]. simpl in Hc.
    destruct (h !! il) as [[d|vs]|]; try done. by rewrite Hc. }
  destruct (deepcopy_spec _ h _ _ Hreify) as (new & v' & Hcp & Hv').
  exists new, v'. unfold Heap.GetAllItemsCopy.
  cbn [Heap._mutex Heap._items]. rewrite Hcp. done.
Qed.

(** C7.  Take a session whose lock is free and whose items, seen through
    the references, are [items], each with an id.  [GetItemCopy] and
    [GetAllItemsCopy] return; they leave the session as it is and only add
    objects to the heap; what they return stands for the item found (or
    [None]), respectively for the list of all items, whatever the objects of
    the store hold (it shares nothing with them); and whatever the objects
    added since hold, the same reads return the same values again and the
    store still holds [items]. *)
Theorem copies_share_nothing (depth : nat) (key : json) (s : Heap.session)
    (h : Heap.heap) (items : list Item) :
  Heap._mutex s = false →
  Heap.contents depth h s = Some (JObj <$> items) →
  Forall (fun it : Item => is_Some (it !! "id")) items →
  (∃ o new v,
      SessionData.GetItemCopy key (SessionData.mk items false)
      = (Ok o, SessionData.mk items false)
      ∧ Heap.GetItemCopy depth key s h = Some (Ok v, s, h ++ new)
      ∧ (∀ h0, List.length h0 = List.length h →
           Heap.reify depth (h0 ++ new) v = Some (as_json o))
      ∧ ∀ later, ∃ new' v',
          Heap.GetItemCopy depth key s (h ++ later)
          = Some (Ok v', s, (h ++ later) ++ new')
          ∧ Heap.reify depth ((h ++ later) ++ new') v' = Some (as_json o)
          ∧ Heap.contents depth ((h ++ later) ++ new') s
            = Some (JObj <$> items))
  ∧ (∃ new v,
      Heap.GetAllItemsCopy depth s h = Some (Ok v, s, h ++ new)
      ∧ (∀ h0, List.length h0 = List.length h →
           Heap.reify (S depth) (h0 ++ new) v = Some (JArr (JObj <$> items)))
      ∧ ∀ later, ∃ new' v',
          Heap.GetAllItemsCopy depth s (h ++ later)
          = Some (Ok v', s, (h ++ later) ++ new')
          ∧ Heap.reify (S depth) ((h ++ later) ++ new') v'
            = Some (JArr (JObj <$> items))
          ∧ Heap.contents depth ((h ++ later) ++ new') s
            = Some (JObj <$> items)).
Proof.
  intros Hm Hc Hids. split.
  - destruct (heap_GetItemCopy depth key s h items Hm Hc Hids)
      as (o & new & v & Hval & Hget & Hv).
    exists o, new, v. split_and!; try done. intros later.
    destruct (heap_GetItemCopy depth key s (h ++ later) items Hm
                (contents_app _ _ _ _ _ Hc) Hids)
      as (o' & new' & v' & Hval' & Hget' & Hv').
    rewrite Hval in Hval'. injection Hval' as <-.
    exists new', v'. split_and!; [done|by apply Hv'|].
    by apply contents_app, contents_app.
  - destruct (heap_GetAllItemsCopy depth s h items Hm Hc)
      as (new & v & Hget & Hv).
    exists new, v. split_and!; try done. intros later.
    destruct (heap_GetAllItemsCopy depth s (h ++ later) items Hm
                (contents_app _ _ _ _ _ Hc))
      as (new' & v' & Hget' & Hv').
    exists new', v'. split_and!; [done|by apply Hv'|].
    by apply contents_app, contents_app.
Qed.

Lemma copies_share_nothing_witness :
  Heap._mutex Heap.init_session = false
  ∧ Heap.contents 1 Heap.init_heap Heap.init_session
    = Some (JObj <$> [item_A; item_B])
  ∧ Forall (fun it : Item => is_Some (it !! "id")) [item_A; item_B]
  ∧ ∃ new v,
      Heap.GetItemCopy 1 (JStr "A") Heap.init_session Heap.init_heap
      = Some (Ok v, Heap.init_session, Heap.init_heap ++ new)
      ∧ Heap.reify 1 (Heap.init_heap ++ new) v = Some (JObj item_A).
Proof.
  assert (Heap.contents 1 Heap.init_heap Heap.init_session
          = Some (JObj <$> [item_A; item_B])) as Hc.
  { vm_compute. reflexivity. }
  assert (Forall (fun it : Item => is_Some (it !! "id")) [item_A; item_B])
    as Hids.
  { repeat constructor; by eexists. }
  split_and!; [reflexivity|exact Hc|exact Hids|].
  destruct (copies_share_nothing 1 (JStr "A") Heap.init_session
              Heap.init_heap [item_A; item_B] eq_refl Hc Hids)
    as [(o & new & v & Hval & Hget & Hv & _) _].
  exists new, v. split; [exact Hget|].
  assert (o = Some item_A) as ->.
  { assert (SessionData.GetItemCopy (JStr "A")
              (SessionData.mk [item_A; item_B] false)
            = (Ok (Some item_A), SessionData.mk [item_A; item_B] false)) as E.
    { vm_compute. reflexivity. }
    rewrite E in Hval. by injection Hval as <-. }
  by apply Hv.
Defined.


(** * Further properties of the code *)

(** ** SessionData: replacing and deleting *)

Lemma ReplaceItem_present key m pre old post :
  Forall (id_differs key) pre → id_is key old = true →
  ReplaceItem key (JObj m) (SessionData.mk (pre ++ old :: post) false)
  = (Ok (stamped m), SessionData.mk (pre ++ post ++ [stamped m]) false).
Proof.
  intros Hpre Hold. run_M.
  rewrite (FindItem_in_first key pre old post Hpre Hold).
  rewrite (found_id_is key old Hold). simpl.
  rewrite (list_remove_first key pre old post Hpre Hold). simpl.
  by rewrite <-app_assoc.
Qed.

Lemma ReplaceItem_absent key m items :
  Forall (id_differs key) items →
  ReplaceItem key (JObj m) (SessionData.mk items false)
  = (Ok (stamped m), SessionData.mk (items ++ [stamped m]) false).
Proof. intros Hall. run_M. by rewrite (FindItem_in_none key _ Hall). Qed.

Lemma AddNewItem_absent key m items :
  Forall (id_differs key) items →
  AddNewItem key (JObj m) (SessionData.mk items false)
  = (Ok (Some (stamped m)), SessionData.mk (items ++ [stamped m]) false).
Proof. intros Hall. run_M. by rewrite (FindItem_in_none key _ Hall). Qed.

(** X1. [ReplaceItem] is an upsert that moves the item to the end: the first
    item with the id [key] is dropped, whatever fields it had, and the new
    item, stamped with the kind, is appended and returned; without such an
    item the new one is just appended. *)
Theorem ReplaceItem_upsert (key : json) (m : Item) (s : SessionData.t) :
  _mutex s = false →
  (∀ pre old post,
      _items s = pre ++ old :: post →
      Forall (id_differs key) pre → id_is key old = true →
      ReplaceItem key (JObj m) s
      = (Ok (stamped m), SessionData.mk (pre ++ post ++ [stamped m]) false))
  ∧ (Forall (id_differs key) (_items s) →
     ReplaceItem key (JObj m) s
     = (Ok (stamped m), SessionData.mk (_items s ++ [stamped m]) false)).
Proof.
  destruct s as [items mx]. simpl. intros ->. split.
  - intros pre old post -> Hpre Hold. by apply ReplaceItem_present.
  - by apply ReplaceItem_absent.
Qed.

Lemma ReplaceItem_upsert_witness :
  let m : Item := <["id" := JStr "A"]> {[ "colour" := JStr "red" ]} in
  _mutex SessionData.__init__ = false
  ∧ ReplaceItem (JStr "A") (JObj m) SessionData.__init__
    = (Ok (stamped m), SessionData.mk [item_B; stamped m] false)
  ∧ stamped m !! "name" = None.
Proof.
  intros m. split; [reflexivity|].
  destruct (ReplaceItem_upsert (JStr "A") m SessionData.__init__ eq_refl)
    as [H _].
  split; [|reflexivity]. apply (H [] item_A [item_B]); [reflexivity| |reflexivity].
  constructor.
Defined.

Lemma id_differs_stamped key it : id_differs key it → id_differs key (stamped it).
Proof.
  intros (v & Hv & Hne). exists v. split; [|done].
  unfold stamped. by rewrite lookup_insert_ne.
Qed.

(** X2. Replacing twice under a key that no item of the session has.  The first
    call appends its item.  What the second call does depends on the id that
    the first item carries: if it is the key, the first item gives way and
    only the second one remains; if it is another id, the search under the
    key passes over the first item and both remain; and if the first item
    has no id at all, the search raises [KeyError] and leaves the lock
    held. *)
Theorem ReplaceItem_twice (key : json) (v1 v2 : Item) (items : list Item) :
  Forall (id_differs key) items →
  ∃ s1,
    ReplaceItem key (JObj v1) (SessionData.mk items false) = (Ok (stamped v1), s1)
    ∧ (id_is key v1 = true →
       ReplaceItem key (JObj v2) s1
       = (Ok (stamped v2), SessionData.mk (items ++ [stamped v2]) false))
    ∧ (id_differs key v1 →
       ReplaceItem key (JObj v2) s1
       = (Ok (stamped v2),
          SessionData.mk (items ++ [stamped v1; stamped v2]) false))
    ∧ (v1 !! "id" = None →
       ReplaceItem key (JObj v2) s1
       = (Raise KeyError, SessionData.mk (items ++ [stamped v1]) true)).
Proof.
  intros Hall. eexists. split; [by apply ReplaceItem_absent|]. split_and!.
  - intros Hid.
    rewrite <-(app_nil_r (items ++ [stamped v2])), <-app_assoc.
    change ([stamped v2] ++ []) with ([] ++ [stamped v2]).
    apply ReplaceItem_present; [done|]. by rewrite id_is_stamped.
  - intros Hdiff.
    rewrite (ReplaceItem_absent key v2 (items ++ [stamped v1])).
    + by rewrite <-app_assoc.
    + apply Forall_app. split; [done|].
      constructor; [by apply id_differs_stamped|constructor].
  - intros Hnone. run_M.
    assert (FindItem_in key (items ++ [stamped v1]) = Raise KeyError) as ->;
      [|done].
    clear -Hall Hnone. induction Hall as [|x l (v & Hv & Hne) _ IH]; simpl.
    + unfold stamped. by rewrite lookup_insert_ne, Hnone.
    + by rewrite Hv, Hne.
Qed.

Lemma ReplaceItem_twice_witness :
  let v1 : Item := <["id" := JStr "C"]> {[ "name" := JStr "one" ]} in
  let w1 : Item := <["id" := JStr "D"]> {[ "name" := JStr "one" ]} in
  let v2 : Item := <["id" := JStr "C"]> {[ "size" := JNum 2 ]} in
  Forall (id_differs (JStr "C")) [item_A; item_B]
  ∧ (ReplaceItem (JStr "C") (JObj v2)
       (ReplaceItem (JStr "C") (JObj v1) SessionData.__init__).2).2
    = SessionData.mk [item_A; item_B; stamped v2] false
  ∧ (ReplaceItem (JStr "C") (JObj v2)
       (ReplaceItem (JStr "C") (JObj w1) SessionData.__init__).2).2
    = SessionData.mk [item_A; item_B; stamped w1; stamped v2] false.
Proof.
  intros v1 w1 v2.
  assert (Forall (id_differs (JStr "C")) [item_A; item_B]) as Hall.
  { repeat constructor; eexists; split; reflexivity. }
  split_and!; [exact Hall| |].
  - destruct (ReplaceItem_twice (JStr "C") v1 v2 [item_A; item_B] Hall)
      as (s1 & H1 & H2 & _).
    change SessionData.__init__ with (SessionData.mk [item_A; item_B] false).
    rewrite H1. simpl. by rewrite (H2 eq_refl).
  - destruct (ReplaceItem_twice (JStr "C") w1 v2 [item_A; item_B] Hall)
      as (s1 & H1 & _ & H2 & _).
    change SessionData.__init__ with (SessionData.mk [item_A; item_B] false).
    rewrite H1. simpl. rewrite H2; [done|].
    eexists; split; reflexivity.
Defined.

Lemma DeleteItem_present key pre old post :
  Forall (id_differs key) pre → id_is key old = true →
  DeleteItem key (SessionData.mk (pre ++ old :: post) false)
  = (Ok (Some old), SessionData.mk (pre ++ post) false).
Proof.
  intros Hpre Hold. run_M.
  rewrite (FindItem_in_first key pre old post Hpre Hold).
  rewrite (found_id_is key old Hold). simpl.
  by rewrite (list_remove_first key pre old post Hpre Hold).
Qed.

Lemma DeleteItem_absent key items :
  Forall (id_differs key) items →
  DeleteItem key (SessionData.mk items false)
  = (Ok None, SessionData.mk items false).
Proof. intros Hall. run_M. by rewrite (FindItem_in_none key _ Hall). Qed.

Lemma GetItemCopy_absent key items :
  Forall (id_differs key) items →
  GetItemCopy key (SessionData.mk items false)
  = (Ok None, SessionData.mk items false).
Proof. intros Hall. run_M. by rewrite (FindItem_in_none key _ Hall). Qed.

(** X3. [DeleteItem] takes the first item with the id [key] out of the list and
    returns it, keeping the order of the others; when no other item has that
    id, [GetItemCopy] does not find it any more.  Without such an item
    [DeleteItem] returns [None] and changes nothing. *)
Theorem DeleteItem_removes (key : json) (s : SessionData.t) :
  _mutex s = false →
  (∀ pre old post,
      _items s = pre ++ old :: post →
      Forall (id_differs key) pre → id_is key old = true →
      DeleteItem key s = (Ok (Some old), SessionData.mk (pre ++ post) false)
      ∧ (Forall (id_differs key) post →
         GetItemCopy key (SessionData.mk (pre ++ post) false)
         = (Ok None, SessionData.mk (pre ++ post) false)))
  ∧ (Forall (id_differs key) (_items s) → DeleteItem key s = (Ok None, s)).
Proof.
  destruct s as [items mx]. simpl. intros ->. split.
  - intros pre old post -> Hpre Hold. split; [by apply DeleteItem_present|].
    intros Hpost. apply GetItemCopy_absent. by apply Forall_app.
  - by apply DeleteItem_absent.
Qed.

Lemma DeleteItem_removes_witness :
  _mutex SessionData.__init__ = false
  ∧ DeleteItem (JStr "A") SessionData.__init__
    = (Ok (Some item_A), SessionData.mk [item_B] false)
  ∧ GetItemCopy (JStr "A") (SessionData.mk [item_B] false)
    = (Ok None, SessionData.mk [item_B] false)
  ∧ DeleteItem (JStr "Z") SessionData.__init__ = (Ok None, SessionData.__init__).
Proof.
  split; [reflexivity|].
  destruct (DeleteItem_removes (JStr "A") SessionData.__init__ eq_refl)
    as [Hpresent _].
  destruct (DeleteItem_removes (JStr "Z") SessionData.__init__ eq_refl)
    as [_ Habsent].
  destruct (Hpresent [] item_A [item_B] eq_refl) as [Hdel Hget];
    [constructor|reflexivity|].
  split_and!; [exact Hdel| |].
  - apply Hget. repeat constructor. eexists; split; reflexivity.
  - apply Habsent. repeat constructor; eexists; split; reflexivity.
Defined.

(** ** SessionData: exceptions inside the locked region *)

(** X4. No method releases the lock when an exception passes through it.  An
    item stored without an [id] makes the next search that reaches it raise
    [KeyError] with the lock held, and from then on every method of the
    session blocks. *)
Theorem item_without_id_blocks_session (key : json) (pre post : list Item)
    (bad : Item) :
  Forall (id_differs key) pre → bad !! "id" = None →
  let s := SessionData.mk (pre ++ bad :: post) false in
  let s' := SessionData.mk (pre ++ bad :: post) true in
  GetItemCopy key s = (Raise KeyError, s')
  ∧ (∀ item, AddNewItem key item s = (Raise KeyError, s'))
  ∧ (∀ item, PatchItem key item s = (Raise KeyError, s'))
  ∧ DeleteItem key s = (Raise KeyError, s')
  ∧ (∀ k item, AddNewItem k item s' = (Hang, s'))
  ∧ (∀ k item, PatchItem k item s' = (Hang, s'))
  ∧ (∀ k m, ReplaceItem k (JObj m) s' = (Hang, s'))
  ∧ (∀ k, DeleteItem k s' = (Hang, s'))
  ∧ (∀ k, GetItemCopy k s' = (Hang, s'))
  ∧ GetAllItemsCopy s' = (Hang, s').
Proof.
  intros Hpre Hbad s s'.
  assert (FindItem_in key (pre ++ bad :: post) = Raise KeyError) as Hfind.
  { clear s s'. induction Hpre as [|x pre (v & Hv & Hne) _ IH]; simpl.
    - by rewrite Hbad.
    - by rewrite Hv, Hne. }
  split_and!; try done; unfold s, s'; run_M; by rewrite Hfind.
Qed.

Lemma item_without_id_blocks_session_witness :
  let bad : Item := {[ "name" := JStr "no id" ]} in
  Forall (id_differs (JStr "Z")) [item_A; item_B]
  ∧ bad !! "id" = None
  ∧ AddNewItem (JStr "Z") (JObj bad) SessionData.__init__
    = (Ok (Some (stamped bad)),
       SessionData.mk ([item_A; item_B] ++ stamped bad :: []) false)
  ∧ GetItemCopy (JStr "Z")
      (SessionData.mk ([item_A; item_B] ++ stamped bad :: []) false)
    = (Raise KeyError,
       SessionData.mk ([item_A; item_B] ++ stamped bad :: []) true).
Proof.
  intros bad.
  assert (Forall (id_differs (JStr "Z")) [item_A; item_B]) as Hall.
  { repeat constructor; eexists; split; reflexivity. }
  split_and!; [exact Hall|reflexivity|vm_compute; reflexivity|].
  by destruct (item_without_id_blocks_session (JStr "Z") [item_A; item_B] []
                 (stamped bad) Hall eq_refl) as (H & _).
Defined.

Lemma PatchItem_non_dict key patch pre old post :
  Forall (id_differs key) pre → id_is key old = true →
  (∀ m, patch ≠ JObj m) →
  PatchItem key patch (SessionData.mk (pre ++ old :: post) false)
  = (Raise AttributeError, SessionData.mk (pre ++ post) true).
Proof.
  intros Hpre Hold Hpatch. run_M.
  rewrite (FindItem_in_first key pre old post Hpre Hold).
  rewrite (found_id_is key old Hold). simpl.
  rewrite (list_remove_first key pre old post Hpre Hold). simpl.
  destruct patch as [| | | | |m]; try done. by destruct (Hpatch m).
Qed.

(** X5. [PatchItem] removes the item before it looks at the patch.  A patch that
    is not a dictionary (a JSON list, string or number is accepted as
    request body) raises [AttributeError] at that point: the item is gone
    from the session, so that a search for its id finds nothing when no
    later item carries it, and the lock stays held, so that the methods
    that would read the session block. *)
Theorem PatchItem_non_dict_loses_item (key patch : json)
    (pre post : list Item) (old : Item) :
  Forall (id_differs key) pre → id_is key old = true →
  (∀ m, patch ≠ JObj m) →
  let s' := SessionData.mk (pre ++ post) true in
  PatchItem key patch (SessionData.mk (pre ++ old :: post) false)
  = (Raise AttributeError, s')
  ∧ (Forall (id_differs key) post → FindItem_in key (_items s') = Ok None)
  ∧ (∀ k, GetItemCopy k s' = (Hang, s'))
  ∧ GetAllItemsCopy s' = (Hang, s').
Proof.
  intros Hpre Hold Hpatch s'. split_and!.
  - by apply PatchItem_non_dict.
  - intros Hpost. apply FindItem_in_none. by apply Forall_app.
  - done.
  - done.
Qed.

Lemma PatchItem_non_dict_loses_item_witness :
  Forall (id_differs (JStr "A")) []
  ∧ id_is (JStr "A") item_A = true
  ∧ (∀ m, JArr [JNum 1] ≠ JObj m)
  ∧ PatchItem (JStr "A") (JArr [JNum 1]) SessionData.__init__
    = (Raise AttributeError, SessionData.mk [item_B] true)
  ∧ GetItemCopy (JStr "B") (SessionData.mk [item_B] true)
    = (Hang, SessionData.mk [item_B] true).
Proof.
  assert (∀ m, JArr [JNum 1] ≠ JObj m) as Hne by done.
  destruct (PatchItem_non_dict_loses_item (JStr "A") (JArr [JNum 1]) []
              [item_B] item_A (Forall_nil_2 _) eq_refl Hne)
    as (Hpatch & _ & Hget & _).
  split_and!; [constructor|reflexivity|exact Hne|exact Hpatch|exact (Hget _)].
Defined.

(** X6. An item that is not a dictionary cannot be stamped.  [ReplaceItem]
    stamps before it takes the lock and leaves the session as it was;
    [AddNewItem] stamps inside the locked region, once the search has found
    no item with that id, and leaves the lock held. *)
Theorem non_dict_item_raises (key item : json) (items : list Item) :
  (∀ m, item ≠ JObj m) →
  ReplaceItem key item (SessionData.mk items false)
  = (Raise TypeError, SessionData.mk items false)
  ∧ (Forall (id_differs key) items →
     AddNewItem key item (SessionData.mk items false)
     = (Raise TypeError, SessionData.mk items true)).
Proof.
  intros Hitem. split.
  - run_M. destruct item as [| | | | |m]; try done. by destruct (Hitem m).
  - intros Hall. run_M. rewrite (FindItem_in_none key _ Hall). simpl.
    destruct item as [| | | | |m]; try done. by destruct (Hitem m).
Qed.

Lemma non_dict_item_raises_witness :
  (∀ m, JStr "text" ≠ JObj m)
  ∧ ReplaceItem (JStr "C") (JStr "text") SessionData.__init__
    = (Raise TypeError, SessionData.__init__)
  ∧ AddNewItem (JStr "C") (JStr "text") SessionData.__init__
    = (Raise TypeError, SessionData.mk [item_A; item_B] true).
Proof.
  assert (∀ m, JStr "text" ≠ JObj m) as Hne by done.
  destruct (non_dict_item_raises (JStr "C") (JStr "text") [item_A; item_B] Hne)
    as [Hrep Hadd].
  split_and!; [exact Hne|exact Hrep|].
  apply Hadd. repeat constructor; eexists; split; reflexivity.
Defined.

(** ** SessionData: ids stay unique when calls are keyed by the item's id *)

Lemma ids_differ_sym x y : ids_differ x y → ids_differ y x.
Proof.
  intros H a b Ha Hb. apply not_true_is_false. intros Heq%py_eq_sym.
  by rewrite (H b a Hb Ha) in Heq.
Qed.

Lemma ids_unique_distinct items : ids_unique items ↔ distinct_ids items.
Proof.
  split.
  - induction items as [|x l IH]; intros Hu; [done|]. split.
    + apply Forall_forall. intros y (j & Hj)%list_elem_of_lookup_1 a b Ha Hb.
      by apply (Hu 0%nat (S j) x y a b).
    + apply IH. intros i j a b u v Hi Hj Hij.
      apply (Hu (S i) (S j) a b u v); [done|done|lia].
  - induction items as [|x l IH]; intros Hd i j a b u v Hi Hj Hij Hu Hv;
      [done|]. destruct Hd as [Hx Hl].
    destruct i as [|i], j as [|j]; simpl in Hi, Hj; try done.
    + injection Hi as <-.
      apply (proj1 (Forall_forall _ _) Hx b); [|done..].
      by eapply list_elem_of_lookup_2.
    + injection Hj as <-. apply (ids_differ_sym x a); [|done..].
      apply (proj1 (Forall_forall _ _) Hx a). by eapply list_elem_of_lookup_2.
    + apply (IH Hl i j a b u v); [done|done|lia|done|done].
Qed.

Lemma distinct_ids_snoc l x :
  distinct_ids (l ++ [x]) ↔ distinct_ids l ∧ Forall (fun y => ids_differ y x) l.
Proof.
  induction l as [|y l IH]; simpl.
  - split; [by intros _; split|by intros _; split].
  - rewrite Forall_app, Forall_singleton, IH, Forall_cons. tauto.
Qed.

Lemma distinct_ids_middle pre old post :
  distinct_ids (pre ++ old :: post) →
  distinct_ids (pre ++ post) ∧ Forall (ids_differ old) post.
Proof.
  induction pre as [|y pre IH]; simpl.
  - tauto.
  - rewrite !Forall_app, Forall_cons. intros [(? & ? & ?) Hd].
    destruct (IH Hd). tauto.
Qed.

(** With an id on every item, the search either finds a first item with the
    id or passes over all of them. *)
Lemma find_split key items :
  all_have_id items →
  Forall (id_differs key) items
  ∨ ∃ pre old post, items = pre ++ old :: post
      ∧ Forall (id_differs key) pre ∧ id_is key old = true.
Proof.
  induction 1 as [|x l [v Hv] _ IH]; [by left|].
  destruct (py_eq v key) eqn:Heq.
  - right. exists [], x, l. split_and!; [done|constructor|].
    unfold id_is. by rewrite Hv.
  - assert (id_differs key x) as Hx by by exists v.
    destruct IH as [IH|(pre & old & post & -> & Hpre & Hold)].
    + left. by constructor.
    + right. exists (x :: pre), old, post. split_and!; [done| |done].
      by constructor.
Qed.

(** An item with the id [key] differs in id from every item that does
    not have it. *)
Lemma id_differs_ids_differ key y x :
  id_differs key y → id_is key x = true → ids_differ y x.
Proof.
  intros (v & Hv & Hne) Hx a b Ha Hb. unfold id_is in Hx.
  rewrite Hb in Hx. rewrite Hv in Ha. injection Ha as <-.
  apply not_true_is_false. intros Heq.
  by rewrite (py_eq_trans _ _ _ Heq Hx) in Hne.
Qed.

(** In a list with unique ids, the items after the one with the id [key]
    do not have it. *)
Lemma after_match_differs key old post :
  all_have_id post → id_is key old = true → Forall (ids_differ old) post →
  Forall (id_differs key) post.
Proof.
  intros Hids Hold Hdiff. unfold id_is in Hold.
  destruct (old !! "id") as [o|] eqn:Ho; [|done].
  apply Forall_forall. intros y Hy.
  destruct (proj1 (Forall_forall _ _) Hids y Hy) as [a Ha].
  exists a. split; [done|]. apply not_true_is_false. intros Heq.
  pose proof (proj1 (Forall_forall _ _) Hdiff y Hy o a Ho Ha) as Hne.
  by rewrite (py_eq_trans _ _ _ Hold (py_eq_sym _ _ Heq)) in Hne.
Qed.

(** Appending an item with the id [key] to items that do not have it. *)
Lemma invariant_snoc key l x :
  all_have_id l → distinct_ids l → Forall (id_differs key) l →
  id_is key x = true →
  all_have_id (l ++ [x]) ∧ distinct_ids (l ++ [x]).
Proof.
  intros Hids Hd Hall Hx. split.
  - apply Forall_app. split; [done|]. constructor; [|constructor].
    unfold id_is in Hx. destruct (x !! "id"); [by eexists|done].
  - apply distinct_ids_snoc. split; [done|].
    eapply Forall_impl; [exact Hall|]. intros y Hy.
    by eapply id_differs_ids_differ.
Qed.

(** The step: a keyed call on a session with free lock, ids everywhere and
    no id twice returns and keeps all three. *)
Lemma do_call_invariant s c :
  keyed c →
  _mutex s = false → all_have_id (_items s) → distinct_ids (_items s) →
  _mutex (do_call s c) = false
  ∧ all_have_id (_items (do_call s c)) ∧ distinct_ids (_items (do_call s c)).
Proof.
  destruct s as [items mx]. simpl. intros Hc -> Hids Hd.
  destruct (find_split (match c with
                        | DoAdd k _ | DoReplace k _ | DoPatch k _ | DoDelete k
                          => k end) items Hids)
    as [Hall|(pre & old & post & -> & Hpre & Hold)].
  - destruct c as [key m|key m|key p|key]; simpl in *.
    + rewrite AddNewItem_absent by done. simpl. split; [done|]. apply (invariant_snoc key); try done.
      by rewrite id_is_stamped.
    + rewrite ReplaceItem_absent by done. simpl. split; [done|].
      apply (invariant_snoc key); try done. by rewrite id_is_stamped.
    + by rewrite PatchItem_absent.
    + by rewrite DeleteItem_absent.
  - apply Forall_app in Hids as Hids'. destruct Hids' as [Hidpre Hidrest].
    apply Forall_cons in Hidrest as [Hidold Hidpost].
    destruct (distinct_ids_middle _ _ _ Hd) as [Hd' Hdiff].
    assert (all_have_id (pre ++ post)) as Hids'' by by apply Forall_app.
    destruct c as [key m|key m|key p|key]; simpl in *.
    + by rewrite AddNewItem_conflict.
    + rewrite ReplaceItem_present by done. simpl. split; [done|].
      rewrite app_assoc. apply (invariant_snoc key); try done.
      * apply Forall_app. split; [done|]. by apply after_match_differs with old.
      * by rewrite id_is_stamped.
    + rewrite PatchItem_present by done. simpl. split; [done|].
      rewrite app_assoc. apply (invariant_snoc key); try done.
      * apply Forall_app. split; [done|]. by apply after_match_differs with old.
      * unfold id_is. destruct Hc as [Hnone|Hp].
        -- rewrite lookup_union_r by done. exact Hold.
        -- unfold id_is in Hp. destruct (p !! "id") as [b|] eqn:Hb; [|done].
           by rewrite (lookup_union_Some_l p old _ _ Hb).
    + rewrite DeleteItem_present by done. done.
Qed.

(** X7. Starting from a fresh session, any sequence of adds, replaces, patches
    and deletes in which each item carries the id it is filed under keeps the
    ids unique, keeps an id on every item and leaves the lock free. *)
Theorem keyed_calls_keep_ids_unique (calls : list session_call) :
  Forall keyed calls →
  let s := foldl do_call SessionData.__init__ calls in
  _mutex s = false ∧ all_have_id (_items s) ∧ ids_unique (_items s).
Proof.
  intros Hcalls.
  assert (∀ s0, _mutex s0 = false → all_have_id (_items s0) →
                distinct_ids (_items s0) →
                let s := foldl do_call s0 calls in
                _mutex s = false ∧ all_have_id (_items s)
                ∧ distinct_ids (_items s)) as Hgen.
  { induction Hcalls as [|c cs Hc _ IH]; intros s0 Hm Hids Hd; [done|].
    simpl. destruct (do_call_invariant s0 c Hc Hm Hids Hd) as (? & ? & ?).
    by apply IH. }
  destruct (Hgen SessionData.__init__) as (Hm & Hids & Hd).
  - done.
  - repeat constructor; by eexists.
  - apply ids_unique_distinct, ids_unique_init.
  - split_and!; [done|done|by apply ids_unique_distinct].
Qed.

Lemma keyed_calls_keep_ids_unique_witness :
  let calls :=
    [ DoAdd (JStr "C") (<["id" := JStr "C"]> {[ "name" := JStr "n" ]});
      DoPatch (JStr "A") {[ "name" := JStr "m" ]};
      DoReplace (JStr "B") {[ "id" := JStr "B" ]};
      DoDelete (JStr "C") ] in
  Forall keyed calls
  ∧ ids_unique (_items (foldl do_call SessionData.__init__ calls))
  ∧ List.length (_items (foldl do_call SessionData.__init__ calls)) = 2%nat.
Proof.
  intros calls.
  assert (Forall keyed calls) as Hk.
  { repeat constructor. }
  split_and!; [exact Hk| |vm_compute; reflexivity].
  by destruct (keyed_calls_keep_ids_unique calls Hk) as (_ & _ & Hu).
Defined.

(** ** SessionData: how calls compose *)

(** X8. Adding an item under a key that no item of the session has, and then
    deleting under that key.  If the item carries the key as its id, the
    delete gives back the item as it was stored and the session as it was
    before.  If the item carries another id, the delete does not find it:
    it returns [None] and the added item stays. *)
Theorem AddNewItem_then_DeleteItem (key : json) (v : Item)
    (items : list Item) :
  Forall (id_differs key) items →
  ∃ s1,
    AddNewItem key (JObj v) (SessionData.mk items false)
    = (Ok (Some (stamped v)), s1)
    ∧ _items s1 = items ++ [stamped v]
    ∧ (id_is key v = true →
       DeleteItem key s1 = (Ok (Some (stamped v)), SessionData.mk items false))
    ∧ (id_differs key v → DeleteItem key s1 = (Ok None, s1)).
Proof.
  intros Hall. eexists. split; [by apply AddNewItem_absent|].
  split_and!; [done| |].
  - intros Hid.
    rewrite (DeleteItem_present key items (stamped v) []);
      [by rewrite app_nil_r|done|by rewrite id_is_stamped].
  - intros Hdiff. apply DeleteItem_absent. apply Forall_app. split; [done|].
    constructor; [by apply id_differs_stamped|constructor].
Qed.

Lemma AddNewItem_then_DeleteItem_witness :
  let v : Item := <["id" := JNum 7]> {[ "name" := JStr "seven" ]} in
  Forall (id_differs (JNum 7)) [item_A; item_B]
  ∧ id_is (JNum 7) v = true
  ∧ (DeleteItem (JNum 7)
       (AddNewItem (JNum 7) (JObj v) SessionData.__init__).2)
    = (Ok (Some (stamped v)), SessionData.__init__).
Proof.
  intros v.
  assert (Forall (id_differs (JNum 7)) [item_A; item_B]) as Hall.
  { repeat constructor; eexists; split; reflexivity. }
  split_and!; [exact Hall|reflexivity|].
  destruct (AddNewItem_then_DeleteItem (JNum 7) v [item_A; item_B] Hall)
    as (s1 & H1 & _ & H2 & _).
  change SessionData.__init__ with (SessionData.mk [item_A; item_B] false).
  rewrite H1. exact (H2 eq_refl).
Defined.

(** X9. A patch that leaves the id alone can be applied again without effect:
    the second call returns the same item and leaves the session as the
    first call left it. *)
Theorem PatchItem_twice (key : json) (p : Item) (pre post : list Item)
    (old : Item) :
  Forall (id_differs key) pre → Forall (id_differs key) post →
  id_is key old = true →
  p !! "id" = None ∨ id_is key p = true →
  let s1 := SessionData.mk (pre ++ post ++ [p ∪ old]) false in
  PatchItem key (JObj p) (SessionData.mk (pre ++ old :: post) false)
  = (Ok (Some (p ∪ old)), s1)
  ∧ PatchItem key (JObj p) s1 = (Ok (Some (p ∪ old)), s1).
Proof.
  intros Hpre Hpost Hold Hp s1. split; [by apply PatchItem_present|].
  assert (id_is key (p ∪ old) = true) as Hm.
  { unfold id_is. destruct Hp as [Hnone|Hp].
    - rewrite lookup_union_r by done. exact Hold.
    - unfold id_is in Hp. destruct (p !! "id") as [b|] eqn:Hb; [|done].
      by rewrite (lookup_union_Some_l p old _ _ Hb). }
  unfold s1. rewrite app_assoc.
  rewrite (PatchItem_present key p (pre ++ post) (p ∪ old) []);
    [|by apply Forall_app|done].
  by rewrite (assoc_L (∪)), (idemp_L (∪)).
Qed.

Lemma PatchItem_twice_witness :
  let p : Item := {[ "name" := JStr "renamed" ]} in
  let s1 := SessionData.mk [item_B; p ∪ item_A] false in
  Forall (id_differs (JStr "A")) []
  ∧ Forall (id_differs (JStr "A")) [item_B]
  ∧ id_is (JStr "A") item_A = true
  ∧ (p !! "id" = None ∨ id_is (JStr "A") p = true)
  ∧ PatchItem (JStr "A") (JObj p) SessionData.__init__ = (Ok (Some (p ∪ item_A)), s1)
  ∧ PatchItem (JStr "A") (JObj p) s1 = (Ok (Some (p ∪ item_A)), s1)
  ∧ (p ∪ item_A) !! "name" = Some (JStr "renamed").
Proof.
  intros p s1.
  assert (Forall (id_differs (JStr "A")) [item_B]) as HB.
  { repeat constructor; eexists; split; reflexivity. }
  assert (p !! "id" = None ∨ id_is (JStr "A") p = true) as Hp by by left.
  destruct (PatchItem_twice (JStr "A") p [] [item_B] item_A
              (Forall_nil_2 _) HB eq_refl Hp) as [H1 H2].
  split_and!; [constructor|exact HB|reflexivity|exact Hp|exact H1|exact H2|].
  reflexivity.
Defined.

(** ** Repository *)

(** X10. Removing a session: the call returns what was stored under the
    identifier, after it the identifier is unknown, every other identifier
    resolves as before, the counter is untouched, and removing again finds
    nothing. *)
Theorem RemoveIdentifier_forgets (k : string) (r : Repository.t) :
  Repository._mutex r = false →
  ∃ r1,
    Repository.RemoveIdentifier (JStr k) r
    = (Ok (Repository._sessions r !! k), r1)
    ∧ Repository.GetSessionData k r1 = (Ok None, r1)
    ∧ (∀ k', k' ≠ k →
         Repository.GetSessionData k' r1
         = (Ok (Repository._sessions r !! k'), r1))
    ∧ Repository.RemoveIdentifier (JStr k) r1 = (Ok None, r1)
    ∧ Repository._sequence_num r1 = Repository._sequence_num r.
Proof.
  intros Hm. eexists. split; [by apply RemoveIdentifier_run|].
  split_and!.
  - rewrite GetSessionData_run by done. simpl. by rewrite lookup_delete_eq.
  - intros k' Hk'. rewrite GetSessionData_run by done. simpl.
    by rewrite lookup_delete_ne.
  - rewrite RemoveIdentifier_run by done. simpl.
    by rewrite lookup_delete_eq, delete_delete_eq.
  - done.
Qed.

Lemma RemoveIdentifier_forgets_witness :
  Repository._mutex one_session = false
  ∧ Repository.RemoveIdentifier (JStr "s-0.01-1") one_session
    = (Ok (Some SessionData.__init__),
       Repository.mk ∅ "0.01" 1%N false)
  ∧ Repository.GetSessionData "s-0.01-1" (Repository.mk ∅ "0.01" 1%N false)
    = (Ok None, Repository.mk ∅ "0.01" 1%N false).
Proof.
  destruct (RemoveIdentifier_forgets "s-0.01-1" one_session eq_refl)
    as (r1 & Hrm & Hget & _).
  assert (r1 = Repository.mk ∅ "0.01" 1%N false) as ->.
  { assert (Repository.RemoveIdentifier (JStr "s-0.01-1") one_session
            = (Ok (Some SessionData.__init__),
               Repository.mk ∅ "0.01" 1%N false)) as Hc
      by (vm_compute; reflexivity).
    rewrite Hc in Hrm. by injection Hrm. }
  split_and!; [reflexivity|vm_compute; reflexivity|exact Hget].
Defined.

(** The state after a sequence of repository calls. *)
Lemma after_calls_invariant calls nodeid :
  let r := foldl (fun r c => after_call c r) (Repository.__init__ nodeid) calls in
  Repository._mutex r = false
  ∧ Repository._nodeid r = nodeid
  ∧ ∀ k, is_Some (Repository._sessions r !! k) →
      ∃ b n, k = Repository.format_key b nodeid n
        ∧ (n <= Repository._sequence_num r)%N.
Proof.
  induction calls as [|c calls IH] using rev_ind; simpl.
  - split_and!; [done..|]. intros k [? Hk]. by rewrite lookup_empty in Hk.
  - rewrite foldl_app. simpl.
    destruct IH as (Hm & Hnid & Hkeys).
    destruct (after_call_frame c _ Hm) as (Hm' & Hnid' & Hseq).
    split_and!; [done|congruence|]. rewrite Hseq. clear Hseq.
    set (r := foldl _ _ calls) in *.
    intros k Hk. destruct c as [b|k0|k0|k0 f]; simpl in Hk.
    + rewrite NewIdentifier_run in Hk by done. simpl in Hk.
      destruct (decide (k = Repository.format_key b (Repository._nodeid r)
                              (Repository._sequence_num r + 1)%N)) as [->|Hne].
      * exists b, (Repository._sequence_num r + 1)%N. by rewrite Hnid.
      * rewrite lookup_insert_ne in Hk by done.
        destruct (Hkeys k Hk) as (b0 & n & -> & Hn). exists b0, n.
        split; [done|lia].
    + rewrite RemoveIdentifier_run in Hk by done. simpl in Hk.
      destruct (decide (k = k0)) as [->|Hne].
      * rewrite lookup_delete_eq in Hk. by destruct Hk.
      * rewrite lookup_delete_ne in Hk by done. by apply Hkeys.
    + rewrite GetSessionData_run in Hk by done. by apply Hkeys.
    + apply Hkeys. destruct (decide (k = k0)) as [->|Hne].
      * rewrite lookup_alter_eq in Hk. by apply fmap_is_Some in Hk.
      * by rewrite lookup_alter_ne in Hk.
Qed.

(** X11. Whatever calls were made before on a repository, [NewIdentifier] returns
    an identifier that is not in use, adds a fresh session under it and
    leaves every session that exists where it is. *)
Theorem NewIdentifier_keeps_sessions (calls : list repo_call)
    (nodeid basename : string) :
  let r := foldl (fun r c => after_call c r) (Repository.__init__ nodeid) calls in
  ∃ key r',
    Repository.NewIdentifier basename r = (Ok key, r')
    ∧ Repository._sessions r !! key = None
    ∧ Repository._sessions r' !! key = Some SessionData.__init__
    ∧ (∀ k, k ≠ key →
         Repository._sessions r' !! k = Repository._sessions r !! k)
    ∧ size (Repository._sessions r') = S (size (Repository._sessions r)).
Proof.
  intros r. destruct (after_calls_invariant calls nodeid) as (Hm & Hnid & Hkeys).
  fold r in Hm, Hnid, Hkeys.
  eexists _, _. split; [by apply NewIdentifier_run|]. simpl.
  assert (Repository._sessions r
            !! Repository.format_key basename (Repository._nodeid r)
                 (Repository._sequence_num r + 1)%N = None) as Hfresh.
  { apply eq_None_not_Some. intros Hk.
    destruct (Hkeys _ Hk) as (b & n & Heq & Hn).
    rewrite Hnid in Heq. apply format_key_inj in Heq. lia. }
  split_and!; [done|by rewrite lookup_insert_eq| |by rewrite map_size_insert_None].
  intros k Hk. by rewrite lookup_insert_ne.
Qed.

(** X12. A session identifier that is a JSON list or object cannot be hashed:
    on a repository that holds a session, [RemoveIdentifier] raises
    [TypeError] inside the locked region, and from then on every method of
    the repository blocks.  (On an empty repository [pop] hands back the
    default without hashing the key, and nothing of this happens.) *)
Theorem RemoveIdentifier_unhashable_blocks (key : json) (r : Repository.t) :
  Repository._mutex r = false →
  Repository._sessions r ≠ ∅ →
  (∃ l, key = JArr l) ∨ (∃ m, key = JObj m) →
  let r' := Repository.mk (Repository._sessions r) (Repository._nodeid r)
              (Repository._sequence_num r) true in
  Repository.RemoveIdentifier key r = (Raise TypeError, r')
  ∧ (∀ k, Repository.GetSessionData k r' = (Hang, r'))
  ∧ (∀ k, Repository.RemoveIdentifier k r' = (Hang, r'))
  ∧ (∀ b, Repository.NewIdentifier b r' = (Hang, r')).
Proof.
  destruct r as [ss nid n mx]. simpl. intros -> Hne Hkey.
  split_and!; [|done..].
  unfold Repository.RemoveIdentifier, Repository.sessions_pop, acquire,
    release, mbind, M_bind, mret, M_ret.
  destruct Hkey as [[l ->]|[m ->]]; simpl;
    by rewrite bool_decide_eq_false_2.
Qed.

Lemma RemoveIdentifier_unhashable_blocks_witness :
  let r' := Repository.mk (Repository._sessions one_session) "0.01" 1%N true in
  Repository._mutex one_session = false
  ∧ Repository._sessions one_session ≠ ∅
  ∧ Repository.RemoveIdentifier (JArr [JStr "s-0.01-1"]) one_session
    = (Raise TypeError, r')
  ∧ Repository.GetSessionData "s-0.01-1" r' = (Hang, r').
Proof.
  intros r'.
  assert (Repository._sessions one_session ≠ ∅) as Hne.
  { intros Heq. by pose proof (f_equal (fun m => m !! "s-0.01-1") Heq). }
  destruct (RemoveIdentifier_unhashable_blocks (JArr [JStr "s-0.01-1"])
              one_session eq_refl Hne (or_introl (ex_intro _ _ eq_refl)))
    as (Hrm & Hget & _).
  split_and!; [reflexivity|exact Hne|exact Hrm|exact (Hget _)].
Defined.

(** ** The chunked reader *)

Lemma string_cons_app c (s t : string) : String c s +:+ t = String c (s +:+ t).
Proof. reflexivity. Qed.

Lemma read_chunk_len_digit c rest acc :
  char_in c hexdigits = true →
  read_chunk_len (String c rest) acc
  = read_chunk_len rest (16 * acc + hex_value c)%N.
Proof. intros Hc. cbn [read_chunk_len]. by rewrite Hc. Qed.

Lemma read_chunk_len_CRLF rest acc :
  read_chunk_len (CRLF +:+ rest) acc = (Ok acc, rest).
Proof. reflexivity. Qed.

(** Reading the digits of [d], most significant first, on top of the
    digits read before. *)
Lemma read_chunk_len_uint (d before : Hexadecimal.uint) rest :
  read_chunk_len (HexadecimalString.NilEmpty.string_of_uint d +:+ CRLF +:+ rest)
    (HexadecimalPos.Unsigned.of_lu before)
  = (Ok (HexadecimalPos.Unsigned.of_lu (Hexadecimal.revapp d before)), rest)
  ∧ read_chunk_len
      (hex_upper (HexadecimalString.NilEmpty.string_of_uint d) +:+ CRLF +:+ rest)
      (HexadecimalPos.Unsigned.of_lu before)
    = (Ok (HexadecimalPos.Unsigned.of_lu (Hexadecimal.revapp d before)), rest).
Proof.
  revert before. induction d as [|d IH|d IH|d IH|d IH|d IH|d IH|d IH|d IH|d IH
                                 |d IH|d IH|d IH|d IH|d IH|d IH|d IH];
    intros before; [split; apply read_chunk_len_CRLF|..];
    cbn [HexadecimalString.NilEmpty.string_of_uint hex_upper Hexadecimal.revapp];
    rewrite !string_cons_app;
    (split;
     [rewrite read_chunk_len_digit by reflexivity
     |match goal with
      | |- context [String ?c _] =>
          let c' := eval vm_compute in c in change c with c'
      end;
      rewrite read_chunk_len_digit by reflexivity];
     match goal with
     | |- context [hex_value ?c] =>
         let v := eval vm_compute in (hex_value c) in
         change (hex_value c) with v
     end).
  all: match goal with
       | |- read_chunk_len _ ?acc = (Ok (_ (Hexadecimal.revapp _ ?b)), _) =>
           replace acc with (HexadecimalPos.Unsigned.of_lu b)
             by (cbn [HexadecimalPos.Unsigned.of_lu]; lia)
       end; apply IH.
Qed.

Lemma of_lu_revapp_Nil (d : Hexadecimal.uint) :
  HexadecimalPos.Unsigned.of_lu (Hexadecimal.revapp d Hexadecimal.Nil)
  = N.of_hex_uint d.
Proof. symmetry. apply HexadecimalPos.Unsigned.of_uint_alt. Qed.

Lemma read_chunk_len_size_line (n : N) (rest : string) :
  read_chunk_len (size_line n +:+ rest) 0%N = (Ok n, rest).
Proof.
  unfold size_line. rewrite string_app_assoc.
  pose proof (read_chunk_len_uint (N.to_hex_uint n) Hexadecimal.Nil rest)
    as [Hn _].
  rewrite of_lu_revapp_Nil, HexadecimalN.Unsigned.of_to in Hn.
  by destruct (N.to_hex_uint n).
Qed.

(** X13. The size line is read as a number in base 16, most significant digit
    first, in lower or upper case, with or without leading zeros; a line
    without digits counts as 0.  In particular the size written by the
    chunked coding is read back. *)
Theorem read_chunk_len_base16 (d : Hexadecimal.uint) (n : N) (rest : string) :
  read_chunk_len
    (HexadecimalString.NilEmpty.string_of_uint d +:+ CRLF +:+ rest) 0%N
  = (Ok (N.of_hex_uint d), rest)
  ∧ read_chunk_len
      (hex_upper (HexadecimalString.NilEmpty.string_of_uint d) +:+ CRLF +:+ rest)
      0%N
    = (Ok (N.of_hex_uint d), rest)
  ∧ read_chunk_len (size_line n +:+ rest) 0%N = (Ok n, rest).
Proof.
  pose proof (read_chunk_len_uint d Hexadecimal.Nil rest) as [Hlo Hup].
  rewrite of_lu_revapp_Nil in Hlo, Hup.
  split_and!; [exact Hlo|exact Hup|apply read_chunk_len_size_line].
Qed.

Lemma string_take_app (c rest : string) :
  string_take (String.length c) (c +:+ rest) = c.
Proof. induction c as [|a c IH]; [by destruct rest|]. simpl. by rewrite IH. Qed.

Lemma string_drop_app (c rest : string) :
  string_drop (String.length c) (c +:+ rest) = rest.
Proof. induction c as [|a c IH]; [done|]. simpl. by rewrite IH. Qed.

Lemma string_take_drop n (s : string) :
  string_take n s +:+ string_drop n s = s.
Proof.
  revert s. induction n as [|n IH]; intros [|a s]; simpl; try done.
  by rewrite string_cons_app, IH.
Qed.

Lemma string_app_empty_r (s : string) : s +:+ "" = s.
Proof. induction s as [|a s IH]; [done|]. by rewrite string_cons_app, IH. Qed.

Lemma string_length_zero (c : string) : N.of_nat (String.length c) = 0%N → c = "".
Proof. by destruct c. Qed.

Lemma concat_snoc (payload : list string) (c : string) :
  String.concat "" (payload ++ [c]) = String.concat "" payload +:+ c.
Proof.
  induction payload as [|p payload IH]; [reflexivity|].
  destruct payload as [|q payload]; [reflexivity|].
  change (String.concat "" ((p :: q :: payload) ++ [c]))
    with (p +:+ String.concat "" ((q :: payload) ++ [c])).
  rewrite IH.
  change (String.concat "" (p :: q :: payload))
    with (p +:+ String.concat "" (q :: payload)).
  by rewrite string_app_assoc.
Qed.

(** One round of the outer loop on a chunk that is not empty. *)
Lemma read_chunks_chunk (c rest : string) (payload : list string) :
  c ≠ "" →
  read_chunks (size_line (N.of_nat (String.length c)) +:+ c +:+ rest) payload
  = read_chunks rest (payload ++ [c]).
Proof.
  intros Hc. rewrite read_chunks_loop.
  rewrite read_chunk_len_size_line.
  destruct (N.eqb_spec (N.of_nat (String.length c)) 0) as [Hz|_].
  { by apply string_length_zero in Hz. }
  by rewrite Nat2N.id, string_take_app, string_drop_app.
Qed.

(** X14. The text that the reader decodes: chunks that are not empty, each as a
    size line and its bytes, with nothing between the bytes of a chunk and
    the next size line.  The reader returns the chunks joined and stops
    right after the size line of 0. *)
Theorem read_chunks_unterminated (chunks : list string) (rest : string) :
  Forall (fun c => c ≠ "") chunks →
  read_chunks (chunks_unterminated chunks rest) []
  = (Ok (String.concat "" chunks), rest).
Proof.
  intros Hchunks.
  assert (∀ payload,
            read_chunks (chunks_unterminated chunks rest) payload
            = (Ok (String.concat "" (payload ++ chunks)), rest)) as Hgen.
  { induction Hchunks as [|c cs Hc _ IH]; intros payload.
    - rewrite app_nil_r. unfold chunks_unterminated. cbn [foldr].
      rewrite read_chunks_loop.
      by rewrite read_chunk_len_size_line.
    - unfold chunks_unterminated. cbn [foldr].
      rewrite read_chunks_chunk by done.
      fold (chunks_unterminated cs rest). rewrite IH.
      by rewrite <-app_assoc. }
  apply (Hgen []).
Qed.

Lemma read_chunks_unterminated_witness :
  Forall (fun c => c ≠ "") ["Wiki"; "pedia"]
  ∧ chunks_unterminated ["Wiki"; "pedia"] "tail"
    = "4" +:+ CRLF +:+ "Wiki" +:+ "5" +:+ CRLF +:+ "pedia" +:+ "0" +:+ CRLF
      +:+ "tail"
  ∧ read_chunks (chunks_unterminated ["Wiki"; "pedia"] "tail") []
    = (Ok "Wikipedia", "tail").
Proof.
  assert (Forall (fun c : string => c ≠ "") ["Wiki"; "pedia"]) as Hne
    by (repeat constructor; discriminate).
  split_and!; [exact Hne|reflexivity|].
  exact (read_chunks_unterminated ["Wiki"; "pedia"] "tail" Hne).
Defined.

(** X15. On a body in the chunked coding of HTTP/1.1 the reader takes the line
    end after the first chunk for a size line of 0: it returns the first
    chunk alone and leaves all further chunks unread. *)
Theorem read_chunks_standard_first_chunk (c : string) (chunks : list string) :
  c ≠ "" →
  read_chunks (chunks_standard (c :: chunks)) []
  = (Ok c, chunks_standard chunks).
Proof.
  intros Hc. unfold chunks_standard. cbn [foldr].
  rewrite read_chunks_chunk by done.
  rewrite read_chunks_loop, read_chunk_len_CRLF. reflexivity.
Qed.

Lemma read_chunks_standard_first_chunk_witness :
  "Wiki" ≠ ""
  ∧ chunks_standard ["Wiki"; "pedia"] = wikipedia_chunked
  ∧ read_chunks (chunks_standard ["Wiki"; "pedia"]) []
    = (Ok "Wiki", chunks_standard ["pedia"]).
Proof.
  assert ("Wiki" ≠ "") as Hne by discriminate.
  split_and!; [exact Hne|reflexivity|].
  exact (read_chunks_standard_first_chunk "Wiki" ["pedia"] Hne).
Defined.

(** What the inner loop has consumed when it returns: hexadecimal digits
    and a line end. *)
Lemma read_chunk_len_Ok_inv rfile acc n rest :
  read_chunk_len rfile acc = (Ok n, rest) →
  ∃ digits, rfile = digits +:+ CRLF +:+ rest.
Proof.
  revert acc. induction rfile as [|c s IH]; intros acc; [done|].
  cbn [read_chunk_len]. destruct (char_in c hexdigits).
  - intros (digits & ->)%IH. by exists (String c digits).
  - destruct (bool_decide_reflect (c = CR)) as [->|]; [|done].
    cbn [negb]. destruct s as [|d s]; [done|].
    destruct (bool_decide_reflect (d = LF)) as [->|]; [|done].
    cbn [negb]. intros [= _ ->]. by exists "".
Qed.

Lemma read_chunk_len_errors rfile acc :
  match (read_chunk_len rfile acc).1 with
  | Ok _ => True
  | Raise e => e = ValueError
  | Hang => False
  end.
Proof.
  revert acc. induction rfile as [|c s IH]; intros acc; [done|].
  cbn [read_chunk_len]. destruct (char_in c hexdigits); [apply IH|].
  destruct (negb (bool_decide (c = CR))); [done|].
  destruct s as [|d s]; [done|].
  by destruct (negb (bool_decide (d = LF))).
Qed.

(** X16. The reader always comes back: it either raises [ValueError] or returns
    a text that starts with what was collected before, having consumed a
    part of the input that ends with a line end.  So a body that is cut off
    before the closing size line is never taken as complete. *)
Theorem read_chunks_outcome (rfile : string) (payload : list string) :
  match read_chunks rfile payload with
  | (Ok text, rest) =>
      (∃ more, text = String.concat "" payload +:+ more)
      ∧ ∃ consumed, rfile = consumed +:+ CRLF +:+ rest
  | (Raise e, _) => e = ValueError
  | (Hang, _) => False
  end.
Proof.
  remember (String.length rfile) as len eqn:Hlen.
  revert rfile payload Hlen.
  induction len as [len IH] using lt_wf_ind. intros rfile payload ->.
  rewrite read_chunks_loop.
  pose proof (read_chunk_len_errors rfile 0) as Herr.
  destruct (read_chunk_len rfile 0) as [[n|e|] rest1] eqn:Hlen; simpl in Herr;
    [|done..].
  destruct (read_chunk_len_Ok_inv _ _ _ _ Hlen) as (digits & Hrfile).
  destruct (n =? 0)%N.
  { split; [exists ""|by exists digits]. by rewrite string_app_empty_r. }
  assert (rfile ≠ "") as Hne by (intros ->; discriminate Hlen).
  pose proof (read_chunk_len_shorter _ _ _ _ Hlen Hne) as Hshort.
  pose proof (string_drop_length (N.to_nat n) rest1) as Hdrop.
  specialize (IH (String.length (string_drop (N.to_nat n) rest1))
                ltac:(lia) _ (payload ++ [string_take (N.to_nat n) rest1])
                eq_refl).
  destruct (read_chunks _ _) as [[text|e|] rest]; [|done..].
  destruct IH as [(more & ->) (consumed & Hrest)]. split.
  - exists (string_take (N.to_nat n) rest1 +:+ more).
    by rewrite concat_snoc, string_app_assoc.
  - exists (digits +:+ CRLF +:+ string_take (N.to_nat n) rest1 +:+ consumed).
    rewrite Hrfile, <-(string_take_drop (N.to_nat n) rest1) at 1.
    rewrite Hrest. by rewrite !string_app_assoc.
Qed.

(** ** The paths of the session and item routes *)

Lemma strip_prefix_app (p s : string) : strip_prefix p (p +:+ s) = Some s.
Proof.
  induction p as [|a p IH]; [by destruct s|].
  rewrite string_cons_app. cbn [strip_prefix].
  by rewrite bool_decide_eq_true_2.
Qed.

Lemma strip_prefix_Some (p s rest : string) :
  strip_prefix p s = Some rest → s = p +:+ rest.
Proof.
  revert s. induction p as [|a p IH]; intros s.
  - by intros [= <-].
  - destruct s as [|b s]; [done|]. cbn [strip_prefix].
    destruct (bool_decide_reflect (a = b)) as [->|]; [|done].
    intros ->%IH. by rewrite string_cons_app.
Qed.

Lemma char_in_cons c d (s : string) :
  char_in c (String d s) = false ↔ c ≠ d ∧ char_in c s = false.
Proof.
  cbn [char_in]. destruct (bool_decide_reflect (c = d)) as [Hcd|Hcd]; simpl.
  - split; [done|]. by intros [? _].
  - split; [done|]. by intros [_ ?].
Qed.

Lemma span_non_slash_app (g rest : string) :
  char_in "/" g = false → rest = "" ∨ (∃ t, rest = String "/" t) →
  span_non_slash (g +:+ rest) = (g, rest).
Proof.
  intros Hg Hrest. induction g as [|c g IH].
  - by destruct Hrest as [->|[t ->]].
  - apply char_in_cons in Hg as [Hc Hg]. rewrite string_cons_app.
    cbn [span_non_slash]. rewrite bool_decide_eq_false_2 by done.
    by rewrite IH.
Qed.

Lemma span_non_slash_inv (s g rest : string) :
  span_non_slash s = (g, rest) → s = g +:+ rest ∧ char_in "/" g = false.
Proof.
  revert g rest. induction s as [|c s IH]; intros g rest.
  - by intros [= <- <-].
  - cbn [span_non_slash].
    destruct (bool_decide_reflect (c = "/"%char)) as [->|Hc].
    + by intros [= <- <-].
    + destruct (span_non_slash s) as [g' rest'] eqn:Hs.
      intros [= <- <-]. destruct (IH _ _ eq_refl) as [-> Hg'].
      split; [done|]. by apply char_in_cons.
Qed.

Lemma group_non_slash_app (g rest : string) :
  g ≠ "" → char_in "/" g = false → rest = "" ∨ (∃ t, rest = String "/" t) →
  group_non_slash (g +:+ rest) = Some (g, rest).
Proof.
  intros Hne Hg Hrest. unfold group_non_slash.
  rewrite span_non_slash_app by done. by rewrite bool_decide_eq_false_2.
Qed.

Lemma group_non_slash_inv (s g rest : string) :
  group_non_slash s = Some (g, rest) →
  s = g +:+ rest ∧ g ≠ "" ∧ char_in "/" g = false.
Proof.
  unfold group_non_slash. destruct (span_non_slash s) as [g' rest'] eqn:Hs.
  destruct (bool_decide_reflect (g' = "")); [done|].
  intros [= <- <-]. destruct (span_non_slash_inv _ _ _ Hs). done.
Qed.

(** X17. The two patterns and the paths they stand for.  A path made of a
    session id and an item id, both non-empty and free of [/], is an item
    path and gives back the two ids, also when more segments follow; the
    path of the collection is not an item path, and it is a session path
    whatever follows [/items].  The other way round, the ids that the item
    pattern finds are never empty, contain no [/] and sit in the path at
    their places. *)
Theorem route_patterns (sid iid tail : string) :
  sid ≠ "" → iid ≠ "" → char_in "/" sid = false → char_in "/" iid = false →
  _RE_ITEM_COMMAND ("/sessions/" +:+ sid +:+ "/items/" +:+ iid)
  = Some (sid, iid)
  ∧ _RE_ITEM_COMMAND
      ("/sessions/" +:+ sid +:+ "/items/" +:+ iid +:+ "/" +:+ tail)
    = Some (sid, iid)
  ∧ _RE_ITEM_COMMAND ("/sessions/" +:+ sid +:+ "/items") = None
  ∧ _RE_ITEM_COMMAND ("/sessions/" +:+ sid +:+ "/items/") = None
  ∧ _RE_SESSION_COMMAND ("/sessions/" +:+ sid +:+ "/items" +:+ tail) = Some sid
  ∧ (∀ p s i,
       _RE_ITEM_COMMAND p = Some (s, i) →
       s ≠ "" ∧ i ≠ "" ∧ char_in "/" s = false ∧ char_in "/" i = false
       ∧ ∃ more, p = "/sessions/" +:+ s +:+ "/items/" +:+ i +:+ more).
Proof.
  intros Hsid Hiid Hs Hi.
  assert (∀ rest, group_non_slash (sid +:+ String "/" rest)
                  = Some (sid, String "/" rest)) as Hgs.
  { intros rest. apply group_non_slash_app; [done|done|right; by eexists]. }
  split_and!.
  - unfold _RE_ITEM_COMMAND. rewrite strip_prefix_app. cbn [mbind option_bind].
    change ("/items/" +:+ iid) with (String "/" ("items/" +:+ iid)).
    rewrite Hgs. cbn [mbind option_bind].
    change (String "/" ("items/" +:+ iid)) with ("/items/" +:+ iid).
    rewrite strip_prefix_app. cbn [mbind option_bind].
    rewrite <-(string_app_empty_r iid) at 1.
    rewrite group_non_slash_app; [done..|by left].
  - unfold _RE_ITEM_COMMAND. rewrite strip_prefix_app. cbn [mbind option_bind].
    change ("/items/" +:+ iid +:+ "/" +:+ tail)
      with (String "/" ("items/" +:+ iid +:+ "/" +:+ tail)).
    rewrite Hgs. cbn [mbind option_bind].
    change (String "/" ("items/" +:+ iid +:+ "/" +:+ tail))
      with ("/items/" +:+ iid +:+ "/" +:+ tail).
    rewrite strip_prefix_app. cbn [mbind option_bind].
    change ("/" +:+ tail) with (String "/" tail).
    rewrite group_non_slash_app; [done..|right; by eexists].
  - unfold _RE_ITEM_COMMAND. rewrite strip_prefix_app. cbn [mbind option_bind].
    change ("/items") with (String "/" "items"). by rewrite Hgs.
  - unfold _RE_ITEM_COMMAND. rewrite strip_prefix_app. cbn [mbind option_bind].
    change ("/items/") with (String "/" "items/"). by rewrite Hgs.
  - unfold _RE_SESSION_COMMAND. rewrite strip_prefix_app.
    cbn [mbind option_bind].
    change ("/items" +:+ tail) with (String "/" ("items" +:+ tail)).
    rewrite Hgs. cbn [mbind option_bind].
    change (String "/" ("items" +:+ tail)) with ("/items" +:+ tail).
    by rewrite strip_prefix_app.
  - intros p s i. unfold _RE_ITEM_COMMAND.
    destruct (strip_prefix "/sessions/" p) as [r1|] eqn:H1; [|done].
    cbn [mbind option_bind].
    destruct (group_non_slash r1) as [[s' r2]|] eqn:H2; [|done].
    cbn [mbind option_bind].
    destruct (strip_prefix "/items/" r2) as [r3|] eqn:H3; [|done].
    cbn [mbind option_bind].
    destruct (group_non_slash r3) as [[i' r4]|] eqn:H4; [|done].
    cbn [mbind option_bind]. intros [= <- <-].
    apply strip_prefix_Some in H1 as ->. apply strip_prefix_Some in H3 as ->.
    apply group_non_slash_inv in H2 as (-> & ? & ?).
    apply group_non_slash_inv in H4 as (-> & ? & ?).
    split_and!; [done..|]. by exists r4.
Qed.

Lemma route_patterns_witness :
  "s-0.01-1" ≠ "" ∧ "A" ≠ ""
  ∧ char_in "/" "s-0.01-1" = false ∧ char_in "/" "A" = false
  ∧ _RE_ITEM_COMMAND "/sessions/s-0.01-1/items/A/more" = Some ("s-0.01-1", "A")
  ∧ _RE_SESSION_COMMAND "/sessions/s-0.01-1/itemsfoo" = Some "s-0.01-1".
Proof.
  assert ("s-0.01-1" ≠ "") as H1 by discriminate.
  assert ("A" ≠ "") as H2 by discriminate.
  destruct (route_patterns "s-0.01-1" "A" "more" H1 H2 eq_refl eq_refl)
    as (_ & Hitem & _).
  destruct (route_patterns "s-0.01-1" "A" "foo" H1 H2 eq_refl eq_refl)
    as (_ & _ & _ & _ & Hsession & _).
  split_and!; [exact H1|exact H2|reflexivity|reflexivity|exact Hitem
              |exact Hsession].
Defined.

(** ** Requests on a known session *)

(** Steps into an entry point: what [_DispatchMethod] does decides, and
    its result is dropped. *)
Ltac enter :=
  unfold do_GET, do_DELETE, do_PATCH, do_POST, do_PUT;
  first [eapply discard_Ok|apply discard_Raise|apply discard_Hang].

Section Routes.
Context `{PyLib}.

Lemma SendJsonObjectResponse_run obj code h :
  _SendJsonObjectResponse obj code h = (Ok code, sent (json_response obj code) h).
Proof. reflexivity. Qed.

Lemma on_session_run {A} sid sd (m : M SessionData.t A) r s' h :
  m sd = (r, s') → on_session sid sd m h = (r, with_session sid s' h).
Proof. intros Hm. unfold on_session. by rewrite Hm. Qed.

Lemma with_session_same sid s h :
  Repository._sessions (REPOSITORY_ h) !! sid = Some s → with_session sid s h = h.
Proof.
  intros Hs. unfold with_session. cbv zeta. rewrite insert_id by done.
  destruct h as [[ss nid n mx] rn p hd rf wf]. reflexivity.
Qed.

(** Reading the body changes nothing but [rfile]. *)
Lemma body_text_frame h payload h1 :
  body_text h payload h1 → ∃ rest, h1 = set_rfile rest h.
Proof.
  intros [[_ Hrd]|(_ & v & n & _ & _ & Hrd & _)].
  - unfold _ReadChunkedPayload in Hrd.
    destruct (read_chunks (rfile h) []) as [r rest]. injection Hrd as _ <-.
    by eexists.
  - unfold rfile_read in Hrd.
    destruct (n <? 0)%Z; injection Hrd as _ <-; by eexists.
Qed.

Lemma body_decodes_frame h j h1 :
  body_decodes h j h1 → ∃ rest, h1 = set_rfile rest h.
Proof. intros (payload & Hread & _). by eapply body_text_frame. Qed.

Lemma GetJson_truthy h j h1 :
  body_decodes h j h1 → truthy j = true → _GetJson h = (Ok j, h1).
Proof. intros Hb Ht. rewrite (GetJson_decodes h j h1 Hb). by rewrite Ht. Qed.

Lemma truthy_obj (m : Item) k v : m !! k = Some v → truthy (JObj m) = true.
Proof.
  intros Hk. simpl. rewrite bool_decide_eq_false_2; [done|].
  intros ->. by rewrite lookup_empty in Hk.
Qed.

(** The dispatch on the two routes once the session is found. *)
Lemma Dispatch_session_known method h sid sd :
  Repository._mutex (REPOSITORY_ h) = false →
  _RE_ITEM_COMMAND (path h) = None →
  _RE_SESSION_COMMAND (path h) = Some sid →
  Repository._sessions (REPOSITORY_ h) !! sid = Some sd →
  _DispatchMethod method h
  = ((if bool_decide (method = "GET") then
        Some <$> _ProcessGetSessionItemsCommand sid sd
      else if bool_decide (method = "POST") then
        Some <$> _ProcessInsertNewItemCommand sid sd
      else Some <$> _SendJsonErrorResponse "Unhandled method" 405) ;;
     mret None) h.
Proof.
  intros Hm Hitem Hre Hs. rewrite (Dispatch_session method h sid Hitem Hre).
  unfold _HandleSessionMethod.
  unfold mbind at 1 3. unfold M_bind.
  rewrite (mbind_Ok _ _ _ _ _ (handler_GetSessionData sid h Hm)), Hs.
  reflexivity.
Qed.

Lemma Dispatch_item_known method h sid iid sd :
  Repository._mutex (REPOSITORY_ h) = false →
  _RE_ITEM_COMMAND (path h) = Some (sid, iid) →
  Repository._sessions (REPOSITORY_ h) !! sid = Some sd →
  _DispatchMethod method h
  = ((if bool_decide (method = "GET") then
        Some <$> _ProcessGetItemCommand sid sd iid
      else if bool_decide (method = "DELETE") then
        Some <$> _ProcessDeleteItemCommand sid sd iid
      else
        request_json ← _GetJson;
        if negb (truthy request_json) then
          Some <$> _SendJsonErrorResponse "Invalid JSON" 400
        else if bool_decide (method = "PATCH") then
          Some <$> _ProcessPatchItemCommand sid sd iid request_json
        else if bool_decide (method = "PUT") then
          Some <$> _ProcessUpdateItemCommand sid sd iid request_json
        else Some <$> _SendJsonErrorResponse "Unhandled method" 405) ;;
     mret None) h.
Proof.
  intros Hm Hre Hs. rewrite (Dispatch_item method h sid iid Hre).
  unfold _HandleItemMethod.
  unfold mbind at 1 3. unfold M_bind.
  rewrite (mbind_Ok _ _ _ _ _ (handler_GetSessionData sid h Hm)), Hs.
  reflexivity.
Qed.

(** A command that returns: the dispatch drops its status code. *)
Lemma drop_status_Ok (m : M WaxHandler.t Z) h code h' :
  m h = (Ok code, h') →
  ((Some <$> m) ;; mret (None : option Z)) h = (Ok None, h').
Proof.
  intros Hm. by rewrite (mbind_Ok _ _ _ _ _ (fmap_Ok m Some h code h' Hm)).
Qed.

Lemma drop_status_Raise (m : M WaxHandler.t Z) h e h' :
  m h = (Raise e, h') →
  ((Some <$> m) ;; mret (None : option Z)) h = (Raise e, h').
Proof.
  intros Hm. by rewrite (mbind_Raise _ _ _ _ _ (fmap_Raise m Some h e h' Hm)).
Qed.

Lemma drop_status_Hang (m : M WaxHandler.t Z) h h' :
  m h = (Hang, h') →
  ((Some <$> m) ;; mret (None : option Z)) h = (Hang, h').
Proof.
  intros Hm. apply mbind_Hang. unfold fmap, M_fmap. by rewrite Hm.
Qed.

End Routes.

Section Reads.
Context `{PyLib}.

Lemma found_stamped m : found (Some (stamped m)) = true.
Proof. apply (truthy_obj _ "kind" wax_kind). apply lookup_insert_eq. Qed.

(** X18. GET on the collection of a known session answers 200 with the list of
    all items in the order in which the session holds them, and changes
    nothing. *)
Theorem GET_collection (h : WaxHandler.t) (sid : string) (items : list Item) :
  Repository._mutex (REPOSITORY_ h) = false →
  _RE_ITEM_COMMAND (path h) = None →
  _RE_SESSION_COMMAND (path h) = Some sid →
  Repository._sessions (REPOSITORY_ h) !! sid = Some (SessionData.mk items false) →
  do_GET h
  = (Ok None,
     sent (json_response
             (JObj (<["kind" := JStr "wax#waxList"]>
                      (<["items" := JArr (JObj <$> items)]> ∅))) 200) h).
Proof.
  intros Hm Hitem Hre Hs. enter.
  rewrite (Dispatch_session_known "GET" h sid _ Hm Hitem Hre Hs).
  rewrite bool_decide_eq_true_2 by done.
  apply (drop_status_Ok _ _ 200). unfold _ProcessGetSessionItemsCommand.
  rewrite (mbind_Ok _ _ _ _ _
             (on_session_run sid (SessionData.mk items false) GetAllItemsCopy (Ok items)
                (SessionData.mk items false) h eq_refl)).
  by rewrite with_session_same.
Qed.

(** X19. GET on an item of a known session: 200 with the first item that has
    the id of the path, or 404 when there is none; nothing changes. *)
Theorem GET_item (h : WaxHandler.t) (sid iid : string) (items : list Item) :
  Repository._mutex (REPOSITORY_ h) = false →
  _RE_ITEM_COMMAND (path h) = Some (sid, iid) →
  Repository._sessions (REPOSITORY_ h) !! sid = Some (SessionData.mk items false) →
  (∀ pre old post,
      items = pre ++ old :: post →
      Forall (id_differs (JStr iid)) pre → id_is (JStr iid) old = true →
      do_GET h = (Ok None, sent (json_response (JObj old) 200) h))
  ∧ (Forall (id_differs (JStr iid)) items →
     do_GET h = (Ok None, sent (error_response "Unknown item" 404) h)).
Proof.
  intros Hm Hre Hs. split.
  - intros pre old post -> Hpre Hold. enter.
    rewrite (Dispatch_item_known "GET" h sid iid _ Hm Hre Hs).
    rewrite bool_decide_eq_true_2 by done.
    apply (drop_status_Ok _ _ 200). unfold _ProcessGetItemCommand.
    rewrite (mbind_Ok _ _ _ _ _
               (on_session_run sid _ _ _ _ h
                  (GetItemCopy_present (JStr iid) pre old post Hpre Hold))).
    rewrite with_session_same by done.
    by rewrite (found_id_is _ _ Hold).
  - intros Hall. enter.
    rewrite (Dispatch_item_known "GET" h sid iid _ Hm Hre Hs).
    rewrite bool_decide_eq_true_2 by done.
    apply (drop_status_Ok _ _ 404). unfold _ProcessGetItemCommand.
    rewrite (mbind_Ok _ _ _ _ _
               (on_session_run sid _ _ _ _ h
                  (GetItemCopy_absent (JStr iid) items Hall))).
    by rewrite with_session_same.
Qed.

(** X20. DELETE on an item of a known session: 204 with an empty plain-text
    body and the first item with that id taken out of the session, or 404
    and no change when there is none. *)
Theorem DELETE_item (h : WaxHandler.t) (sid iid : string) (items : list Item) :
  Repository._mutex (REPOSITORY_ h) = false →
  _RE_ITEM_COMMAND (path h) = Some (sid, iid) →
  Repository._sessions (REPOSITORY_ h) !! sid = Some (SessionData.mk items false) →
  (∀ pre old post,
      items = pre ++ old :: post →
      Forall (id_differs (JStr iid)) pre → id_is (JStr iid) old = true →
      do_DELETE h
      = (Ok None,
         sent (mkResponse 204 "text/plain" "")
           (with_session sid (SessionData.mk (pre ++ post) false) h)))
  ∧ (Forall (id_differs (JStr iid)) items →
     do_DELETE h
     = (Ok None, sent (error_response "Unknown item in session" 404) h)).
Proof.
  intros Hm Hre Hs. split.
  - intros pre old post -> Hpre Hold. enter.
    rewrite (Dispatch_item_known "DELETE" h sid iid _ Hm Hre Hs).
    rewrite bool_decide_eq_false_2 by done.
    rewrite bool_decide_eq_true_2 by done.
    apply (drop_status_Ok _ _ 204). unfold _ProcessDeleteItemCommand.
    rewrite (mbind_Ok _ _ _ _ _
               (on_session_run sid _ _ _ _ h
                  (DeleteItem_present (JStr iid) pre old post Hpre Hold))).
    by rewrite (found_id_is _ _ Hold).
  - intros Hall. enter.
    rewrite (Dispatch_item_known "DELETE" h sid iid _ Hm Hre Hs).
    rewrite bool_decide_eq_false_2 by done.
    rewrite bool_decide_eq_true_2 by done.
    apply (drop_status_Ok _ _ 404). unfold _ProcessDeleteItemCommand.
    rewrite (mbind_Ok _ _ _ _ _
               (on_session_run sid _ _ _ _ h
                  (DeleteItem_absent (JStr iid) items Hall))).
    by rewrite with_session_same.
Qed.

(** X21. A session whose lock was left held blocks every request that reads or
    deletes in it: the handler does not come back and sends nothing. *)
Theorem held_session_lock_blocks (h : WaxHandler.t) (sid : string)
    (items : list Item) :
  Repository._mutex (REPOSITORY_ h) = false →
  Repository._sessions (REPOSITORY_ h) !! sid = Some (SessionData.mk items true) →
  (_RE_ITEM_COMMAND (path h) = None → _RE_SESSION_COMMAND (path h) = Some sid →
   do_GET h = (Hang, h))
  ∧ (∀ iid, _RE_ITEM_COMMAND (path h) = Some (sid, iid) →
       do_GET h = (Hang, h) ∧ do_DELETE h = (Hang, h)).
Proof.
  intros Hm Hs. split.
  - intros Hitem Hre. enter.
    rewrite (Dispatch_session_known "GET" h sid _ Hm Hitem Hre Hs).
    rewrite bool_decide_eq_true_2 by done.
    apply drop_status_Hang. unfold _ProcessGetSessionItemsCommand.
    rewrite (mbind_Hang _ _ h h); [done|].
    rewrite (on_session_run sid (SessionData.mk items true) GetAllItemsCopy Hang
               (SessionData.mk items true) h eq_refl).
    by rewrite with_session_same.
  - intros iid Hre. split.
    + enter.
      rewrite (Dispatch_item_known "GET" h sid iid _ Hm Hre Hs).
      rewrite bool_decide_eq_true_2 by done.
      apply drop_status_Hang. unfold _ProcessGetItemCommand.
      rewrite (mbind_Hang _ _ h h); [done|].
      rewrite (on_session_run sid (SessionData.mk items true) (GetItemCopy (JStr iid)) Hang
                 (SessionData.mk items true) h eq_refl).
      by rewrite with_session_same.
    + enter.
      rewrite (Dispatch_item_known "DELETE" h sid iid _ Hm Hre Hs).
      rewrite bool_decide_eq_false_2 by done.
      rewrite bool_decide_eq_true_2 by done.
      apply drop_status_Hang. unfold _ProcessDeleteItemCommand.
      rewrite (mbind_Hang _ _ h h); [done|].
      rewrite (on_session_run sid (SessionData.mk items true) (DeleteItem (JStr iid)) Hang
                 (SessionData.mk items true) h eq_refl).
      by rewrite with_session_same.
Qed.

End Reads.

Lemma GET_collection_witness :
  let h := request one_session "/sessions/s-0.01-1/items" ∅ "" in
  Repository._mutex (REPOSITORY_ h) = false
  ∧ _RE_ITEM_COMMAND (path h) = None
  ∧ _RE_SESSION_COMMAND (path h) = Some "s-0.01-1"
  ∧ Repository._sessions (REPOSITORY_ h) !! "s-0.01-1"
    = Some (SessionData.mk [item_A; item_B] false)
  ∧ do_GET h
    = (Ok None,
       sent (json_response
               (JObj (<["kind" := JStr "wax#waxList"]>
                        (<["items" := JArr [JObj item_A; JObj item_B]]> ∅)))
               200) h).
Proof.
  intros h.
  assert (Repository._sessions (REPOSITORY_ h) !! "s-0.01-1"
          = Some (SessionData.mk [item_A; item_B] false)) as Hs
    by (vm_compute; reflexivity).
  split_and!; [reflexivity|reflexivity|reflexivity|exact Hs|].
  exact (GET_collection h "s-0.01-1" [item_A; item_B] eq_refl eq_refl eq_refl Hs).
Defined.

Lemma GET_item_witness :
  let h := request one_session "/sessions/s-0.01-1/items/B" ∅ "" in
  let h' := request one_session "/sessions/s-0.01-1/items/C" ∅ "" in
  Repository._mutex (REPOSITORY_ h) = false
  ∧ _RE_ITEM_COMMAND (path h) = Some ("s-0.01-1", "B")
  ∧ Repository._sessions (REPOSITORY_ h) !! "s-0.01-1"
    = Some (SessionData.mk [item_A; item_B] false)
  ∧ do_GET h = (Ok None, sent (json_response (JObj item_B) 200) h)
  ∧ do_GET h' = (Ok None, sent (error_response "Unknown item" 404) h').
Proof.
  intros h h'.
  assert (Repository._sessions one_session !! "s-0.01-1"
          = Some (SessionData.mk [item_A; item_B] false)) as Hs
    by (vm_compute; reflexivity).
  destruct (GET_item h "s-0.01-1" "B" [item_A; item_B] eq_refl eq_refl Hs)
    as [Hpresent _].
  destruct (GET_item h' "s-0.01-1" "C" [item_A; item_B] eq_refl eq_refl Hs)
    as [_ Habsent].
  split_and!; [reflexivity|reflexivity|exact Hs| |].
  - apply (Hpresent [item_A] item_B []); [reflexivity| |reflexivity].
    repeat constructor; eexists; split; reflexivity.
  - apply Habsent. repeat constructor; eexists; split; reflexivity.
Defined.

Lemma DELETE_item_witness :
  let h := request one_session "/sessions/s-0.01-1/items/A" ∅ "" in
  Repository._mutex (REPOSITORY_ h) = false
  ∧ _RE_ITEM_COMMAND (path h) = Some ("s-0.01-1", "A")
  ∧ Repository._sessions (REPOSITORY_ h) !! "s-0.01-1"
    = Some (SessionData.mk [item_A; item_B] false)
  ∧ do_DELETE h
    = (Ok None,
       sent (mkResponse 204 "text/plain" "")
         (with_session "s-0.01-1" (SessionData.mk [item_B] false) h))
  ∧ statuses (do_GET (do_DELETE h).2).2 = [204; 404].
Proof.
  intros h.
  assert (Repository._sessions one_session !! "s-0.01-1"
          = Some (SessionData.mk [item_A; item_B] false)) as Hs
    by (vm_compute; reflexivity).
  destruct (DELETE_item h "s-0.01-1" "A" [item_A; item_B] eq_refl eq_refl Hs)
    as [Hpresent _].
  split_and!; [reflexivity|reflexivity|exact Hs| |vm_compute; reflexivity].
  apply (Hpresent [] item_A [item_B]); [reflexivity|constructor|reflexivity].
Defined.

Lemma held_session_lock_blocks_witness :
  let r := Repository.mk {[ "s" := SessionData.mk [item_B] true ]} "0.01" 1 false in
  let h := request r "/sessions/s/items" ∅ "" in
  Repository._mutex (REPOSITORY_ h) = false
  ∧ Repository._sessions (REPOSITORY_ h) !! "s"
    = Some (SessionData.mk [item_B] true)
  ∧ _RE_ITEM_COMMAND (path h) = None
  ∧ _RE_SESSION_COMMAND (path h) = Some "s"
  ∧ do_GET h = (Hang, h).
Proof.
  intros r h.
  assert (Repository._sessions r !! "s" = Some (SessionData.mk [item_B] true))
    as Hs by (vm_compute; reflexivity).
  destruct (held_session_lock_blocks h "s" [item_B] eq_refl Hs) as [Hget _].
  split_and!; [reflexivity|exact Hs|reflexivity|reflexivity|].
  apply Hget; reflexivity.
Defined.

Section Writes.
Context `{PyLib}.

Lemma sessions_set_rfile rest h :
  REPOSITORY_ (set_rfile rest h) = REPOSITORY_ h.
Proof. reflexivity. Qed.

Lemma with_session_same_after_body sid s h j h1 :
  body_decodes h j h1 →
  Repository._sessions (REPOSITORY_ h) !! sid = Some s →
  with_session sid s h1 = h1.
Proof.
  intros [rest ->]%body_decodes_frame Hs. by apply with_session_same.
Qed.

(** X22. POST on the collection of a known session with a JSON object as body.
    With an id that no item of the session has, the object is stamped with
    the kind, appended to the session and sent back with 200.  With an id
    that an item has already, the answer is 403 and the session stays as it
    is.  Without an id, or with one that is falsy (null, false, 0, an empty
    text, list or object), the answer is 400. *)
Theorem POST_item (h h1 : WaxHandler.t) (sid : string) (items : list Item)
    (m : Item) :
  Repository._mutex (REPOSITORY_ h) = false →
  _RE_ITEM_COMMAND (path h) = None →
  _RE_SESSION_COMMAND (path h) = Some sid →
  Repository._sessions (REPOSITORY_ h) !! sid = Some (SessionData.mk items false) →
  body_decodes h (JObj m) h1 → m ≠ ∅ →
  (∀ id, m !! "id" = Some id → truthy id = true →
     (Forall (id_differs id) items →
      do_POST h
      = (Ok None,
         sent (json_response (JObj (stamped m)) 200)
           (with_session sid (SessionData.mk (items ++ [stamped m]) false) h1)))
     ∧ (∀ pre old post,
          items = pre ++ old :: post →
          Forall (id_differs id) pre → id_is id old = true →
          do_POST h
          = (Ok None, sent (error_response "Item already exists" 403) h1)))
  ∧ (m !! "id" = None ∨ (∃ id, m !! "id" = Some id ∧ truthy id = false) →
     do_POST h = (Ok None, sent (error_response "JSON missing id" 400) h1)).
Proof.
  intros Hm Hitem Hre Hs Hbody Hne.
  assert (truthy (JObj m) = true) as Ht
    by (simpl; by rewrite bool_decide_eq_false_2).
  pose proof (GetJson_truthy h _ h1 Hbody Ht) as Hjson.
  assert (_DispatchMethod "POST" h
          = (Some <$> _ProcessInsertNewItemCommand sid
                        (SessionData.mk items false) ;; mret None) h) as Hd.
  { rewrite (Dispatch_session_known "POST" h sid _ Hm Hitem Hre Hs).
    rewrite bool_decide_eq_false_2 by done.
    by rewrite bool_decide_eq_true_2. }
  split.
  - intros id Hid Htid. split.
    + intros Hall. enter. rewrite Hd. apply (drop_status_Ok _ _ 200).
      unfold _ProcessInsertNewItemCommand.
      rewrite (mbind_Ok _ _ _ _ _ Hjson), Ht. cbn [negb].
      unfold py_get.
      rewrite (mbind_Ok (mret (default JNull (m !! "id"))) _ h1 id h1)
        by (by rewrite Hid).
      rewrite Htid. cbn [negb].
      rewrite (mbind_Ok _ _ _ _ _
                 (on_session_run sid _ _ _ _ h1
                    (AddNewItem_absent id m items Hall))).
      by rewrite found_stamped.
    + intros pre old post -> Hpre Hold. enter. rewrite Hd. apply (drop_status_Ok _ _ 403).
      unfold _ProcessInsertNewItemCommand.
      rewrite (mbind_Ok _ _ _ _ _ Hjson), Ht. cbn [negb].
      unfold py_get.
      rewrite (mbind_Ok (mret (default JNull (m !! "id"))) _ h1 id h1)
        by (by rewrite Hid).
      rewrite Htid. cbn [negb].
      rewrite (mbind_Ok _ _ _ _ _
                 (on_session_run sid _ _ _ _ h1
                    (AddNewItem_conflict id (JObj m) pre old post Hpre Hold))).
      by rewrite (with_session_same_after_body _ _ _ _ _ Hbody Hs).
  - intros Hid. enter. rewrite Hd. apply (drop_status_Ok _ _ 400).
    unfold _ProcessInsertNewItemCommand.
    rewrite (mbind_Ok _ _ _ _ _ Hjson), Ht. cbn [negb].
    unfold py_get.
    rewrite (mbind_Ok (mret (default JNull (m !! "id"))) _ h1
               (default JNull (m !! "id")) h1 eq_refl).
    by destruct Hid as [->|(id & -> & Htid)]; simpl; [|rewrite Htid].
Qed.

(** X23. PUT on an item of a known session with a JSON object as body.  A body
    without an id gets the id of the path.  When the id of the body equals
    the id of the path, the object is stamped with the kind, takes the place
    of the first item with that id, at the end of the session, or is just
    appended when there is no such item, and is sent back with 200.  When
    the two ids differ, the answer is 400 and the session stays as it is. *)
Theorem PUT_item (h h1 : WaxHandler.t) (sid iid : string) (items : list Item)
    (m : Item) :
  Repository._mutex (REPOSITORY_ h) = false →
  _RE_ITEM_COMMAND (path h) = Some (sid, iid) →
  Repository._sessions (REPOSITORY_ h) !! sid = Some (SessionData.mk items false) →
  body_decodes h (JObj m) h1 → m ≠ ∅ →
  let m' := with_default_id iid m in
  (id_is (JStr iid) m' = true →
     (∀ pre old post,
        items = pre ++ old :: post →
        Forall (id_differs (JStr iid)) pre → id_is (JStr iid) old = true →
        do_PUT h
        = (Ok None,
           sent (json_response (JObj (stamped m')) 200)
             (with_session sid
                (SessionData.mk (pre ++ post ++ [stamped m']) false) h1)))
     ∧ (Forall (id_differs (JStr iid)) items →
        do_PUT h
        = (Ok None,
           sent (json_response (JObj (stamped m')) 200)
             (with_session sid
                (SessionData.mk (items ++ [stamped m']) false) h1))))
  ∧ (id_is (JStr iid) m' = false →
     do_PUT h = (Ok None, sent (error_response "Mismatched item ids" 400) h1)).
Proof.
  intros Hm Hre Hs Hbody Hne m'.
  assert (truthy (JObj m) = true) as Ht
    by (simpl; by rewrite bool_decide_eq_false_2).
  pose proof (GetJson_truthy h _ h1 Hbody Ht) as Hjson.
  assert (_DispatchMethod "PUT" h
          = (Some <$> _ProcessUpdateItemCommand sid
                        (SessionData.mk items false) iid (JObj m) ;;
             mret None) h1) as Hd.
  { rewrite (Dispatch_item_known "PUT" h sid iid _ Hm Hre Hs).
    rewrite (bool_decide_eq_false_2 ("PUT" = "GET")) by done.
    rewrite (bool_decide_eq_false_2 ("PUT" = "DELETE")) by done.
    rewrite (bool_decide_eq_false_2 ("PUT" = "PATCH")) by done.
    rewrite (bool_decide_eq_true_2 ("PUT" = "PUT")) by done.
    unfold mbind at 1. unfold M_bind at 1.
    by rewrite (mbind_Ok _ _ _ _ _ Hjson), Ht. }
  assert (∃ id, m' !! "id" = Some id
                ∧ (py_setdefault (JObj m) "id" (JStr iid) : M WaxHandler.t Item) h1
                  = (Ok m', h1)) as (id & Hid & Hdef).
  { unfold m', with_default_id, py_setdefault.
    destruct (m !! "id") as [v|] eqn:Hv.
    - by exists v.
    - exists (JStr iid). by rewrite lookup_insert_eq. }
  assert (id_is (JStr iid) m' = py_eq id (JStr iid)) as Hidis
    by (unfold id_is; by rewrite Hid).
  split; [intros Hok; split|intros Hbad].
  - intros pre old post -> Hpre Hold. enter. rewrite Hd. apply (drop_status_Ok _ _ 200).
    unfold _ProcessUpdateItemCommand.
    rewrite (mbind_Ok _ _ _ _ _ Hdef).
    unfold py_getitem. rewrite Hid.
    rewrite (mbind_Ok (mret id) _ h1 id h1 eq_refl).
    rewrite <-Hidis, Hok. cbn [negb].
    by rewrite (mbind_Ok _ _ _ _ _
                  (on_session_run sid _ _ _ _ h1
                     (ReplaceItem_present (JStr iid) m' pre old post Hpre Hold))).
  - intros Hall. enter. rewrite Hd. apply (drop_status_Ok _ _ 200).
    unfold _ProcessUpdateItemCommand.
    rewrite (mbind_Ok _ _ _ _ _ Hdef).
    unfold py_getitem. rewrite Hid.
    rewrite (mbind_Ok (mret id) _ h1 id h1 eq_refl).
    rewrite <-Hidis, Hok. cbn [negb].
    by rewrite (mbind_Ok _ _ _ _ _
                  (on_session_run sid _ _ _ _ h1
                     (ReplaceItem_absent (JStr iid) m' items Hall))).
  - enter. rewrite Hd. apply (drop_status_Ok _ _ 400).
    unfold _ProcessUpdateItemCommand.
    rewrite (mbind_Ok _ _ _ _ _ Hdef).
    unfold py_getitem. rewrite Hid.
    rewrite (mbind_Ok (mret id) _ h1 id h1 eq_refl).
    by rewrite <-Hidis, Hbad.
Qed.

(** X24. PATCH on an item of a known session with a truthy JSON body.  When the
    session has an item with the id and the body is an object, the merged
    item is stored at the end of the session and sent back with 200.  When
    there is no such item, the answer is 404 whatever the body is.  When
    there is one and the body is not an object, the request ends in
    [AttributeError] without a response: the item is gone from the session
    and the lock of the session stays held. *)
Theorem PATCH_item (h h1 : WaxHandler.t) (sid iid : string)
    (items : list Item) (j : json) :
  Repository._mutex (REPOSITORY_ h) = false →
  _RE_ITEM_COMMAND (path h) = Some (sid, iid) →
  Repository._sessions (REPOSITORY_ h) !! sid = Some (SessionData.mk items false) →
  body_decodes h j h1 → truthy j = true →
  (∀ pre old post,
      items = pre ++ old :: post →
      Forall (id_differs (JStr iid)) pre → id_is (JStr iid) old = true →
      (∀ p, j = JObj p →
         do_PATCH h
         = (Ok None,
            sent (json_response (JObj (p ∪ old)) 200)
              (with_session sid
                 (SessionData.mk (pre ++ post ++ [p ∪ old]) false) h1)))
      ∧ ((∀ p, j ≠ JObj p) →
         do_PATCH h
         = (Raise AttributeError,
            with_session sid (SessionData.mk (pre ++ post) true) h1)))
  ∧ (Forall (id_differs (JStr iid)) items →
     do_PATCH h
     = (Ok None, sent (error_response "Unknown item in session" 404) h1)).
Proof.
  intros Hm Hre Hs Hbody Ht.
  pose proof (GetJson_truthy h _ h1 Hbody Ht) as Hjson.
  assert (_DispatchMethod "PATCH" h
          = (Some <$> _ProcessPatchItemCommand sid
                        (SessionData.mk items false) iid j ;;
             mret None) h1) as Hd.
  { rewrite (Dispatch_item_known "PATCH" h sid iid _ Hm Hre Hs).
    rewrite (bool_decide_eq_false_2 ("PATCH" = "GET")) by done.
    rewrite (bool_decide_eq_false_2 ("PATCH" = "DELETE")) by done.
    rewrite (bool_decide_eq_true_2 ("PATCH" = "PATCH")) by done.
    unfold mbind at 1. unfold M_bind at 1.
    by rewrite (mbind_Ok _ _ _ _ _ Hjson), Ht. }
  split.
  - intros pre old post -> Hpre Hold. split.
    + intros p ->. enter. rewrite Hd. apply (drop_status_Ok _ _ 200).
      unfold _ProcessPatchItemCommand.
      rewrite (mbind_Ok _ _ _ _ _
                 (on_session_run sid _ _ _ _ h1
                    (PatchItem_present (JStr iid) p pre old post Hpre Hold))).
      assert (is_Some ((p ∪ old) !! "id")) as [v Hv].
      { apply lookup_union_is_Some. right. unfold id_is in Hold.
        destruct (old !! "id"); [by eexists|done]. }
      by rewrite (truthy_obj _ _ _ Hv : found (Some (p ∪ old)) = true).
    + intros Hnd. enter. rewrite Hd. apply drop_status_Raise. unfold _ProcessPatchItemCommand.
      apply mbind_Raise. apply on_session_run.
      by apply PatchItem_non_dict.
  - intros Hall. enter. rewrite Hd. apply (drop_status_Ok _ _ 404).
    unfold _ProcessPatchItemCommand.
    rewrite (mbind_Ok _ _ _ _ _
               (on_session_run sid _ _ _ _ h1
                  (PatchItem_absent (JStr iid) j (SessionData.mk items false)
                     eq_refl Hall))).
    by rewrite (with_session_same_after_body _ _ _ _ _ Hbody Hs).
Qed.

End Writes.

(** Concrete requests with a body. *)
Ltac example_body text digits len :=
  exists text; split; [|reflexivity]; right; split; [discriminate|];
  exists digits, len;
  split_and!; [reflexivity|reflexivity|reflexivity|discriminate|reflexivity].

Lemma session_of_one_session :
  Repository._sessions one_session !! "s-0.01-1"
  = Some (SessionData.mk [item_A; item_B] false).
Proof. vm_compute. reflexivity. Qed.

Lemma A_B_differ_from_C : Forall (id_differs (JStr "C")) [item_A; item_B].
Proof. repeat constructor; eexists; split; reflexivity. Qed.

Lemma POST_item_witness :
  let body := "{'id': 'C', 'name': 'n'}" in
  let m : Item := <["id" := JStr "C"]> {[ "name" := JStr "n" ]} in
  let h := request one_session "/sessions/s-0.01-1/items" (json_headers body) body in
  let h1 := set_rfile "" h in
  Repository._mutex (REPOSITORY_ h) = false
  ∧ _RE_ITEM_COMMAND (path h) = None
  ∧ _RE_SESSION_COMMAND (path h) = Some "s-0.01-1"
  ∧ body_decodes h (JObj m) h1 ∧ m ≠ ∅
  ∧ do_POST h
    = (Ok None,
       sent (json_response (JObj (stamped m)) 200)
         (with_session "s-0.01-1"
            (SessionData.mk [item_A; item_B; stamped m] false) h1)).
Proof.
  intros body m h h1.
  assert (body_decodes h (JObj m) h1) as Hbody
    by example_body "{'id': 'C', 'name': 'n'}" "24" 24.
  assert (m ≠ ∅) as Hne.
  { intros Heq. by pose proof (f_equal (fun x : Item => x !! "id") Heq). }
  destruct (POST_item h h1 "s-0.01-1" [item_A; item_B] m eq_refl eq_refl
              eq_refl session_of_one_session Hbody Hne) as [Hid _].
  destruct (Hid (JStr "C") eq_refl eq_refl) as [Hnew _].
  split_and!; [reflexivity|reflexivity|reflexivity|exact Hbody|exact Hne
              |exact (Hnew A_B_differ_from_C)].
Defined.

Lemma PUT_item_witness :
  let body := "{'name': 'm'}" in
  let m : Item := {[ "name" := JStr "m" ]} in
  let m' : Item := <["id" := JStr "A"]> m in
  let h := request one_session "/sessions/s-0.01-1/items/A" (json_headers body) body in
  let h1 := set_rfile "" h in
  Repository._mutex (REPOSITORY_ h) = false
  ∧ _RE_ITEM_COMMAND (path h) = Some ("s-0.01-1", "A")
  ∧ body_decodes h (JObj m) h1 ∧ m ≠ ∅
  ∧ with_default_id "A" m = m'
  ∧ do_PUT h
    = (Ok None,
       sent (json_response (JObj (stamped m')) 200)
         (with_session "s-0.01-1"
            (SessionData.mk [item_B; stamped m'] false) h1)).
Proof.
  intros body m m' h h1.
  assert (body_decodes h (JObj m) h1) as Hbody
    by example_body "{'name': 'm'}" "13" 13.
  assert (m ≠ ∅) as Hne.
  { intros Heq. by pose proof (f_equal (fun x : Item => x !! "name") Heq). }
  destruct (PUT_item h h1 "s-0.01-1" "A" [item_A; item_B] m eq_refl eq_refl
              session_of_one_session Hbody Hne) as [Hok _].
  destruct (Hok eq_refl) as [Hpresent _].
  split_and!; [reflexivity|reflexivity|exact Hbody|exact Hne|reflexivity|].
  apply (Hpresent [] item_A [item_B]); [reflexivity|constructor|reflexivity].
Defined.

Lemma PATCH_item_witness :
  let body := "[1]" in
  let h := request one_session "/sessions/s-0.01-1/items/A" (json_headers body) body in
  let h1 := set_rfile "" h in
  Repository._mutex (REPOSITORY_ h) = false
  ∧ _RE_ITEM_COMMAND (path h) = Some ("s-0.01-1", "A")
  ∧ body_decodes h (JArr [JNum 1]) h1 ∧ truthy (JArr [JNum 1]) = true
  ∧ do_PATCH h
    = (Raise AttributeError,
       with_session "s-0.01-1" (SessionData.mk [item_B] true) h1)
  ∧ statuses (do_PATCH h).2 = []
  ∧ (do_GET (request (REPOSITORY_ (do_PATCH h).2)
               "/sessions/s-0.01-1/items" ∅ "")).1 = Hang.
Proof.
  intros body h h1.
  assert (body_decodes h (JArr [JNum 1]) h1) as Hbody
    by example_body "[1]" "3" 3.
  destruct (PATCH_item h h1 "s-0.01-1" "A" [item_A; item_B] (JArr [JNum 1])
              eq_refl eq_refl session_of_one_session Hbody eq_refl)
    as [Hpresent _].
  destruct (Hpresent [] item_A [item_B] eq_refl (Forall_nil_2 _) eq_refl)
    as [_ Hbad].
  assert (∀ p, JArr [JNum 1] ≠ JObj p) as Hnd by done.
  split_and!; [reflexivity|reflexivity|exact Hbody|reflexivity|exact (Hbad Hnd)
              |vm_compute; reflexivity|vm_compute; reflexivity].
Defined.

(** ** Sessions: unknown, created and removed *)

Section Sessions.
Context `{PyLib}.

(** X25. On both routes a session id that the repository does not know is
    answered 404 before anything else is looked at: whatever the method,
    the headers and the body are, the body stays unread and nothing
    changes. *)
Theorem unknown_session_is_404 (method : string) (h : WaxHandler.t)
    (sid : string) :
  Repository._mutex (REPOSITORY_ h) = false →
  Repository._sessions (REPOSITORY_ h) !! sid = None →
  (∃ iid, _RE_ITEM_COMMAND (path h) = Some (sid, iid))
  ∨ (_RE_ITEM_COMMAND (path h) = None ∧ _RE_SESSION_COMMAND (path h) = Some sid) →
  _DispatchMethod method h
  = (Ok None, sent (error_response "Unknown sessionId" 404) h).
Proof.
  intros Hm Hs [[iid Hre]|[Hitem Hre]].
  - rewrite (Dispatch_item method h sid iid Hre).
    by rewrite (mbind_Ok _ _ _ _ _ (HandleItemMethod_unknown method sid iid h Hm Hs)).
  - rewrite (Dispatch_session method h sid Hitem Hre).
    by rewrite (mbind_Ok _ _ _ _ _ (HandleSessionMethod_unknown method sid h Hm Hs)).
Qed.

(** X26. A body that is not chunked.  Without a [Content-Length] header, or
    with one that [int] rejects, reading the body raises and nothing of the
    body is consumed.  With an empty body, or with a [Content-Type] other
    than [application/json], the reader consumes the body and reports it as
    absent without decoding it, whatever the text is. *)
Theorem GetJson_unusable_body (h : WaxHandler.t) :
  headers h !! "Transfer-Encoding" ≠ Some "chunked" →
  (headers h !! "Content-Length" = None → _GetJson h = (Raise TypeError, h))
  ∧ (∀ v e, headers h !! "Content-Length" = Some v → py_int v = Raise e →
       _GetJson h = (Raise e, h))
  ∧ (∀ v n, headers h !! "Content-Length" = Some v → py_int v = Ok n →
       (rfile_read n h).1 = Ok ""
       ∨ headers h !! "Content-Type" ≠ Some _JSON_CONTENT_TYPE →
       _GetJson h = (Ok JNull, (rfile_read n h).2)).
Proof.
  intros Hte.
  assert (∀ k : option string → M WaxHandler.t json,
            (getheader "Transfer-Encoding" ≫= k) h
            = k (headers h !! "Transfer-Encoding") h) as Hstep
    by (intros k; apply (mbind_Ok (getheader "Transfer-Encoding") k h _ h eq_refl)).
  split_and!.
  - intros Hcl. unfold _GetJson. rewrite Hstep.
    rewrite bool_decide_eq_false_2 by done.
    apply mbind_Raise.
    rewrite (mbind_Ok (getheader "Content-Length") _ h
               (headers h !! "Content-Length") h eq_refl), Hcl.
    by apply mbind_Raise.
  - intros v e Hcl Hint. unfold _GetJson. rewrite Hstep.
    rewrite bool_decide_eq_false_2 by done.
    apply mbind_Raise.
    rewrite (mbind_Ok (getheader "Content-Length") _ h
               (headers h !! "Content-Length") h eq_refl), Hcl.
    apply mbind_Raise. unfold lift. by rewrite Hint.
  - intros v n Hcl Hint Hbad. unfold _GetJson. rewrite Hstep.
    rewrite bool_decide_eq_false_2 by done.
    rewrite (mbind_Ok _ _ h None (rfile_read n h).2); [done|].
    rewrite (mbind_Ok (getheader "Content-Length") _ h
               (headers h !! "Content-Length") h eq_refl), Hcl.
    rewrite (mbind_Ok _ _ h n h) by (unfold lift; by rewrite Hint).
    assert (∃ payload, rfile_read n h = (Ok payload, (rfile_read n h).2))
      as [payload Hrd].
    { unfold rfile_read. destruct (n <? 0)%Z; by eexists. }
    rewrite (mbind_Ok _ _ _ _ _ Hrd).
    assert (headers (rfile_read n h).2 = headers h) as Hh.
    { unfold rfile_read. by destruct (n <? 0)%Z. }
    rewrite (mbind_Ok (getheader "Content-Type") _ (rfile_read n h).2
               (headers (rfile_read n h).2 !! "Content-Type") _ eq_refl), Hh.
    destruct Hbad as [Hempty|Hct].
    + rewrite Hrd in Hempty. injection Hempty as ->.
      by rewrite bool_decide_eq_true_2.
    + rewrite (bool_decide_eq_false_2 (_ = Some _JSON_CONTENT_TYPE)) by done.
      by rewrite orb_true_r.
Qed.

(** X27. POST on [/newsession] with a JSON object that has a [sessionName]:
    the repository issues the next identifier for that name and stores a
    fresh session under it, and the answer is 200 with the identifier.  The
    dispatch returns the status code; the entry point returns nothing. *)
Theorem POST_newsession (h h1 : WaxHandler.t) (m : Item) (name : json) :
  path h = "/newsession" →
  Repository._mutex (REPOSITORY_ h) = false →
  body_decodes h (JObj m) h1 → m !! "sessionName" = Some name →
  let repo := REPOSITORY_ h in
  let key := Repository.format_key (py_str name) (Repository._nodeid repo)
               (Repository._sequence_num repo + 1)%N in
  let after :=
    sent (json_response
            (JObj (<["kind" := JStr "wax#waxNewSession"]>
                     (<["newSessionId" := JStr key]> ∅))) 200)
      (set_REPOSITORY_
         (Repository.mk
            (<[key := SessionData.__init__]> (Repository._sessions repo))
            (Repository._nodeid repo) (Repository._sequence_num repo + 1)%N
            false) h1) in
  _DispatchMethod "POST" h = (Ok (Some 200), after)
  ∧ do_POST h = (Ok None, after).
Proof.
  intros Hp Hm Hbody Hname repo key after.
  assert (_DispatchMethod "POST" h = (Ok (Some 200), after)) as Hres.
  { pose proof (GetJson_truthy h _ h1 Hbody (truthy_obj _ _ _ Hname)) as Hjson.
    unfold after. clear after.
    destruct (body_decodes_frame _ _ _ Hbody) as [rest ->].
    unfold _DispatchMethod.
    rewrite (mbind_Ok (gets path) _ h (path h) h eq_refl), Hp.
    rewrite (bool_decide_eq_false_2 ("/newsession" = "/quit")) by done.
    rewrite !bool_decide_eq_true_2 by done. cbn [andb].
    apply fmap_Ok. unfold _ProcessNewSessionCommand.
    rewrite (mbind_Ok _ _ _ _ _ Hjson), (truthy_obj _ _ _ Hname). cbn [negb].
    unfold py_getitem. rewrite Hname.
    rewrite (mbind_Ok (mret name) _ _ name _ eq_refl).
    rewrite (mbind_Ok _ _ (set_rfile rest h) key
               (set_REPOSITORY_
                  (Repository.mk
                     (<[key := SessionData.__init__]> (Repository._sessions repo))
                     (Repository._nodeid repo)
                     (Repository._sequence_num repo + 1)%N false)
                  (set_rfile rest h))); [done|].
    unfold on_REPOSITORY_. rewrite sessions_set_rfile.
    by rewrite (NewIdentifier_run (py_str name) (REPOSITORY_ h) Hm). }
  split; [exact Hres|]. enter. exact Hres.
Qed.

(** X28. POST on [/removesession] with a JSON object that has a [sessionId].
    When the id is the text of a known identifier, the session is taken out
    of the repository and the answer is 200 with that id.  When it is a text
    that is not known, or null, a boolean or a number, the answer is 404 and
    the repository stays as it is.  The dispatch returns the status code;
    the entry point returns nothing. *)
Theorem POST_removesession (h h1 : WaxHandler.t) (m : Item) (id : json) :
  path h = "/removesession" →
  Repository._mutex (REPOSITORY_ h) = false →
  body_decodes h (JObj m) h1 → m !! "sessionId" = Some id →
  let repo := REPOSITORY_ h in
  (∀ k sd, id = JStr k → Repository._sessions repo !! k = Some sd →
     let after :=
       sent (json_response
               (JObj (<["kind" := JStr "wax#waxRemoveSession"]>
                        (<["removeSessionId" := id]> ∅))) 200)
         (set_REPOSITORY_
            (Repository.mk (delete k (Repository._sessions repo))
               (Repository._nodeid repo) (Repository._sequence_num repo)
               false) h1) in
     _DispatchMethod "POST" h = (Ok (Some 200), after)
     ∧ do_POST h = (Ok None, after))
  ∧ ((∃ k, id = JStr k ∧ Repository._sessions repo !! k = None)
     ∨ id = JNull ∨ (∃ b, id = JBool b) ∨ (∃ n, id = JNum n) →
     let after := sent (error_response "Unknown sessionId" 404) h1 in
     _DispatchMethod "POST" h = (Ok (Some 404), after)
     ∧ do_POST h = (Ok None, after)).
Proof.
  intros Hp Hm Hbody Hid repo.
  pose proof (GetJson_truthy h _ h1 Hbody (truthy_obj _ _ _ Hid)) as Hjson.
  destruct (body_decodes_frame _ _ _ Hbody) as [rest ->].
  assert (_DispatchMethod "POST" h
          = (Some <$> (old_item ← on_REPOSITORY_ (Repository.RemoveIdentifier id);
                       if negb (bool_decide (is_Some old_item)) then
                         _SendJsonErrorResponse "Unknown sessionId" 404
                       else
                         _SendJsonObjectResponse
                           (JObj (<["kind" := JStr "wax#waxRemoveSession"]>
                                    (<["removeSessionId" := id]> ∅))) 200))
              (set_rfile rest h)) as Hd.
  { unfold _DispatchMethod.
    rewrite (mbind_Ok (gets path) _ h (path h) h eq_refl), Hp.
    rewrite (bool_decide_eq_false_2 ("/removesession" = "/quit")) by done.
    rewrite (bool_decide_eq_false_2 ("/removesession" = "/newsession")) by done.
    rewrite !bool_decide_eq_true_2 by done. cbn [andb].
    unfold fmap, M_fmap, _ProcessRemoveSessionCommand.
    rewrite (mbind_Ok _ _ _ _ _ Hjson), (truthy_obj _ _ _ Hid). cbn [negb].
    unfold py_getitem. rewrite Hid.
    by rewrite (mbind_Ok (mret id) _ _ id _ eq_refl). }
  split.
  - intros k sd -> Hk after. unfold repo in Hk.
    assert (_DispatchMethod "POST" h = (Ok (Some 200), after)) as Hres.
    { rewrite Hd. apply fmap_Ok.
      rewrite (mbind_Ok _ _ (set_rfile rest h) (Some sd)
                 (set_REPOSITORY_
                    (Repository.mk (delete k (Repository._sessions repo))
                       (Repository._nodeid repo) (Repository._sequence_num repo)
                       false) (set_rfile rest h))).
      + by rewrite bool_decide_eq_true_2.
      + unfold on_REPOSITORY_. rewrite sessions_set_rfile.
        by rewrite (RemoveIdentifier_run k (REPOSITORY_ h) Hm), Hk. }
    split; [exact Hres|]. enter. exact Hres.
  - intros Hunknown after.
    assert (_DispatchMethod "POST" h = (Ok (Some 404), after)) as Hres.
    { rewrite Hd. apply fmap_Ok.
      rewrite (mbind_Ok _ _ (set_rfile rest h) None (set_rfile rest h)).
      + by rewrite bool_decide_eq_false_2 by (by intros [? ?]).
      + unfold on_REPOSITORY_. rewrite sessions_set_rfile.
        destruct Hunknown as [(k & -> & Hk)|[->|[[b ->]|[n ->]]]].
        * unfold repo in Hk.
          rewrite (RemoveIdentifier_run k (REPOSITORY_ h) Hm), Hk.
          rewrite delete_id by done.
          destruct h as [[ss nid sn mx] rn p hd rf wf]. simpl in Hm.
          by subst mx.
        * destruct h as [[ss nid sn mx] rn p hd rf wf]. simpl in Hm.
          by subst mx.
        * destruct h as [[ss nid sn mx] rn p hd rf wf]. simpl in Hm.
          by subst mx.
        * destruct h as [[ss nid sn mx] rn p hd rf wf]. simpl in Hm.
          by subst mx. }
    split; [exact Hres|]. enter. exact Hres.
Qed.

(** X29. POST on [/removesession] with a list or an object as [sessionId], on a
    repository that holds a session: the id cannot be hashed, the request
    ends in [TypeError] without a response, and the lock of the repository
    stays held.  Every later request on a session or an item then blocks
    without a response.  (On an empty repository [pop] hands back the
    default without hashing the key, and the answer is 404.) *)
Theorem POST_removesession_unhashable (h h1 : WaxHandler.t) (m : Item)
    (id : json) :
  path h = "/removesession" →
  Repository._mutex (REPOSITORY_ h) = false →
  Repository._sessions (REPOSITORY_ h) ≠ ∅ →
  body_decodes h (JObj m) h1 → m !! "sessionId" = Some id →
  (∃ l, id = JArr l) ∨ (∃ d, id = JObj d) →
  let repo := REPOSITORY_ h in
  let held := Repository.mk (Repository._sessions repo)
                (Repository._nodeid repo) (Repository._sequence_num repo) true in
  do_POST h = (Raise TypeError, set_REPOSITORY_ held h1)
  ∧ ∀ method h2,
      REPOSITORY_ h2 = held →
      (∃ sid iid, _RE_ITEM_COMMAND (path h2) = Some (sid, iid))
      ∨ (∃ sid, _RE_ITEM_COMMAND (path h2) = None
                ∧ _RE_SESSION_COMMAND (path h2) = Some sid) →
      _DispatchMethod method h2 = (Hang, h2).
Proof.
  intros Hp Hm Hne Hbody Hid Hun repo held.
  pose proof (GetJson_truthy h _ h1 Hbody (truthy_obj _ _ _ Hid)) as Hjson.
  destruct (body_decodes_frame _ _ _ Hbody) as [rest ->]. split.
  - enter. unfold _DispatchMethod.
    rewrite (mbind_Ok (gets path) _ h (path h) h eq_refl), Hp.
    rewrite (bool_decide_eq_false_2 ("/removesession" = "/quit")) by done.
    rewrite (bool_decide_eq_false_2 ("/removesession" = "/newsession")) by done.
    rewrite !bool_decide_eq_true_2 by done. cbn [andb].
    apply fmap_Raise. unfold _ProcessRemoveSessionCommand.
    rewrite (mbind_Ok _ _ _ _ _ Hjson), (truthy_obj _ _ _ Hid). cbn [negb].
    unfold py_getitem. rewrite Hid.
    rewrite (mbind_Ok (mret id) _ _ id _ eq_refl).
    apply mbind_Raise. unfold on_REPOSITORY_. rewrite sessions_set_rfile.
    destruct h as [[ss nid sn mx] rn p hd rf wf]. simpl in Hm, Hne. subst mx.
    unfold Repository.RemoveIdentifier, Repository.sessions_pop, acquire,
      release, mbind, M_bind, mret, M_ret.
    destruct Hun as [[l ->]|[d ->]]; simpl;
      by rewrite bool_decide_eq_false_2.
  - intros method h2 Hrepo Hroute.
    assert (∀ sid, on_REPOSITORY_ (Repository.GetSessionData sid) h2 = (Hang, h2))
      as Hget.
    { intros sid. unfold on_REPOSITORY_. rewrite Hrepo.
      destruct h2 as [r2 rn p hd rf wf]. simpl in Hrepo. by subst r2. }
    destruct Hroute as [(sid & iid & Hre)|(sid & Hitem & Hre)].
    + rewrite (Dispatch_item method h2 sid iid Hre).
      apply mbind_Hang. unfold _HandleItemMethod. by apply mbind_Hang.
    + rewrite (Dispatch_session method h2 sid Hitem Hre).
      apply mbind_Hang. unfold _HandleSessionMethod. by apply mbind_Hang.
Qed.

End Sessions.

Lemma unknown_session_is_404_witness :
  let h := request one_session "/sessions/nosuch/items/A" ∅ "" in
  Repository._mutex (REPOSITORY_ h) = false
  ∧ Repository._sessions (REPOSITORY_ h) !! "nosuch" = None
  ∧ _RE_ITEM_COMMAND (path h) = Some ("nosuch", "A")
  ∧ do_PUT h = (Ok None, sent (error_response "Unknown sessionId" 404) h).
Proof.
  intros h.
  assert (Repository._sessions (REPOSITORY_ h) !! "nosuch" = None) as Hs
    by (vm_compute; reflexivity).
  split_and!; [reflexivity|exact Hs|reflexivity|].
  apply (unknown_session_is_404 "PUT" h "nosuch" eq_refl Hs).
  left. by exists "A".
Defined.

Lemma GetJson_unusable_body_witness :
  let h := request one_session "/newsession" ∅ "{'sessionName': 's'}" in
  let h' := request one_session "/newsession"
              (<["Content-Type" := "text/plain"]> {[ "Content-Length" := "1" ]})
              "{" in
  headers h !! "Transfer-Encoding" ≠ Some "chunked"
  ∧ _GetJson h = (Raise TypeError, h)
  ∧ json_loads "{" = Raise ValueError
  ∧ _GetJson h' = (Ok JNull, set_rfile "" h').
Proof.
  intros h h'.
  assert (headers h !! "Transfer-Encoding" ≠ Some "chunked") as Hte
    by discriminate.
  assert (headers h' !! "Transfer-Encoding" ≠ Some "chunked") as Hte'
    by discriminate.
  destruct (GetJson_unusable_body h Hte) as (Hnone & _).
  destruct (GetJson_unusable_body h' Hte') as (_ & _ & Hskip).
  split_and!; [exact Hte|exact (Hnone eq_refl)|reflexivity|].
  apply (Hskip "1" 1 eq_refl eq_refl). right. discriminate.
Defined.

Lemma POST_newsession_witness :
  let body := "{'sessionName': 's'}" in
  let h := request (Repository.__init__ "0.01") "/newsession"
             (json_headers body) body in
  let h1 := set_rfile "" h in
  let m : Item := {[ "sessionName" := JStr "s" ]} in
  path h = "/newsession"
  ∧ Repository._mutex (REPOSITORY_ h) = false
  ∧ body_decodes h (JObj m) h1
  ∧ m !! "sessionName" = Some (JStr "s")
  ∧ _DispatchMethod "POST" h
    = (Ok (Some 200),
       sent (json_response
               (JObj (<["kind" := JStr "wax#waxNewSession"]>
                        (<["newSessionId" := JStr "s-0.01-1"]> ∅))) 200)
         (set_REPOSITORY_ one_session h1))
  ∧ do_POST h
    = (Ok None,
       sent (json_response
               (JObj (<["kind" := JStr "wax#waxNewSession"]>
                        (<["newSessionId" := JStr "s-0.01-1"]> ∅))) 200)
         (set_REPOSITORY_ one_session h1)).
Proof.
  intros body h h1 m.
  assert (body_decodes h (JObj m) h1) as Hbody
    by example_body "{'sessionName': 's'}" "20" 20.
  destruct (POST_newsession h h1 m (JStr "s") eq_refl eq_refl Hbody eq_refl)
    as [Hdispatch Hentry].
  split_and!; [reflexivity|reflexivity|exact Hbody|reflexivity|exact Hdispatch
              |exact Hentry].
Defined.

Section RemovalExamples.
#[local] Existing Instance RemovalLib | 0.

Lemma POST_removesession_witness :
  let body := "{'sessionId': 's-0.01-1'}" in
  let h := request one_session "/removesession" (json_headers body) body in
  let h1 := set_rfile "" h in
  let body' := "{'sessionId': 7}" in
  let h' := request one_session "/removesession" (json_headers body') body' in
  let m : Item := {[ "sessionId" := JStr "s-0.01-1" ]} in
  path h = "/removesession"
  ∧ Repository._mutex (REPOSITORY_ h) = false
  ∧ body_decodes h (JObj m) h1
  ∧ m !! "sessionId" = Some (JStr "s-0.01-1")
  ∧ _DispatchMethod "POST" h
    = (Ok (Some 200),
       sent (json_response
               (JObj (<["kind" := JStr "wax#waxRemoveSession"]>
                        (<["removeSessionId" := JStr "s-0.01-1"]> ∅))) 200)
         (set_REPOSITORY_ (Repository.mk ∅ "0.01" 1 false) h1))
  ∧ do_POST h
    = (Ok None,
       sent (json_response
               (JObj (<["kind" := JStr "wax#waxRemoveSession"]>
                        (<["removeSessionId" := JStr "s-0.01-1"]> ∅))) 200)
         (set_REPOSITORY_ (Repository.mk ∅ "0.01" 1 false) h1))
  ∧ do_POST h'
    = (Ok None,
       sent (error_response "Unknown sessionId" 404) (set_rfile "" h')).
Proof.
  intros body h h1 body' h' m.
  assert (body_decodes h (JObj m) h1) as Hbody
    by example_body "{'sessionId': 's-0.01-1'}" "25" 25.
  assert (body_decodes h' (JObj {[ "sessionId" := JNum 7 ]}) (set_rfile "" h'))
    as Hbody' by example_body "{'sessionId': 7}" "16" 16.
  destruct (POST_removesession h h1 m (JStr "s-0.01-1") eq_refl eq_refl Hbody
              eq_refl) as [Hknown _].
  destruct (POST_removesession h' (set_rfile "" h') _ (JNum 7) eq_refl eq_refl
              Hbody' eq_refl) as [_ Hunknown].
  destruct (Hknown "s-0.01-1" _ eq_refl session_of_one_session)
    as [Hdispatch Hentry].
  split_and!; [reflexivity|reflexivity|exact Hbody|reflexivity|exact Hdispatch
              |exact Hentry|].
  apply Hunknown. right. right. right. by exists 7.
Defined.

Lemma POST_removesession_unhashable_witness :
  let body := "{'sessionId': ['s-0.01-1']}" in
  let h := request one_session "/removesession" (json_headers body) body in
  let h1 := set_rfile "" h in
  let m : Item := {[ "sessionId" := JArr [JStr "s-0.01-1"] ]} in
  let held := Repository.mk (Repository._sessions one_session) "0.01" 1 true in
  path h = "/removesession"
  ∧ Repository._mutex (REPOSITORY_ h) = false
  ∧ Repository._sessions (REPOSITORY_ h) ≠ ∅
  ∧ body_decodes h (JObj m) h1
  ∧ do_POST h = (Raise TypeError, set_REPOSITORY_ held h1)
  ∧ statuses (set_REPOSITORY_ held h1) = []
  ∧ do_GET (request held "/sessions/s-0.01-1/items" ∅ "")
    = (Hang, request held "/sessions/s-0.01-1/items" ∅ "").
Proof.
  intros body h h1 m held.
  assert (body_decodes h (JObj m) h1) as Hbody
    by example_body "{'sessionId': ['s-0.01-1']}" "27" 27.
  assert (Repository._sessions (REPOSITORY_ h) ≠ ∅) as Hne.
  { intros Heq. by pose proof (f_equal (fun x => x !! "s-0.01-1") Heq). }
  destruct (POST_removesession_unhashable h h1 m (JArr [JStr "s-0.01-1"])
              eq_refl eq_refl Hne Hbody eq_refl
              (or_introl (ex_intro _ _ eq_refl))) as [Hraise Hlater].
  split_and!; [reflexivity|reflexivity|exact Hne|exact Hbody|exact Hraise
              |reflexivity|].
  apply (Hlater "GET" (request held "/sessions/s-0.01-1/items" ∅ "") eq_refl).
  right. exists "s-0.01-1". split; reflexivity.
Defined.

End RemovalExamples.

(** ** What a request leaves behind *)

Section Footprint.
Context `{PyLib}.

Lemma quiet_bind {A B} (m : M WaxHandler.t A) (f : A → M WaxHandler.t B) :
  quiet m → (∀ a, quiet (f a)) → quiet (m ≫= f).
Proof.
  intros Hm Hf h r h'. unfold mbind, M_bind.
  destruct (m h) as [[a|e|] h1] eqn:Hmh; specialize (Hm _ _ _ Hmh).
  - intros Hfa. specialize (Hf _ _ _ _ Hfa).
    destruct Hm as (Hp & Hh & Hr & Hw). rewrite Hp, Hh, Hr, Hw in Hf.
    exact Hf.
  - by intros [= <- <-].
  - by intros [= <- <-].
Qed.

Lemma answers_bind {A B} (m : M WaxHandler.t A) (f : A → M WaxHandler.t B) :
  quiet m → (∀ a, answers (f a)) → answers (m ≫= f).
Proof.
  intros Hm Hf h r h'. unfold mbind, M_bind.
  destruct (m h) as [[a|e|] h1] eqn:Hmh; specialize (Hm _ _ _ Hmh).
  - intros Hfa. specialize (Hf _ _ _ _ Hfa).
    destruct Hm as (Hp & Hh & Hr & Hw). rewrite Hp, Hh, Hr, Hw in Hf.
    exact Hf.
  - by intros [= <- <-].
  - by intros [= <- <-].
Qed.

Lemma answers_then {A B} (m : M WaxHandler.t A) (b : B) :
  answers m → answers (m ≫= fun _ => mret b).
Proof.
  intros Hm h r h'. unfold mbind, M_bind.
  destruct (m h) as [[a|e|] h1] eqn:Hmh; specialize (Hm _ _ _ Hmh);
    by intros [= <- <-].
Qed.

Lemma quiet_fmap {A B} (g : A → B) (m : M WaxHandler.t A) :
  quiet m → quiet (g <$> m).
Proof.
  intros Hm h r h'. unfold fmap, M_fmap.
  destruct (m h) as [[a|e|] h1] eqn:Hmh; specialize (Hm _ _ _ Hmh);
    by intros [= <- <-].
Qed.

Lemma answers_fmap {A B} (g : A → B) (m : M WaxHandler.t A) :
  answers m → answers (g <$> m).
Proof.
  intros Hm h r h'. unfold fmap, M_fmap.
  destruct (m h) as [[a|e|] h1] eqn:Hmh; specialize (Hm _ _ _ Hmh);
    by intros [= <- <-].
Qed.

Lemma quiet_mret {A} (a : A) : quiet (mret a).
Proof. by intros h r h' [= <- <-]. Qed.

Lemma quiet_raise {A} e : quiet (raise e : M WaxHandler.t A).
Proof. by intros h r h' [= <- <-]. Qed.

Lemma quiet_lift {A} (x : result A) : quiet (lift x).
Proof. by intros h r h' [= <- <-]. Qed.

Lemma quiet_getheader name : quiet (getheader name).
Proof. by intros h r h' [= <- <-]. Qed.

Lemma quiet_rfile_read n : quiet (rfile_read n).
Proof.
  intros h r h'. unfold rfile_read. by destruct (n <? 0)%Z; intros [= <- <-].
Qed.

Lemma quiet_ReadChunkedPayload : quiet _ReadChunkedPayload.
Proof.
  intros h r h'. unfold _ReadChunkedPayload.
  destruct (read_chunks (rfile h) []) as [r0 rest]. by intros [= <- <-].
Qed.

Lemma quiet_on_REPOSITORY_ {A} (m : M Repository.t A) : quiet (on_REPOSITORY_ m).
Proof.
  intros h r h'. unfold on_REPOSITORY_.
  destruct (m (REPOSITORY_ h)) as [r0 repo]. by intros [= <- <-].
Qed.

Lemma quiet_on_session {A} sid sd (m : M SessionData.t A) :
  quiet (on_session sid sd m).
Proof.
  intros h r h'. unfold on_session.
  destruct (m sd) as [r0 s']. by intros [= <- <-].
Qed.

Lemma quiet_py_getitem d k : quiet (py_getitem d k).
Proof.
  unfold py_getitem. destruct d as [| | | | |m];
    try apply quiet_raise. destruct (m !! k); [apply quiet_mret|apply quiet_raise].
Qed.

Lemma quiet_py_get d k : quiet (py_get d k).
Proof.
  unfold py_get. destruct d; try apply quiet_raise. apply quiet_mret.
Qed.

Lemma quiet_py_setdefault d k v : quiet (py_setdefault d k v).
Proof.
  unfold py_setdefault. destruct d as [| | | | |m];
    try apply quiet_raise. destruct (m !! k); apply quiet_mret.
Qed.

Lemma answers_SendResponse payload code ctype :
  answers (_SendResponse payload code ctype).
Proof. intros h r h' [= <- <-]. split_and!; [done..|]. by eexists. Qed.

Lemma answers_SendJsonObjectResponse obj code :
  answers (_SendJsonObjectResponse obj code).
Proof. apply answers_SendResponse. Qed.

Lemma answers_SendJsonErrorResponse msg code :
  answers (_SendJsonErrorResponse msg code).
Proof. apply answers_SendResponse. Qed.

Create HintDb footprint.
#[local] Hint Resolve quiet_mret quiet_raise quiet_lift quiet_getheader
  quiet_rfile_read quiet_ReadChunkedPayload quiet_on_REPOSITORY_
  quiet_on_session quiet_py_getitem quiet_py_get quiet_py_setdefault
  answers_SendResponse answers_SendJsonObjectResponse
  answers_SendJsonErrorResponse : footprint.

Ltac footprint :=
  repeat first
    [ solve [auto with footprint]
    | apply answers_then
    | apply answers_fmap
    | apply quiet_fmap
    | apply answers_bind; [|intros ?]
    | apply quiet_bind; [|intros ?]
    | match goal with
      | |- context [if ?b then _ else _] => destruct b
      | |- context [match ?x with _ => _ end] => destruct x
      end ].

Lemma quiet_GetJson : quiet _GetJson.
Proof. unfold _GetJson. footprint. Qed.

#[local] Hint Resolve quiet_GetJson : footprint.

Lemma answers_ProcessNewSessionCommand : answers _ProcessNewSessionCommand.
Proof. unfold _ProcessNewSessionCommand. footprint. Qed.

Lemma answers_ProcessRemoveSessionCommand : answers _ProcessRemoveSessionCommand.
Proof. unfold _ProcessRemoveSessionCommand. footprint. Qed.

Lemma answers_HandleSessionMethod method sid :
  answers (_HandleSessionMethod method sid).
Proof.
  unfold _HandleSessionMethod, _ProcessGetSessionItemsCommand,
    _ProcessInsertNewItemCommand. footprint.
Qed.

Lemma answers_HandleItemMethod method sid iid :
  answers (_HandleItemMethod method sid iid).
Proof.
  unfold _HandleItemMethod, _ProcessGetItemCommand, _ProcessDeleteItemCommand,
    _ProcessPatchItemCommand, _ProcessUpdateItemCommand. footprint.
Qed.

(** X30. Whatever the request is, the handler writes exactly one response when
    it returns and none when it ends in an exception or blocks; path and
    headers stay as they are; and the run flag of the server changes only
    on [/quit], which clears it. *)
Theorem one_response_per_request (method : string) (h : WaxHandler.t) :
  let r := (_DispatchMethod method h).1 in
  let h' := (_DispatchMethod method h).2 in
  path h' = path h ∧ headers h' = headers h
  ∧ run h' = (if bool_decide (path h = "/quit") then false else run h)
  ∧ match r with
    | Ok _ => ∃ resp, wfile h' = wfile h ++ [resp]
    | _ => wfile h' = wfile h
    end.
Proof.
  intros r h'. subst r h'.
  destruct (bool_decide_reflect (path h = "/quit")) as [Hq|Hq].
  { rewrite (Dispatch_quit method h Hq). simpl. split_and!; [done..|].
    by eexists. }
  pose (rest := fun h0 : WaxHandler.t =>
          if bool_decide (path h = "/newsession") && bool_decide (method = "POST")
          then (Some <$> _ProcessNewSessionCommand) h0
          else if bool_decide (path h = "/removesession")
                  && bool_decide (method = "POST")
          then (Some <$> _ProcessRemoveSessionCommand) h0
          else
            match _RE_ITEM_COMMAND (path h) with
            | Some (session_id, item_id) =>
                (_HandleItemMethod method session_id item_id ;; mret None) h0
            | None =>
                match _RE_SESSION_COMMAND (path h) with
                | Some session_id =>
                    (_HandleSessionMethod method session_id ;; mret None) h0
                | None =>
                    (_SendJsonErrorResponse "URL Not Available" 404 ;;
                     mret None) h0
                end
            end).
  assert (answers rest) as Hrest.
  { unfold rest. destruct (_ && _).
    { apply answers_fmap, answers_ProcessNewSessionCommand. }
    destruct (_ && _).
    { apply answers_fmap, answers_ProcessRemoveSessionCommand. }
    destruct (_RE_ITEM_COMMAND (path h)) as [[sid iid]|].
    { apply answers_then, answers_HandleItemMethod. }
    destruct (_RE_SESSION_COMMAND (path h)) as [sid|].
    { apply answers_then, answers_HandleSessionMethod. }
    apply answers_then, answers_SendJsonErrorResponse. }
  assert (_DispatchMethod method h = rest h) as Hd.
  { unfold rest, _DispatchMethod.
    rewrite (mbind_Ok (gets path) _ h (path h) h eq_refl).
    rewrite (bool_decide_eq_false_2 (path h = "/quit")) by done.
    destruct (_ && _); [done|]. destruct (_ && _); [done|].
    destruct (_RE_ITEM_COMMAND (path h)) as [[sid iid]|]; [done|].
    by destruct (_RE_SESSION_COMMAND (path h)). }
  rewrite Hd.
  destruct (Hrest h (rest h).1 (rest h).2) as (? & ? & ? & ?);
    [by destruct (rest h)|done].
Qed.

End Footprint.
